(** * ngstents web GUI: geometry extraction and payload encoding

    A shallow embedding of [tentswebgui_template.py]: the methods
    [WebGLScene.GetFacesAndNormals], [WebGLScene.GetElements2D],
    [WebGLScene.GetData] and the function [encodeData], followed by
    the properties of them that the specification states.

    Python exceptions are modelled by an error monad, the local
    variables of the record loop by an explicit loop state, the calls
    of [time()] by a clock that is read through a tick counter, and
    the arithmetic of numpy by a class [Number] with two instances:
    binary64 (what the program runs on) and the real numbers (the
    exact arithmetic in which geometric statements are phrased). *)

From Stdlib Require Import String Ascii.
From Stdlib.Strings Require Import Byte.
From Stdlib Require Import List NArith ZArith Lia Bool.
From Stdlib Require Import QArith Floats Reals Lra.
Import ListNotations.
Close Scope Q_scope.

Set Implicit Arguments.

(** ** Exceptions *)

Inductive exn : Type :=
| IndexError          (* a list or array index out of range *)
| ValueError          (* reshape, ragged array, cross product of wrong size,
                         reduction of an empty array *)
| LookupError         (* the mesh does not know an element or a vertex *)
| UnboundLocalError.  (* a local variable read before assignment *)

Inductive result (A : Type) : Type :=
| Ok (a : A)
| Raise (e : exn).

Arguments Ok {A} a.
Arguments Raise {A} e.

Definition bind {A B} (r : result A) (k : A -> result B) : result B :=
  match r with
  | Ok a => k a
  | Raise e => Raise e
  end.

Declare Scope py_scope.
Delimit Scope py_scope with py.
Notation "x <- r ;; k" := (bind r (fun x => k))
  (at level 100, r at next level, right associativity) : py_scope.
Notation "' p <- r ;; k" := (bind r (fun p => k))
  (at level 100, p pattern, r at next level, right associativity) : py_scope.
Open Scope py_scope.

(** [l[i]] of Python for a non-negative index. *)
Definition item {A} (l : list A) (i : nat) : result A :=
  match nth_error l i with
  | Some a => Ok a
  | None => Raise IndexError
  end.

(** [l[i] = a] of Python for a non-negative index: it raises out of range. *)
Fixpoint set_item {A} (l : list A) (i : nat) (a : A) : result (list A) :=
  match l, i with
  | [], _ => Raise IndexError
  | _ :: t, O => Ok (a :: t)
  | h :: t, S i' => t' <- set_item t i' a ;; Ok (h :: t')
  end.

(** [mapM], the loop [for x in l: out.append(f(x))] that stops at the
    first exception. *)
Fixpoint for_each {A B} (f : A -> result B) (l : list A) : result (list B) :=
  match l with
  | [] => Ok []
  | a :: t => b <- f a ;; bs <- for_each f t ;; Ok (b :: bs)
  end.

(** ** The arithmetic of numpy *)

Class Number (F : Type) : Type := {
  nzero : F;
  nunit : F;
  ntwo : F;
  nadd : F -> F -> F;
  nsub : F -> F -> F;
  nmul : F -> F -> F;
  ndiv : F -> F -> F;
  nneg : F -> F;
  nsqrt : F -> F;
  np_sign : F -> F;          (* np.sign *)
  gt0 : F -> bool;           (* x > 0 *)
  np_maximum : F -> F -> F;  (* the step of the reduction .max() *)
  np_minimum : F -> F -> F   (* the step of the reduction .min() *)
}.

(** binary64, as numpy computes on [float64]: every operation is the
    IEEE-754 one, [np.sign] maps both zeros to 0 and NaN to NaN, and
    the reductions [max] and [min] propagate NaN. *)
#[export] Instance float_Number : Number float := {|
  nzero := 0%float;
  nunit := 1%float;
  ntwo := 2%float;
  nadd := PrimFloat.add;
  nsub := PrimFloat.sub;
  nmul := PrimFloat.mul;
  ndiv := PrimFloat.div;
  nneg := PrimFloat.opp;
  nsqrt := PrimFloat.sqrt;
  np_sign := fun x =>
    if PrimFloat.ltb 0 x then 1%float
    else if PrimFloat.ltb x 0 then (-1)%float
    else if PrimFloat.eqb x 0 then 0%float
    else x;
  gt0 := fun x => PrimFloat.ltb 0 x;
  np_maximum := fun a b =>
    if PrimFloat.leb b a || PrimFloat.is_nan a then a else b;
  np_minimum := fun a b =>
    if PrimFloat.leb a b || PrimFloat.is_nan a then a else b
|}.

(** The real numbers: the same operations without rounding. *)
#[export] Instance R_Number : Number R := {|
  nzero := 0%R;
  nunit := 1%R;
  ntwo := 2%R;
  nadd := Rplus;
  nsub := Rminus;
  nmul := Rmult;
  ndiv := Rdiv;
  nneg := Ropp;
  nsqrt := R_sqrt.sqrt;
  np_sign := fun x =>
    if Rlt_dec 0 x then 1%R
    else if Rlt_dec x 0 then (-1)%R
    else 0%R;
  gt0 := fun x => if Rlt_dec 0 x then true else false;
  np_maximum := Rmax;
  np_minimum := Rmin
|}.

(** ** Vectors and the geometry kernel *)

Section Kernel.
Context {F : Type} `{Number F}.

(** Elementwise operation of two arrays of the same shape. *)
Fixpoint zip_with (f : F -> F -> F) (a b : list F) : list F :=
  match a, b with
  | x :: a', y :: b' => f x y :: zip_with f a' b'
  | _, _ => []
  end.

(** [a.dot(b)] of two vectors: the products summed from the left (the
    order in which a BLAS adds three products is not fixed by numpy;
    no statement below depends on it beyond the last bit). *)
Definition dot (a b : list F) : F :=
  match zip_with nmul a b with
  | [] => nzero
  | p :: ps => fold_left nadd ps p
  end.

(** [np.linalg.norm(a)]: the square root of [a.dot(a)]. *)
Definition np_norm (a : list F) : F := nsqrt (dot a a).

(** [np.cross(a, b)]: defined on vectors of three coordinates.  (On
    two coordinates numpy returns a scalar and the caller fails on
    the truth value of an array; any other size is refused.) *)
Definition np_cross (a b : list F) : result (list F) :=
  match a, b with
  | [a0; a1; a2], [b0; b1; b2] =>
      Ok [nsub (nmul a1 b2) (nmul a2 b1);
          nsub (nmul a2 b0) (nmul a0 b2);
          nsub (nmul a0 b1) (nmul a1 b0)]
  | _, _ => Raise ValueError
  end.

(** [np.array(element)] of a list of points: the points must have
    the same number of coordinates.  The transposed array [pts] is
    kept as the list of its columns, which are the points. *)
Definition np_array (element : list (list F)) : result (list (list F)) :=
  match element with
  | [] => Ok []
  | p :: ps =>
      if forallb (fun q => Nat.eqb (length q) (length p)) ps
      then Ok element
      else Raise ValueError
  end.

(** [np.roll(pts, 1, 1)]: the columns moved one place to the right,
    the last one coming first.  Without a point the array has one
    axis only and axis 1 is refused. *)
Definition np_roll (pts : list (list F)) : result (list (list F)) :=
  match pts with
  | [] => Raise ValueError
  | p :: ps => Ok (last pts p :: removelast pts)
  end.

(** [vecs[:, c]]. *)
Definition column (vecs : list (list F)) (c : nat) : result (list F) :=
  item vecs c.

(** The body of [for i in range(4)] of [GetFacesAndNormals]. *)
Definition face_and_normal (vecs : list (list F)) (i : nat)
  : result (list nat * list F) :=
  let j := ((i + 1) mod 4)%nat in
  let k := ((i + 2) mod 4)%nat in
  let m := ((i + 3) mod 4)%nat in
  vk <- column vecs k ;;
  vm <- column vecs m ;;
  normal <- np_cross vk vm ;;
  vi <- column vecs i ;;
  let sign := nneg (np_sign (dot vi normal)) in
  let face := if gt0 sign then [j; k; m] else [j; m; k] in
  let nrm := np_norm normal in
  Ok (face, map (fun c => nmul (ndiv c nrm) sign) normal).

Definition GetFacesAndNormals (element : list (list F))
  : result (list (list nat) * list (list F)) :=
  pts <- np_array element ;;
  rolled <- np_roll pts ;;
  let vecs := map (fun '(p, q) => zip_with nsub p q) (combine pts rolled) in
  fns <- for_each (face_and_normal vecs) [0; 1; 2; 3]%nat ;;
  Ok (map fst fns, map snd fns).

End Kernel.

(** ** The tent flattener *)

(** The mesh, as far as [GetElements2D] reads it.  A vertex handle is
    identified with its number [v.nr]; a lookup that raises is [None].
    The lookups are calls into the mesh library, outside the module:
    [GetElements2D] passes the element number on without a check, and
    whether the library raises for a number it does not have, or
    returns an element without vertices, is the library's matter. *)
Record Mesh (F : Type) : Type := {
  element_vertices : Z -> option (list Z);  (* self.mesh[ElementId(VOL, elnr)].vertices *)
  vertex_point : Z -> option (list F)       (* self.mesh[v].point *)
}.

(** What [self.tps.DrawPitchedTentsGL()] returns: two flat lists with
    four entries per record, [nr, layer, vnr, elnr] in [data] and three
    bottom times and the top time in [times], and the two counts. *)
Record Tents (F : Type) : Type := {
  tents_data : list Z;
  tents_times : list F;
  tents_ntents : Z;
  tents_nlayers : Z
}.

(** The local variables of [GetElements2D] that live across the
    iterations of its loop.  [center] is assigned inside the vertex
    loop only and is unbound ([None]) until then; [ticks] counts the
    calls of [time()] made so far. *)
Record loop_state (F : Type) : Type := {
  gvertices : list (list F);
  tentcenters : list nat;
  nrs : list Z;
  layers : list Z;
  faces : list (list nat);
  normals : list (list F);
  setup_times : list F;
  tent_times : list F;
  face_times : list F;
  center : option nat;
  ticks : nat
}.

(** The six lists that [GetElements2D] returns, with the two keys it
    stores in the dictionary it is given. *)
Record Elements (F : Type) : Type := {
  el_vertices : list (list F);
  el_normals : list (list F);
  el_faces : list (list nat);
  el_tentcenters : list nat;
  el_nrs : list Z;
  el_layers : list Z;
  el_ntents : Z;
  el_nlayers : Z
}.

Section Flattener.
Context {F : Type} `{Number F}.

(** [np.array(l).reshape(-1, 4)] of a flat list. *)
Fixpoint reshape4 {A} (l : list A) : result (list (list A)) :=
  match l with
  | [] => Ok []
  | a :: b :: c :: d :: t => rows <- reshape4 t ;; Ok ([a; b; c; d] :: rows)
  | _ => Raise ValueError
  end.

(** The result of a call into the mesh library; [LookupError] stands
    for whatever a library call raises when it does not return. *)
Definition lookup {A} (o : option A) : result A :=
  match o with
  | Some a => Ok a
  | None => Raise LookupError
  end.

(** Reading a local variable. *)
Definition read_local {A} (o : option A) : result A :=
  match o with
  | Some a => Ok a
  | None => Raise UnboundLocalError
  end.

(** [for j, v in enumerate(self.mesh[eid].vertices)], from the
    [j]-th vertex on; [vertices] and [center] are the variables the
    loop updates. *)
Fixpoint vertex_loop (mesh : Mesh F) (tbots : list F) (ttop : F) (vnr : Z)
    (j : nat) (vs : list Z) (vertices : list (list F)) (center : option nat)
  : result (list (list F) * option nat) :=
  match vs with
  | [] => Ok (vertices, center)
  | v :: vs' =>
      pt <- lookup (vertex_point mesh v) ;;
      tb <- item tbots j ;;
      let vpt := pt ++ [tb] in
      let vertices := vertices ++ [vpt] in
      if Z.eqb v vnr then
        vpt_top <- set_item vpt 2 ttop ;;
        vertex_loop mesh tbots ttop vnr (S j) vs' (vertices ++ [vpt_top]) (Some j)
      else
        vertex_loop mesh tbots ttop vnr (S j) vs' vertices center
  end.

(** Lines 183 to 193: the vertex loop of one record, started with an
    empty list [vertices]; it returns [vertices] and [center]. *)
Definition element_points (mesh : Mesh F) (tbots : list F) (ttop : F)
    (vnr elnr : Z) (center : option nat)
  : result (list (list F) * option nat) :=
  vs <- lookup (element_vertices mesh elnr) ;;
  vertex_loop mesh tbots ttop vnr 0 vs [] center.

(** The body of [for i, d in enumerate(data)], lines 173 to 195:
    the record unpacked, its points built, the center appended.  It
    returns the loop state and the list [vertices].  [clock n] is
    what the [n]-th call of [time()] returns. *)
Definition record_points (clock : nat -> F) (mesh : Mesh F)
    (times : list (list F)) (st : loop_state F) (i : nat) (d : list Z)
  : result (loop_state F * list (list F)) :=
  let t := ticks st in
  let start := clock t in
  match d with
  | [nr; layer; vnr; elnr] =>
      let nrs' := nrs st ++ [nr] in
      let layers' := layers st ++ [layer] in
      trow <- item times i ;;
      let tbots := firstn 3 trow in
      ttop <- item trow 3 ;;
      let setup_times' := setup_times st ++ [nsub (clock (1 + t)%nat) start] in
      let start := clock (2 + t)%nat in
      '(vertices, center') <- element_points mesh tbots ttop vnr elnr (center st) ;;
      c <- read_local center' ;;
      Ok ({| gvertices := gvertices st;
             tentcenters := tentcenters st ++ [c];
             nrs := nrs';
             layers := layers';
             faces := faces st;
             normals := normals st;
             setup_times := setup_times';
             tent_times := tent_times st ++ [nsub (clock (3 + t)%nat) start];
             face_times := face_times st;
             center := center';
             ticks := (4 + t)%nat |}, vertices)
  | _ => Raise ValueError
  end.

(** Lines 196 to 202: the faces and normals of [vertices], and the
    three lists extended. *)
Definition record_faces (clock : nat -> F) (st : loop_state F)
    (vertices : list (list F)) : result (loop_state F) :=
  let t := ticks st in
  let start := clock t in
  '(fcs, nrmls) <- GetFacesAndNormals vertices ;;
  Ok {| gvertices := gvertices st ++ vertices;
        tentcenters := tentcenters st;
        nrs := nrs st;
        layers := layers st;
        faces := faces st ++ fcs;
        normals := normals st ++ nrmls;
        setup_times := setup_times st;
        tent_times := tent_times st;
        face_times := face_times st ++ [nsub (clock (1 + t)%nat) start];
        center := center st;
        ticks := (2 + t)%nat |}.

Definition record_body (clock : nat -> F) (mesh : Mesh F)
    (times : list (list F)) (st : loop_state F) (i : nat) (d : list Z)
  : result (loop_state F) :=
  '(st1, vertices) <- record_points clock mesh times st i d ;;
  record_faces clock st1 vertices.

Fixpoint record_loop (clock : nat -> F) (mesh : Mesh F)
    (times : list (list F)) (st : loop_state F) (i : nat)
    (data : list (list Z)) : result (loop_state F) :=
  match data with
  | [] => Ok st
  | d :: data' =>
      st' <- record_body clock mesh times st i d ;;
      record_loop clock mesh times st' (S i) data'
  end.

Definition initial_state : loop_state F :=
  {| gvertices := []; tentcenters := []; nrs := []; layers := [];
     faces := []; normals := [];
     setup_times := []; tent_times := []; face_times := [];
     center := None; ticks := 0 |}.

(** [sum(l)] of Python. *)
Definition py_sum (l : list F) : F := fold_left nadd l nzero.

(** [GetElements2D]: the returned lists, and the three numbers that
    the final [print] writes to the standard output. *)
Definition GetElements2D (clock : nat -> F) (mesh : Mesh F) (tps : Tents F)
  : result (Elements F * (F * F * F)) :=
  data <- reshape4 (tents_data tps) ;;
  times <- reshape4 (tents_times tps) ;;
  st <- record_loop clock mesh times initial_state 0 data ;;
  Ok ({| el_vertices := gvertices st;
         el_normals := normals st;
         el_faces := faces st;
         el_tentcenters := tentcenters st;
         el_nrs := nrs st;
         el_layers := layers st;
         el_ntents := tents_ntents tps;
         el_nlayers := tents_nlayers tps |},
      (py_sum (setup_times st), py_sum (tent_times st),
       py_sum (face_times st))).

End Flattener.

(** ** The payload encoder *)

(** A [float32] value is identified with the four bytes numpy stores
    for it, in memory order; the host is little-endian, so the least
    significant byte comes first. *)
Definition float32 : Type := (byte * byte * byte * byte)%type.

Definition float32_bytes (w : float32) : list byte :=
  let '(b0, b1, b2, b3) := w in [b0; b1; b2; b3].

Definition byte_of_N (n : N) : byte :=
  match Byte.of_N n with
  | Some b => b
  | None => x00
  end.

Definition b64_alphabet : list ascii :=
  list_ascii_of_string
    "ABCDEFGHIJKLMNOPQRSTUVWXYZabcdefghijklmnopqrstuvwxyz0123456789+/".

Definition b64_char (n : N) : ascii := nth (N.to_nat n) b64_alphabet "="%char.

(** The four 6-bit groups of three bytes. *)
Definition sextets (a b c : N) : N * N * N * N :=
  (a / 4, (a mod 4) * 16 + b / 16, (b mod 16) * 4 + c / 64, c mod 64)%N.

(** [base64.b64encode]: the standard alphabet, padded with [=]. *)
Fixpoint b64encode (bs : list byte) : string :=
  match bs with
  | [] => EmptyString
  | [a] =>
      let '(s0, s1, _, _) := sextets (Byte.to_N a) 0 0 in
      String (b64_char s0) (String (b64_char s1) "==")
  | [a; b] =>
      let '(s0, s1, s2, _) := sextets (Byte.to_N a) (Byte.to_N b) 0 in
      String (b64_char s0) (String (b64_char s1) (String (b64_char s2) "="))
  | a :: b :: c :: t =>
      let '(s0, s1, s2, s3) := sextets (Byte.to_N a) (Byte.to_N b) (Byte.to_N c) in
      String (b64_char s0) (String (b64_char s1)
        (String (b64_char s2) (String (b64_char s3) (b64encode t))))
  end.

(** [encodeData]: the array flattened row by row, every entry
    converted to [float32] by [cast] (numpy's conversion to
    [dtype=np.float32]), the bytes of the buffer in base64. *)
Definition encodeData {F : Type} (cast : F -> float32) (array : list (list F))
  : string :=
  let values := map cast (concat array) in
  b64encode (flat_map float32_bytes values).

(** The conversion of a binary64 number to [float32]: rounded to
    nearest even on 24 bits of precision, its IEEE-754 bit pattern laid
    out least significant byte first. *)
Definition float32_bits (x : float) : Z :=
  let sign_bit (s : bool) := if s then 2147483648%Z else 0%Z in
  let pattern (r : spec_float) :=
    match r with
    | S754_zero s => sign_bit s
    | S754_infinity s => (sign_bit s + 2139095040)%Z
    | S754_nan => 2143289344%Z
    | S754_finite s m e => (sign_bit s + (e + 149) * 8388608 + Zpos m)%Z
    end in
  match Prim2SF x with
  | S754_finite s m e => pattern (binary_round 24 128 s m e)
  | r => pattern r
  end.

Definition float32_of_float (x : float) : float32 :=
  let w := Z.to_N (float32_bits x) in
  (byte_of_N (w mod 256), byte_of_N ((w / 256) mod 256),
   byte_of_N ((w / 65536) mod 256), byte_of_N ((w / 16777216) mod 256))%N.

(** Modelled from the spec: the decoder of the payload, which is on the
    side of the renderer and not part of the Python module.  The text
    is read as base64 and the bytes, four at a time, as little-endian
    [float32] values. *)
Fixpoint b64_index_from (n : N) (alphabet : list ascii) (c : ascii) : option N :=
  match alphabet with
  | [] => None
  | a :: rest =>
      if Ascii.eqb a c then Some n else b64_index_from (N.succ n) rest c
  end.

(** Modelled from the spec: the 6-bit group a character stands for. *)
Definition b64_index (c : ascii) : option N := b64_index_from 0 b64_alphabet c.

(** Modelled from the spec: the three bytes of four 6-bit groups. *)
Definition octets (s0 s1 s2 s3 : N) : list byte :=
  [byte_of_N (s0 * 4 + s1 / 16); byte_of_N ((s1 mod 16) * 16 + s2 / 4);
   byte_of_N ((s2 mod 4) * 64 + s3)]%N.

Definition opt_bind {A B} (o : option A) (k : A -> option B) : option B :=
  match o with
  | Some a => k a
  | None => None
  end.

(** Modelled from the spec: base64 text back to bytes; a padded group
    may only be the last one. *)
Fixpoint b64decode (s : string) : option (list byte) :=
  match s with
  | EmptyString => Some []
  | String c0 (String c1 (String c2 (String c3 rest))) =>
      opt_bind (b64_index c0) (fun s0 =>
      opt_bind (b64_index c1) (fun s1 =>
      if Ascii.eqb c3 "="%char then
        match rest with
        | EmptyString =>
            if Ascii.eqb c2 "="%char then Some (firstn 1 (octets s0 s1 0 0))
            else opt_bind (b64_index c2) (fun s2 =>
                 Some (firstn 2 (octets s0 s1 s2 0)))
        | _ => None
        end
      else
        opt_bind (b64_index c2) (fun s2 =>
        opt_bind (b64_index c3) (fun s3 =>
        opt_bind (b64decode rest) (fun bs =>
        Some (octets s0 s1 s2 s3 ++ bs))))))
  | _ => None
  end.

(** Modelled from the spec: bytes, four at a time, as [float32] values. *)
Fixpoint float32_array (bs : list byte) : option (list float32) :=
  match bs with
  | [] => Some []
  | b0 :: b1 :: b2 :: b3 :: t =>
      opt_bind (float32_array t) (fun ws => Some ((b0, b1, b2, b3) :: ws))
  | _ => None
  end.

(** Modelled from the spec: [Decode]. *)
Definition Decode (text : string) : option (list float32) :=
  opt_bind (b64decode text) float32_array.

(** ** The scene data *)

(** The dictionary that [GetData] returns, one field per key. *)
Record SceneData (F : Type) : Type := {
  d_ntents : Z;
  d_nlayers : Z;
  d_ngsolve_version : string;
  d_tent_el_vertices : string;
  d_face_normals : string;
  d_faces : list (list nat);
  d_tent_centers : list nat;
  d_tent_nrs : list Z;
  d_tent_layers : list Z;
  d_slab_center : list F;
  d_slab_radius : F
}.

Section Scene.
Context {F : Type} `{Number F}.

(** [a.max(axis=0)] and [a.min(axis=0)] of an array of rows: the rows
    folded from the first one on; an empty array has no maximum. *)
Definition reduce_axis0 (f : F -> F -> F) (rows : list (list F))
  : result (list F) :=
  match rows with
  | [] => Raise ValueError
  | r :: rs => Ok (fold_left (zip_with f) rs r)
  end.

(** [GetData].  [version] is [ngs.__version__] and [cast] numpy's
    conversion to [float32]; the second component is what
    [GetElements2D] prints. *)
Definition GetData (clock : nat -> F) (mesh : Mesh F) (version : string)
    (cast : F -> float32) (tps : Tents F)
  : result (SceneData F * (F * F * F)) :=
  '(lists, printed) <- GetElements2D clock mesh tps ;;
  vertices <- np_array (el_vertices lists) ;;
  normals <- np_array (el_normals lists) ;;
  vmax <- reduce_axis0 np_maximum vertices ;;
  vmin <- reduce_axis0 np_minimum vertices ;;
  Ok ({| d_ntents := el_ntents lists;
         d_nlayers := el_nlayers lists;
         d_ngsolve_version := version;
         d_tent_el_vertices := encodeData cast vertices;
         d_face_normals := encodeData cast normals;
         d_faces := el_faces lists;
         d_tent_centers := el_tentcenters lists;
         d_tent_nrs := el_nrs lists;
         d_tent_layers := el_layers lists;
         d_slab_center := map (fun c => ndiv c ntwo) (zip_with nadd vmin vmax);
         d_slab_radius := ndiv (np_norm (zip_with nsub vmax vmin)) ntwo |},
      printed).

End Scene.

(** ** Notions the statements are phrased in *)

Section Measures.
Context {F : Type} `{Number F}.

(** A small natural number as a number of the arithmetic. *)
Fixpoint of_nat (n : nat) : F :=
  match n with
  | O => nzero
  | S O => nunit
  | S n' => nadd (of_nat n') nunit
  end.

(** The centroid of a list of points. *)
Definition centroid (pts : list (list F)) : list F :=
  match pts with
  | [] => []
  | p :: ps =>
      map (fun c => ndiv c (of_nat (length pts)))
          (fold_left (zip_with nadd) ps p)
  end.

(** The points a face refers to. *)
Definition face_points (pts : list (list F)) (face : list nat)
  : list (list F) :=
  flat_map (fun ix => match nth_error pts ix with
                      | Some p => [p]
                      | None => []
                      end) face.

(** [dot(normal, centroid(face) - centroid(tetrahedron)) > 0]. *)
Definition points_away (pts : list (list F)) (face : list nat)
    (normal : list F) : bool :=
  gt0 (dot normal (zip_with nsub (centroid (face_points pts face))
                                 (centroid pts))).

(** Six times the signed volume of the tetrahedron on four points:
    the triple product of the edges that leave the first point. *)
Definition volume6 (pts : list (list F)) : F :=
  match pts with
  | [p0; p1; p2; p3] =>
      match np_cross (zip_with nsub p2 p0) (zip_with nsub p3 p0) with
      | Ok n => dot (zip_with nsub p1 p0) n
      | Raise _ => nzero
      end
  | _ => nzero
  end.

(** The squared distance of two points. *)
Definition dist2 (p q : list F) : F :=
  dot (zip_with nsub p q) (zip_with nsub p q).

(** The test [v.nr == vnr] of the vertex loop. *)
Definition is_central (vnr v : Z) : bool := Z.eqb v vnr.

(** The top point of a bottom point: its third coordinate replaced. *)
Definition top_of (ttop : F) (b : list F) : list F :=
  firstn 2 b ++ [ttop] ++ skipn 3 b.

(** The bottom point of the [j]-th vertex [v] of an element. *)
Definition is_bottom_point (mesh : Mesh F) (tbots : list F)
    (j : nat) (v : Z) (b : list F) : Prop :=
  exists pt tb, vertex_point mesh v = Some pt /\ nth_error tbots j = Some tb
                /\ b = pt ++ [tb].

(** The bottom points of the vertices [vs], the first of which has
    the local index [j]. *)
Fixpoint bottom_frame (mesh : Mesh F) (tbots : list F) (j : nat)
    (vs : list Z) (bs : list (list F)) : Prop :=
  match vs, bs with
  | [], [] => True
  | v :: vs', b :: bs' =>
      is_bottom_point mesh tbots j v b /\ bottom_frame mesh tbots (S j) vs' bs'
  | _, _ => False
  end.

(** The bottom points with the top point of every central vertex
    put right after its bottom point. *)
Fixpoint with_top (ttop : F) (vnr : Z) (vs : list Z) (bs : list (list F))
  : list (list F) :=
  match vs, bs with
  | v :: vs', b :: bs' =>
      (if Z.eqb v vnr then [b; top_of ttop b] else [b])
      ++ with_top ttop vnr vs' bs'
  | _, _ => []
  end.

(** A record of the shape [GetElements2D] is written for: its element
    is a triangle of three known vertices with two coordinates each,
    exactly one of which is the central vertex of the record. *)
Definition well_formed_record (mesh : Mesh F) (d : list Z) : bool :=
  match d with
  | [nr; layer; vnr; elnr] =>
      match element_vertices mesh elnr with
      | Some vs =>
          Nat.eqb (length vs) 3
          && Nat.eqb (length (filter (is_central vnr) vs)) 1
          && forallb (fun v => match vertex_point mesh v with
                               | Some pt => Nat.eqb (length pt) 2
                               | None => false
                               end) vs
      | None => false
      end
  | _ => false
  end.

(** A record that names an element or a vertex the mesh does not
    know, or whose element has no vertex with the central number. *)
Definition unknown_or_uncentred (mesh : Mesh F) (d : list Z) : bool :=
  match d with
  | [nr; layer; vnr; elnr] =>
      match element_vertices mesh elnr with
      | Some vs =>
          existsb (fun v => match vertex_point mesh v with
                            | Some _ => false
                            | None => true
                            end) vs
          || negb (existsb (is_central vnr) vs)
      | None => true
      end
  | _ => false
  end.

End Measures.

(** The face list the specification describes: the triples of every
    element shifted by the number of vertices emitted before it. *)
Fixpoint offset_faces {F : Type} (count : nat)
    (elements : list (list (list F) * list (list nat))) : list (list nat) :=
  match elements with
  | [] => []
  | (vertices, fcs) :: rest =>
      map (map (Nat.add count)) fcs
      ++ offset_faces (count + length vertices) rest
  end.

(** The exact value of a finite binary64 number. *)
Definition exact (x : float) : option Q :=
  match Prim2SF x with
  | S754_zero _ => Some 0%Q
  | S754_finite s m e =>
      Some ((if s then -1 else 1) * inject_Z (Zpos m) * Qpower 2 e)%Q
  | _ => None
  end.

Definition exact_point (p : list float) : option (Q * Q * Q) :=
  match map exact p with
  | [Some x; Some y; Some z] => Some (x, y, z)
  | _ => None
  end.

Definition Qdist2 (p q : Q * Q * Q) : Q :=
  let '(x, y, z) := p in
  let '(x', y', z') := q in
  ((x - x') * (x - x') + (y - y') * (y - y') + (z - z') * (z - z'))%Q.

Definition Qvolume6 (p0 p1 p2 p3 : Q * Q * Q) : Q :=
  let '(x0, y0, z0) := p0 in
  let '(x1, y1, z1) := p1 in
  let '(x2, y2, z2) := p2 in
  let '(x3, y3, z3) := p3 in
  ((x1 - x0) * ((y2 - y0) * (z3 - z0) - (z2 - z0) * (y3 - y0))
   + (y1 - y0) * ((z2 - z0) * (x3 - x0) - (x2 - x0) * (z3 - z0))
   + (z1 - z0) * ((x2 - x0) * (y3 - y0) - (y2 - y0) * (x3 - x0)))%Q.

(** Four binary64 points that, taken exactly, span a tetrahedron of
    non-zero volume. *)
Definition non_degenerate_float (pts : list (list float)) : bool :=
  match map exact_point pts with
  | [Some p0; Some p1; Some p2; Some p3] =>
      negb (Qeq_bool (Qvolume6 p0 p1 p2 p3) 0)
  | _ => false
  end.

(** Four binary64 points that, taken exactly, have six equal non-zero
    distances. *)
Definition regular_float (pts : list (list float)) : bool :=
  match map exact_point pts with
  | [Some p0; Some p1; Some p2; Some p3] =>
      let s := Qdist2 p0 p1 in
      negb (Qeq_bool s 0)
      && forallb (fun d => Qeq_bool d s)
           [Qdist2 p0 p2; Qdist2 p0 p3; Qdist2 p1 p2; Qdist2 p1 p3; Qdist2 p2 p3]
  | _ => false
  end.

(** [abs(norm(v) - 1) <= 1e-6] in binary64. *)
Definition unit_length_float (v : list float) : bool :=
  PrimFloat.leb (PrimFloat.abs (PrimFloat.sub (np_norm v) 1)) 0x1.0c6f7a0b5ed8dp-20%float.

(** Four real points with six equal non-zero distances. *)
Definition regular_R (pts : list (list R)) : Prop :=
  match pts with
  | [p0; p1; p2; p3] =>
      let s := dist2 p0 p1 in
      (0 < s)%R /\ dist2 p0 p2 = s /\ dist2 p0 p3 = s /\ dist2 p1 p2 = s
      /\ dist2 p1 p3 = s /\ dist2 p2 p3 = s
  | _ => False
  end.

(** ** Concrete inputs *)

Definition clock0 : nat -> float := fun _ => 0%float.

(** A mesh of the unit square scaled by two: the triangle 0 on the
    vertices 0, 1, 2 and the quadrilateral 1 on the vertices 0 to 3. *)
Definition mesh1 : Mesh float :=
  {| element_vertices := fun e =>
       if Z.eqb e 0 then Some [0; 1; 2]%Z
       else if Z.eqb e 1 then Some [0; 1; 2; 3]%Z
       else None;
     vertex_point := fun v =>
       if Z.eqb v 0 then Some [0; 0]%float
       else if Z.eqb v 1 then Some [2; 0]%float
       else if Z.eqb v 2 then Some [0; 2]%float
       else if Z.eqb v 3 then Some [2; 2]%float
       else None |}.

(** One record: tent 0 of layer 0 around the vertex 0 on the element 0,
    bottom times 0 and top time 2. *)
Definition tents1 : Tents float :=
  {| tents_data := [0; 0; 0; 0]%Z; tents_times := [0; 0; 0; 2]%float;
     tents_ntents := 1; tents_nlayers := 1 |}.

(** The same record on the quadrilateral. *)
Definition tents_quad : Tents float :=
  {| tents_data := [0; 0; 0; 1]%Z; tents_times := [0; 0; 0; 2]%float;
     tents_ntents := 1; tents_nlayers := 1 |}.

(** Two records on the element 0: around the vertex 0, then around the
    vertex 1. *)
Definition tents2 : Tents float :=
  {| tents_data := [0; 0; 0; 0; 1; 1; 1; 0]%Z;
     tents_times := [0; 0; 0; 2; 2; 0; 0; 4]%float;
     tents_ntents := 2; tents_nlayers := 2 |}.

(** One record with eight times instead of four. *)
Definition tents_long : Tents float :=
  {| tents_data := [0; 0; 0; 0]%Z;
     tents_times := [0; 0; 0; 2; 1; 1; 1; 3]%float;
     tents_ntents := 1; tents_nlayers := 1 |}.

(** Two records, the second around the vertex 3, which is not a vertex
    of its element 0. *)
Definition tents_stale : Tents float :=
  {| tents_data := [0; 0; 1; 0; 1; 1; 3; 0]%Z;
     tents_times := [0; 0; 0; 2; 0; 2; 0; 4]%float;
     tents_ntents := 2; tents_nlayers := 2 |}.

(** A regular tetrahedron. *)
Definition regular : list (list float) :=
  [[1; 1; 1]; [1; -1; -1]; [-1; 1; -1]; [-1; -1; 1]]%float.

(** The same tetrahedron scaled by 2^600 and by 2^-600. *)
Definition huge : list (list float) :=
  map (map (fun c => PrimFloat.mul c 0x1p+600%float)) regular.

Definition tiny : list (list float) :=
  map (map (fun c => PrimFloat.mul c 0x1p-600%float)) regular.

Definition regularR : list (list R) :=
  [[1; 1; 1]; [1; -1; -1]; [-1; 1; -1]; [-1; -1; 1]]%R.

Definition meshR : Mesh R :=
  {| element_vertices := fun e => if Z.eqb e 0 then Some [0; 1; 2]%Z else None;
     vertex_point := fun v =>
       if Z.eqb v 0 then Some [0; 0]%R
       else if Z.eqb v 1 then Some [2; 0]%R
       else if Z.eqb v 2 then Some [0; 2]%R
       else None |}.

Definition tentsR : Tents R :=
  {| tents_data := [0; 0; 0; 0]%Z; tents_times := [0; 0; 0; 2]%R;
     tents_ntents := 1; tents_nlayers := 1 |}.

Definition clockR : nat -> R := fun _ => 0%R.

Definition castR : R -> float32 := fun _ => (x00, x00, x00, x00).

(** The reshaped times of [tents_stale], its first record, and the loop
    state after that record. *)
Definition times_stale : list (list float) :=
  [[0; 0; 0; 2]; [0; 2; 0; 4]]%float.

Definition first_stale : list (list Z) := [[0; 0; 1; 0]%Z].

Definition state_stale : loop_state float :=
  Eval vm_compute in
    match record_loop clock0 mesh1 times_stale initial_state 0 first_stale with
    | Ok st => st
    | Raise _ => initial_state
    end.

(** One record around a vertex that its element does not have. *)
Definition tents_uncentred : Tents float :=
  {| tents_data := [0; 0; 3; 0]%Z; tents_times := [0; 0; 0; 2]%float;
     tents_ntents := 1; tents_nlayers := 1 |}.

(** A record that names the element 7, which [mesh1] does not have. *)
Definition tents_unknown : Tents float :=
  {| tents_data := [0; 0; 0; 7]%Z; tents_times := [0; 0; 0; 2]%float;
     tents_ntents := 1; tents_nlayers := 1 |}.

(** The faces [GetFacesAndNormals] can return: the face of index [q]
    lists the three other indices, in one of the two windings. *)
Definition face_opposite (q : nat) (f : list nat) : Prop :=
  f = [(q + 1) mod 4; (q + 2) mod 4; (q + 3) mod 4]
  \/ f = [(q + 1) mod 4; (q + 3) mod 4; (q + 2) mod 4].

Definition kernel_faces (fcs : list (list nat)) : Prop :=
  exists f0 f1 f2 f3,
    fcs = [f0; f1; f2; f3]
    /\ face_opposite 0 f0 /\ face_opposite 1 f1
    /\ face_opposite 2 f2 /\ face_opposite 3 f3.

Definition fmap {A B} (f : A -> B) (r : result A) : result B :=
  match r with
  | Ok a => Ok (f a)
  | Raise e => Raise e
  end.

(** The variables of the loop that reach the returned lists or decide
    the control flow: everything but the timings. *)
Definition data_of {F} (st : loop_state F) :=
  (gvertices st, tentcenters st, nrs st, layers st, faces st, normals st,
   center st).

(** What one processed record does to the loop state: [vertices], the
    bottom points of the element with the top point of its central
    vertex among them, is the argument of [GetFacesAndNormals] and the
    block appended to [gvertices]; the faces and normals appended are
    the ones computed from it. *)
Definition emitted_block {F : Type} `{Number F} (mesh : Mesh F)
    (times : list (list F)) (i : nat) (d : list Z) (st st' : loop_state F)
  : Prop :=
  exists vnr elnr trow ttop vs bs fcs nrmls,
    nth_error d 2 = Some vnr /\ nth_error d 3 = Some elnr
    /\ nth_error times i = Some trow /\ nth_error trow 3 = Some ttop
    /\ element_vertices mesh elnr = Some vs
    /\ bottom_frame mesh (firstn 3 trow) 0 vs bs
    /\ GetFacesAndNormals (with_top ttop vnr vs bs) = Ok (fcs, nrmls)
    /\ gvertices st' = gvertices st ++ with_top ttop vnr vs bs
    /\ faces st' = faces st ++ fcs
    /\ normals st' = normals st ++ nrmls
    /\ exists b, In b bs /\ In (top_of ttop b) (with_top ttop vnr vs bs).

(** The returned faces are element-local: one group of four per
    record, appended as [GetFacesAndNormals] returned it, every index
    below four and so below the number of emitted vertices. *)
Definition element_local_faces {F : Type} (out : Elements F) : Prop :=
  exists groups,
    el_faces out = concat groups
    /\ length groups = length (el_nrs out)
    /\ Forall kernel_faces groups
    /\ Forall (Forall (fun ix => ix < 4 /\ ix < length (el_vertices out)))
              (el_faces out).

(** Inputs that stop the call: the times are not a multiple of four or
    fewer than the data, or a record names an unknown element or
    vertex or an element without its central vertex. *)
Definition too_few_times {F : Type} (tps : Tents F) : bool :=
  negb (Nat.eqb (length (tents_times tps) mod 4) 0)
  || Nat.ltb (length (tents_times tps)) (length (tents_data tps)).

Definition names_unknown {F : Type} `{Number F} (mesh : Mesh F) (tps : Tents F)
  : bool :=
  match reshape4 (tents_data tps) with
  | Ok rows => existsb (unknown_or_uncentred mesh) rows
  | Raise _ => false
  end.

(** The times do not hold three bottom times and a top time for every
    record of the data. *)
Definition wrong_length_times {F : Type} (tps : Tents F) : bool :=
  negb (Nat.eqb (length (tents_times tps)) (length (tents_data tps))).

(** The normal of a face points away from the centroid. *)
Definition points_away_true {F : Type} `{Number F} (pts : list (list F))
    (face : list nat) (normal : list F) : Prop :=
  points_away pts face normal = true.

(** The index set of the face of index [i]: 0, 1, 2, 3 without [i]. *)
Definition opposite_index_set (i : nat) (f : list nat) : Prop :=
  length f = 3 /\ forall ix, In ix f <-> (ix < 4 /\ ix <> i).

(** The corners of the bounding box of real points of three
    coordinates: in every coordinate a bound of all the points that
    one of them attains. *)
Definition coord (k : nat) (p : list R) : R := nth k p 0%R.

Definition is_min_corner (vs : list (list R)) (lo : list R) : Prop :=
  length lo = 3
  /\ forall k, k < 3 ->
       (forall v, In v vs -> (coord k lo <= coord k v)%R)
       /\ exists v, In v vs /\ coord k v = coord k lo.

Definition is_max_corner (vs : list (list R)) (hi : list R) : Prop :=
  length hi = 3
  /\ forall k, k < 3 ->
       (forall v, In v vs -> (coord k v <= coord k hi)%R)
       /\ exists v, In v vs /\ coord k v = coord k hi.

(** The loop state [st'] is [st] with the six lists of [out] appended. *)
Definition extends_by {F : Type} (st st' : loop_state F) (out : Elements F)
  : Prop :=
  gvertices st' = gvertices st ++ el_vertices out
  /\ normals st' = normals st ++ el_normals out
  /\ faces st' = faces st ++ el_faces out
  /\ tentcenters st' = tentcenters st ++ el_tentcenters out
  /\ nrs st' = nrs st ++ el_nrs out
  /\ layers st' = layers st ++ el_layers out.

(** The six lists of [out] are those of [out1] followed by those of
    [out2]. *)
Definition lists_app {F : Type} (out out1 out2 : Elements F) : Prop :=
  el_vertices out = el_vertices out1 ++ el_vertices out2
  /\ el_normals out = el_normals out1 ++ el_normals out2
  /\ el_faces out = el_faces out1 ++ el_faces out2
  /\ el_tentcenters out = el_tentcenters out1 ++ el_tentcenters out2
  /\ el_nrs out = el_nrs out1 ++ el_nrs out2
  /\ el_layers out = el_layers out1 ++ el_layers out2.

(** The [k]-th entry of every row of the data. *)
Definition data_column (k : nat) (rows : list (list Z)) : list Z :=
  map (fun d => nth k d 0%Z) rows.

(** The [r]-th group of four rows of a list. *)
Definition group4 {A : Type} (r : nat) (l : list A) : list A :=
  firstn 4 (skipn (4 * r) l).

(** The normal is perpendicular to every edge of the face. *)
Definition perpendicular_to_face {F : Type} `{Number F} (pts : list (list F))
    (face : list nat) (normal : list F) : Prop :=
  forall ia ib pa pb,
    In ia face -> In ib face ->
    nth_error pts ia = Some pa -> nth_error pts ib = Some pb ->
    dot normal (zip_with nsub pb pa) = nzero.

(** The cross product of the two edges that leave the first vertex
    of a face, in the order of the face. *)
Definition face_cross {F : Type} `{Number F} (pts : list (list F))
    (face : list nat) : result (list F) :=
  match face with
  | [ia; ib; ic] =>
      pa <- item pts ia ;;
      pb <- item pts ib ;;
      pc <- item pts ic ;;
      np_cross (zip_with nsub pb pa) (zip_with nsub pc pa)
  | _ => Raise ValueError
  end.

(** Seen from the side the normal points to, the vertices of the
    face are listed counterclockwise. *)
Definition counterclockwise {F : Type} `{Number F} (pts : list (list F))
    (face : list nat) (normal : list F) : Prop :=
  exists m, face_cross pts face = Ok m /\ gt0 (dot m normal) = true.

(** The points moved by the vector [t]. *)
Definition translate {F : Type} `{Number F} (t : list F) (pts : list (list F))
  : list (list F) :=
  map (fun p => zip_with nadd p t) pts.

(** An element the flattening can process for the central vertex
    [vnr]: at most three vertices, [vnr] among them, each known to
    the mesh with two coordinates. *)
Definition triangle_around {F : Type} (mesh : Mesh F) (vnr elnr : Z) : Prop :=
  exists vs,
    element_vertices mesh elnr = Some vs
    /\ length vs <= 3
    /\ In vnr vs
    /\ Forall (fun v => exists pt, vertex_point mesh v = Some pt
                                   /\ length pt = 2) vs.

(** A record whose element, as the mesh returns it, has no vertex
    with the central number of the record. *)
Definition lacks_central {F : Type} (mesh : Mesh F) (d : list Z) : bool :=
  match d with
  | [nr; layer; vnr; elnr] =>
      match element_vertices mesh elnr with
      | Some vs => negb (existsb (is_central vnr) vs)
      | None => false
      end
  | _ => false
  end.

Definition names_uncentred {F : Type} (mesh : Mesh F) (tps : Tents F)
  : bool :=
  match reshape4 (tents_data tps) with
  | Ok rows => existsb (lacks_central mesh) rows
  | Raise _ => false
  end.

(** [mesh1] with an element 7 that has no vertices: a mesh that
    returns an empty element for a number it does not have. *)
Definition mesh_empty_element : Mesh float :=
  {| element_vertices := fun e =>
       if Z.eqb e 7 then Some [] else element_vertices mesh1 e;
     vertex_point := vertex_point mesh1 |}.

(** Two records, the second on the element 1 of four vertices, none
    of which has the central number 7. *)
Definition tents_long_element : Tents float :=
  {| tents_data := [0; 0; 1; 0; 1; 1; 7; 1]%Z;
     tents_times := [0; 0; 0; 2; 0; 2; 0; 4]%float;
     tents_ntents := 2; tents_nlayers := 2 |}.

(** The second record of [tents2] alone. *)
Definition tents2_second : Tents float :=
  {| tents_data := [1; 1; 1; 0]%Z; tents_times := [2; 0; 0; 4]%float;
     tents_ntents := 1; tents_nlayers := 1 |}.

(** The rows of the data of [tents2]. *)
Definition rows2 : list (list Z) := [[0; 0; 0; 0]; [1; 1; 1; 0]]%Z.

(** ** Families of binary64 inputs *)

(** An integer as a binary64 number (exact below 2^53). *)
Definition float_of_Z (z : Z) : float :=
  match z with
  | Z0 => 0%float
  | Zpos _ => PrimFloat.of_uint63 (Uint63.of_Z z)
  | Zneg p => PrimFloat.opp (PrimFloat.of_uint63 (Uint63.of_Z (Zpos p)))
  end.

(** The integers from [a] to [b]. *)
Definition Zrange (a b : Z) : list Z :=
  map (fun n => (a + Z.of_nat n)%Z) (seq 0 (Z.to_nat (b - a + 1))).

(** The points with coordinates in [cs]. *)
Definition points3 (cs : list Z) : list (Z * Z * Z) :=
  flat_map (fun x => flat_map (fun y => map (fun z => (x, y, z)) cs) cs) cs.

Definition float_point (p : Z * Z * Z) : list float :=
  let '(x, y, z) := p in [float_of_Z x; float_of_Z y; float_of_Z z].

Definition float_points (p0 p1 p2 p3 : Z * Z * Z) : list (list float) :=
  map float_point [p0; p1; p2; p3].

(** The coordinates of a point are between [- n] and [n]. *)
Definition in_box (n : Z) (p : Z * Z * Z) : bool :=
  let '(x, y, z) := p in
  forallb (fun c => Z.leb (- n) c && Z.leb c n) [x; y; z].

Definition Zdist2 (p q : Z * Z * Z) : Z :=
  let '(x, y, z) := p in
  let '(x', y', z') := q in
  ((x - x') * (x - x') + (y - y') * (y - y') + (z - z') * (z - z'))%Z.

(** Six times the volume of the tetrahedron on four integer points. *)
Definition Zvolume6 (p0 p1 p2 p3 : Z * Z * Z) : Z :=
  let '(x0, y0, z0) := p0 in
  let '(x1, y1, z1) := p1 in
  let '(x2, y2, z2) := p2 in
  let '(x3, y3, z3) := p3 in
  ((x1 - x0) * ((y2 - y0) * (z3 - z0) - (z2 - z0) * (y3 - y0))
   + (y1 - y0) * ((z2 - z0) * (x3 - x0) - (x2 - x0) * (z3 - z0))
   + (z1 - z0) * ((x2 - x0) * (y3 - y0) - (y2 - y0) * (x3 - x0)))%Z.

(** Four integer points with six equal non-zero distances. *)
Definition Zregular (p0 p1 p2 p3 : Z * Z * Z) : bool :=
  let s := Zdist2 p0 p1 in
  negb (Z.eqb s 0)
  && Z.eqb (Zdist2 p0 p2) s && Z.eqb (Zdist2 p1 p2) s
  && Z.eqb (Zdist2 p0 p3) s && Z.eqb (Zdist2 p1 p3) s
  && Z.eqb (Zdist2 p2 p3) s.

(** The points scaled by [2^k], which is exact in binary64 as long as
    the range is not left. *)
Definition scaled (k : Z) (pts : list (list float)) : list (list float) :=
  map (map (fun c => Z.ldexp c k)) pts.

(** In binary64: four faces and four normals are returned, and every
    normal has the length one within 1e-6. *)
Definition unit_normals (pts : list (list float)) : bool :=
  match GetFacesAndNormals pts with
  | Ok (fcs, nrmls) =>
      Nat.eqb (length fcs) 4 && Nat.eqb (length nrmls) 4
      && forallb unit_length_float nrmls
  | Raise _ => false
  end.

(** In binary64: four faces and four normals are returned, and every
    normal points away from the centroid. *)
Definition away_normals (pts : list (list float)) : bool :=
  match GetFacesAndNormals pts with
  | Ok (fcs, nrmls) =>
      Nat.eqb (length fcs) 4 && Nat.eqb (length nrmls) 4
      && forallb (fun fn => points_away pts (fst fn) (snd fn))
           (combine fcs nrmls)
  | Raise _ => false
  end.

(** The checks of all tetrahedra on points with coordinates in [cs]. *)
Definition all_tetrahedra (cs : list Z)
    (check : Z * Z * Z -> Z * Z * Z -> Z * Z * Z -> Z * Z * Z -> bool) : bool :=
  let pts := points3 cs in
  forallb (fun p0 => forallb (fun p1 => forallb (fun p2 => forallb (fun p3 =>
    check p0 p1 p2 p3) pts) pts) pts) pts.

(** The same with the tuples cut off early: [skip2] and [skip3] leave
    out the pairs and triples that no tetrahedron to be checked starts
    with. *)
Definition all_tetrahedra_from (cs : list Z)
    (skip2 : Z * Z * Z -> Z * Z * Z -> bool)
    (skip3 : Z * Z * Z -> Z * Z * Z -> Z * Z * Z -> bool)
    (check : Z * Z * Z -> Z * Z * Z -> Z * Z * Z -> Z * Z * Z -> bool) : bool :=
  let pts := points3 cs in
  forallb (fun p0 => forallb (fun p1 =>
    if skip2 p0 p1 then true
    else forallb (fun p2 =>
           if skip3 p0 p1 p2 then true
           else forallb (fun p3 => check p0 p1 p2 p3) pts) pts) pts) pts.

(** The first three of four points cannot belong to a regular
    tetrahedron. *)
Definition not_equilateral (p0 p1 p2 : Z * Z * Z) : bool :=
  negb (Z.eqb (Zdist2 p0 p2) (Zdist2 p0 p1)
        && Z.eqb (Zdist2 p1 p2) (Zdist2 p0 p1)).

(** A tetrahedron of coordinates at the scale of one, with a volume,
    whose first cross product cancels in binary64. *)
Definition thin : list (list float) :=
  [[0; 0; 1]; [0; 0; 0]; [0x1.00000004p+0; 1; 0];
   [0x1.00000002p+1; 0x1.fffffffcp+0; 0]]%float.

(* ================================================================= *)
(** * Properties *)

Unset Implicit Arguments.

(** ** The error monad and the list primitives *)

Lemma bind_ok {A B} (r : result A) (k : A -> result B) (b : B) :
  bind r k = Ok b -> exists a, r = Ok a /\ k a = Ok b.
Proof. destruct r as [a|e]; simpl; intros E; [eauto | discriminate]. Qed.

Lemma item_ok {A} (l : list A) (i : nat) (a : A) :
  item l i = Ok a -> nth_error l i = Some a.
Proof. unfold item; destruct (nth_error l i); congruence. Qed.

Lemma set_item_2 {A} (l l' : list A) (a : A) :
  set_item l 2 a = Ok l' -> l' = firstn 2 l ++ [a] ++ skipn 3 l.
Proof.
  destruct l as [|x [|y [|z t]]]; simpl; try discriminate.
  intros E; injection E as <-; reflexivity.
Qed.

Lemma reshape4_rows {A} (n : nat) : forall l : list A,
  length l = 4 * n ->
  exists rows, reshape4 l = Ok rows /\ length rows = n
               /\ Forall (fun r => length r = 4) rows.
Proof.
  induction n as [|n IH]; intros l L.
  - destruct l; [|simpl in L; lia]. exists []; repeat split; constructor.
  - destruct l as [|a [|b [|c [|d t]]]]; simpl in L; try lia.
    destruct (IH t) as (rows & E & Ln & Fa); [lia|].
    exists ([a; b; c; d] :: rows). simpl. rewrite E. simpl.
    repeat split; [lia | constructor; auto].
Qed.

Lemma reshape4_ok {A} : forall (l : list A) rows,
  reshape4 l = Ok rows ->
  length l = 4 * length rows /\ Forall (fun r => length r = 4) rows.
Proof.
  fix IH 1. intros l rows E.
  destruct l as [|a [|b [|c [|d t]]]]; simpl in E; try discriminate.
  - injection E as <-. split; [reflexivity | constructor].
  - apply bind_ok in E as (rows' & E' & E). injection E as <-.
    destruct (IH t rows' E') as [L Fa].
    split; [simpl; lia | constructor; auto].
Qed.

(** ** The shape of what the geometry kernel returns *)

Section KernelShape.
Context {F : Type} `{Number F}.

Lemma zip_with_length (f : F -> F -> F) : forall a b,
  length (zip_with f a b) = Nat.min (length a) (length b).
Proof.
  induction a as [|x a IH]; intros [|y b]; simpl; auto.
Qed.

Lemma np_cross_ok (a b n : list F) :
  np_cross a b = Ok n -> length a = 3 /\ length b = 3 /\ length n = 3.
Proof.
  destruct a as [|a0 [|a1 [|a2 [|? ?]]]]; simpl; try discriminate;
  destruct b as [|b0 [|b1 [|b2 [|? ?]]]]; simpl; try discriminate.
  intros E; injection E as <-; auto.
Qed.

Lemma np_array_ok (element pts : list (list F)) :
  np_array element = Ok pts ->
  pts = element /\ exists d, Forall (fun p => length p = d) element.
Proof.
  destruct element as [|p ps]; simpl.
  - intros E; injection E as <-. split; [reflexivity | exists 0; constructor].
  - destruct (forallb _ ps) eqn:E; [|discriminate].
    intros E'; injection E' as <-. split; [reflexivity|].
    exists (length p). constructor; [reflexivity|].
    rewrite forallb_forall in E. apply Forall_forall.
    intros q Hq. apply E in Hq. now apply Nat.eqb_eq.
Qed.

Lemma np_roll_ok (pts rolled : list (list F)) :
  np_roll pts = Ok rolled ->
  length rolled = length pts /\ forall q, In q rolled -> In q pts.
Proof.
  destruct pts as [|p ps]; [discriminate|].
  unfold np_roll. intros E.
  assert (R : rolled = last (p :: ps) p :: removelast (p :: ps)) by congruence.
  clear E. revert R.
  destruct (exists_last (l := p :: ps)) as (l' & a & ->); [discriminate|].
  rewrite last_last, removelast_last. intros ->. split.
  - simpl. rewrite length_app. simpl. lia.
  - intros q [<-|Hq]; apply in_or_app; [right; left; reflexivity | now left].
Qed.

Lemma face_and_normal_ok (vecs : list (list F)) (q : nat) f nv :
  face_and_normal vecs q = Ok (f, nv) ->
  face_opposite q f /\ length nv = 3
  /\ exists vk, nth_error vecs ((q + 2) mod 4) = Some vk /\ length vk = 3
  /\ exists vm, nth_error vecs ((q + 3) mod 4) = Some vm.
Proof.
  unfold face_and_normal, column. intros E.
  apply bind_ok in E as (vk & Ek & E).
  apply bind_ok in E as (vm & Em & E).
  apply bind_ok in E as (normal & En & E).
  apply bind_ok in E as (vi & Ei & E).
  injection E as <- <-.
  apply np_cross_ok in En as (Lk & Lm & Ln).
  repeat split.
  - unfold face_opposite. destruct (gt0 _); auto.
  - now rewrite length_map.
  - exists vk. repeat split; auto using item_ok.
    exists vm. auto using item_ok.
Qed.

(** Whenever [GetFacesAndNormals] returns, it was given at least four
    points of three coordinates each and returns four faces, the
    [q]-th of which lists the three indices other than [q], and four
    normals of three coordinates. *)
Lemma GetFacesAndNormals_ok (element : list (list F)) fcs nrmls :
  GetFacesAndNormals element = Ok (fcs, nrmls) ->
  kernel_faces fcs
  /\ length nrmls = 4 /\ Forall (fun n => length n = 3) nrmls
  /\ 4 <= length element /\ Forall (fun p => length p = 3) element.
Proof.
  unfold GetFacesAndNormals. intros E.
  apply bind_ok in E as (pts & Ea & E).
  apply np_array_ok in Ea as (-> & d & Rect).
  apply bind_ok in E as (rolled & Er & E).
  apply np_roll_ok in Er as (Lr & Inr).
  set (vecs := map _ _) in E.
  apply bind_ok in E as (fns & Ef & E).
  injection E as <- <-.
  simpl in Ef.
  apply bind_ok in Ef as ([f0 n0] & E0 & Ef).
  apply bind_ok in Ef as (r1 & Ef & Ef').
  apply bind_ok in Ef as ([f1 n1] & E1 & Ef).
  apply bind_ok in Ef as (r2 & Ef & Ef'').
  apply bind_ok in Ef as ([f2 n2] & E2 & Ef).
  apply bind_ok in Ef as (r3 & Ef & Ef''').
  apply bind_ok in Ef as ([f3 n3] & E3 & Ef).
  simpl in Ef. injection Ef as <-. injection Ef''' as <-.
  injection Ef'' as <-. injection Ef' as <-.
  apply face_and_normal_ok in E0 as (O0 & L0 & vk & Ek & Lk & vm & Em).
  apply face_and_normal_ok in E1 as (O1 & L1 & _).
  apply face_and_normal_ok in E2 as (O2 & L2 & _).
  apply face_and_normal_ok in E3 as (O3 & L3 & _).
  change (nth_error vecs 2 = Some vk) in Ek.
  change (nth_error vecs 3 = Some vm) in Em.
  assert (Lv : 4 <= length vecs).
  { assert (3 < length vecs); [|lia]. apply nth_error_Some. congruence. }
  assert (Le : length vecs = length element).
  { unfold vecs. rewrite length_map, length_combine, Lr. lia. }
  assert (D : d = 3).
  { unfold vecs in Ek. rewrite nth_error_map in Ek.
    destruct (nth_error (combine element rolled) 2) as [[p r]|] eqn:Ec;
      [|discriminate].
    injection Ek as <-. apply nth_error_In in Ec.
    pose proof (in_combine_l _ _ _ _ Ec) as Hp.
    pose proof (in_combine_r _ _ _ _ Ec) as Hr%Inr.
    rewrite Forall_forall in Rect.
    rewrite zip_with_length, (Rect _ Hp), (Rect _ Hr) in Lk. lia. }
  subst d.
  repeat split.
  - exists f0, f1, f2, f3. auto.
  - repeat constructor; auto.
  - lia.
  - exact Rect.
Qed.

(** On four points of three coordinates it always returns. *)
Lemma GetFacesAndNormals_total (a0 a1 a2 b0 b1 b2 c0 c1 c2 d0 d1 d2 : F) :
  exists fcs nrmls,
    GetFacesAndNormals [[a0; a1; a2]; [b0; b1; b2]; [c0; c1; c2]; [d0; d1; d2]]
    = Ok (fcs, nrmls).
Proof. eexists; eexists; reflexivity. Qed.

End KernelShape.

(** ** The vertex loop *)

Section VertexLoop.
Context {F : Type} `{Number F}.
Variable mesh : Mesh F.
Variables (tbots : list F) (ttop : F) (vnr : Z).

Lemma bottom_frame_length : forall vs j bs,
  bottom_frame mesh tbots j vs bs -> length bs = length vs.
Proof.
  induction vs as [|v vs IH]; intros j [|b bs]; simpl; try tauto.
  intros [_ B]. f_equal. eauto.
Qed.

Lemma bottom_frame_bound : forall vs j bs,
  bottom_frame mesh tbots j vs bs -> vs <> [] -> j + length vs <= length tbots.
Proof.
  induction vs as [|v vs IH]; intros j [|b bs]; simpl; try tauto.
  intros [(pt & tb & _ & Et & _) B] _.
  destruct vs as [|v' vs'].
  - simpl. assert (j < length tbots); [|lia].
    apply nth_error_Some. congruence.
  - specialize (IH _ _ B). simpl in IH |- *.
    assert (S j + S (length vs') <= length tbots) by (apply IH; discriminate).
    lia.
Qed.

Lemma with_top_length : forall vs bs,
  length bs = length vs ->
  length (with_top ttop vnr vs bs)
  = length vs + length (filter (is_central vnr) vs).
Proof.
  induction vs as [|v vs IH]; intros [|b bs]; simpl; try discriminate; auto.
  intros L. injection L as L. rewrite length_app, (IH _ L).
  unfold is_central. destruct (Z.eqb v vnr); simpl; lia.
Qed.

Lemma with_top_no_central : forall vs bs,
  length bs = length vs ->
  existsb (is_central vnr) vs = false -> with_top ttop vnr vs bs = bs.
Proof.
  induction vs as [|v vs IH]; intros [|b bs]; simpl; try discriminate; auto.
  intros L. injection L as L. unfold is_central in *.
  destruct (Z.eqb v vnr); simpl; [discriminate|].
  intros E. f_equal. auto.
Qed.

Lemma filter_central_none : forall vs,
  existsb (is_central vnr) vs = false -> filter (is_central vnr) vs = [].
Proof.
  induction vs as [|v vs IH]; simpl; auto.
  destruct (is_central vnr v); simpl; [discriminate | auto].
Qed.

(** What the vertex loop leaves in [vertices] and [center]: the
    bottom points of the vertices in their order, the top point of a
    central vertex right after its bottom point; [center] is touched
    only when a vertex is central. *)
Lemma vertex_loop_ok : forall vs j acc c vertices c',
  vertex_loop mesh tbots ttop vnr j vs acc c = Ok (vertices, c') ->
  exists bs,
    bottom_frame mesh tbots j vs bs
    /\ vertices = acc ++ with_top ttop vnr vs bs
    /\ (existsb (is_central vnr) vs = false -> c' = c)
    /\ (existsb (is_central vnr) vs = true ->
        exists k, c' = Some k /\ j <= k < j + length vs
                  /\ nth_error vs (k - j) = Some vnr).
Proof.
  induction vs as [|v vs IH]; intros j acc c vertices c' E; simpl in E.
  - injection E as <- <-. exists []. simpl. rewrite app_nil_r.
    repeat split; auto. discriminate.
  - apply bind_ok in E as (pt & Ep & E).
    apply bind_ok in E as (tb & Et & E).
    assert (B : is_bottom_point mesh tbots j v (pt ++ [tb])).
    { exists pt, tb. repeat split.
      - destruct (vertex_point mesh v); simpl in Ep; congruence.
      - now apply item_ok. }
    cbn [existsb length]. unfold is_central at 1 3.
    destruct (Z.eqb v vnr) eqn:Ev; cbn [orb].
    + apply bind_ok in E as (vpt_top & Es & E).
      apply set_item_2 in Es. subst vpt_top.
      apply IH in E as (bs & Bs & -> & Cn & Cs).
      exists ((pt ++ [tb]) :: bs). cbn [with_top bottom_frame]. rewrite Ev.
      repeat split; auto.
      * unfold top_of. rewrite <- !app_assoc. reflexivity.
      * discriminate.
      * intros _. destruct (existsb (is_central vnr) vs) eqn:Ex.
        -- destruct (Cs eq_refl) as (k & -> & Hk & Hn).
           exists k. repeat split; try lia.
           replace (k - j) with (S (k - S j)) by lia. exact Hn.
        -- exists j. rewrite (Cn eq_refl). repeat split; try lia.
           rewrite Nat.sub_diag. simpl. f_equal. now apply Z.eqb_eq.
    + apply IH in E as (bs & Bs & -> & Cn & Cs).
      exists ((pt ++ [tb]) :: bs). cbn [with_top bottom_frame]. rewrite Ev.
      repeat split; auto.
      * rewrite <- !app_assoc. reflexivity.
      * intros Ex. destruct (Cs Ex) as (k & -> & Hk & Hn).
        exists k. repeat split; try lia.
        replace (k - j) with (S (k - S j)) by lia. exact Hn.
Qed.

(** The vertex loop completes on known vertices with two coordinates
    that have a bottom time each. *)
Lemma vertex_loop_total : forall vs j acc c,
  Forall (fun v => exists pt, vertex_point mesh v = Some pt /\ length pt = 2) vs ->
  j + length vs <= length tbots ->
  Forall (fun p => length p = 3) acc ->
  exists vertices c',
    vertex_loop mesh tbots ttop vnr j vs acc c = Ok (vertices, c')
    /\ Forall (fun p => length p = 3) vertices.
Proof.
  induction vs as [|v vs IH]; intros j acc c Fa L Fc; simpl.
  - eauto.
  - inversion Fa as [|? ? (pt & Ep & Lp) Fa']; subst.
    rewrite Ep. simpl.
    destruct (nth_error tbots j) as [tb|] eqn:Et.
    2:{ apply nth_error_None in Et. simpl in L. lia. }
    unfold item. rewrite Et. simpl.
    destruct pt as [|x [|y [|? ?]]]; simpl in Lp; try discriminate.
    simpl in L.
    destruct (Z.eqb v vnr); simpl; apply IH; auto; try lia;
      repeat (apply Forall_app; split; auto).
Qed.

End VertexLoop.

(** ** One record *)

Section OneRecord.
Context {F : Type} `{Number F}.
Variable clock : nat -> F.
Variable mesh : Mesh F.
Variable times : list (list F).

Lemma firstn3_length {A} (l : list A) : length (firstn 3 l) <= 3.
Proof. rewrite length_firstn. lia. Qed.

(** A record is processed to the end only in one way: its element is
    known and has a central vertex, the points built by the vertex
    loop are handed to [GetFacesAndNormals] and appended to the
    global vertices as they are, and the faces and normals returned
    are appended as they are. *)
Lemma record_body_ok (st st' : loop_state F) (i : nat) (d : list Z) :
  record_body clock mesh times st i d = Ok st' ->
  exists nr layer vnr elnr trow ttop vs bs fcs nrmls c,
    d = [nr; layer; vnr; elnr]
    /\ nth_error times i = Some trow /\ nth_error trow 3 = Some ttop
    /\ element_vertices mesh elnr = Some vs
    /\ bottom_frame mesh (firstn 3 trow) 0 vs bs
    /\ existsb (is_central vnr) vs = true
    /\ GetFacesAndNormals (with_top ttop vnr vs bs) = Ok (fcs, nrmls)
    /\ gvertices st' = gvertices st ++ with_top ttop vnr vs bs
    /\ faces st' = faces st ++ fcs
    /\ normals st' = normals st ++ nrmls
    /\ tentcenters st' = tentcenters st ++ [c]
    /\ center st' = Some c
    /\ nth_error vs c = Some vnr
    /\ nrs st' = nrs st ++ [nr]
    /\ layers st' = layers st ++ [layer].
Proof.
  unfold record_body, record_points. intros E.
  destruct d as [|nr [|layer [|vnr [|elnr [|? ?]]]]];
    try (simpl in E; discriminate).
  apply bind_ok in E as ([st1 vertices] & E1 & E2).
  apply bind_ok in E1 as (trow & Et & E1).
  apply bind_ok in E1 as (ttop & Ett & E1).
  apply bind_ok in E1 as ([vertices' center'] & Ep & E1).
  apply bind_ok in E1 as (c & Ec & E1).
  injection E1 as <- <-.
  unfold element_points in Ep.
  apply bind_ok in Ep as (vs & Ev & Ep).
  apply vertex_loop_ok in Ep as (bs & Bs & -> & Cn & Cs).
  unfold record_faces in E2.
  apply bind_ok in E2 as ([fcs nrmls] & Ef & E2).
  injection E2 as <-.
  cbn [gvertices tentcenters nrs layers faces normals center app] in *.
  assert (Ex : existsb (is_central vnr) vs = true).
  { destruct (existsb (is_central vnr) vs) eqn:Ex; [reflexivity|].
    exfalso.
    pose proof (bottom_frame_length _ _ _ _ _ Bs) as Lb.
    rewrite (with_top_no_central _ _ _ _ Lb Ex) in Ef.
    apply GetFacesAndNormals_ok in Ef as (_ & _ & _ & L4 & _).
    destruct vs as [|v vs']; [simpl in Lb; lia|].
    assert (0 + length (v :: vs') <= length (firstn 3 trow))
      by (eapply bottom_frame_bound; eauto; discriminate).
    pose proof (firstn3_length trow). lia. }
  destruct (Cs Ex) as (k & -> & Hk & Hn).
  simpl in Ec. injection Ec as <-.
  rewrite Nat.sub_0_r in Hn.
  exists nr, layer, vnr, elnr, trow, ttop, vs, bs, fcs, nrmls, k.
  repeat split; auto using item_ok.
  destruct (element_vertices mesh elnr); simpl in Ev; congruence.
Qed.

Lemma GetFacesAndNormals_four (vertices : list (list F)) :
  length vertices = 4 -> Forall (fun p => length p = 3) vertices ->
  exists fcs nrmls, GetFacesAndNormals vertices = Ok (fcs, nrmls).
Proof.
  intros L Fa.
  destruct vertices as [|p0 [|p1 [|p2 [|p3 [|? ?]]]]]; try discriminate.
  repeat match goal with
         | Fa : Forall _ (_ :: _) |- _ =>
             let Lp := fresh "Lp" in inversion Fa as [|? ? Lp ?]; subst; clear Fa
         end.
  destruct p0 as [|? [|? [|? [|? ?]]]]; try discriminate.
  destruct p1 as [|? [|? [|? [|? ?]]]]; try discriminate.
  destruct p2 as [|? [|? [|? [|? ?]]]]; try discriminate.
  destruct p3 as [|? [|? [|? [|? ?]]]]; try discriminate.
  apply GetFacesAndNormals_total.
Qed.

(** A well-formed record whose row of times exists is processed to
    the end. *)
Lemma record_body_total (st : loop_state F) (i : nat) (d : list Z) trow :
  well_formed_record mesh d = true ->
  nth_error times i = Some trow -> length trow = 4 ->
  exists st', record_body clock mesh times st i d = Ok st'.
Proof.
  intros W Et Lt.
  destruct d as [|nr [|layer [|vnr [|elnr [|? ?]]]]]; try discriminate.
  unfold well_formed_record in W.
  destruct (element_vertices mesh elnr) as [vs|] eqn:Ev; [|discriminate].
  apply andb_prop in W as [W Wp]. apply andb_prop in W as [Wl Wc].
  apply Nat.eqb_eq in Wl, Wc.
  assert (Fa : Forall (fun v => exists pt, vertex_point mesh v = Some pt
                                        /\ length pt = 2) vs).
  { apply Forall_forall. intros v Hv.
    rewrite forallb_forall in Wp. specialize (Wp v Hv).
    destruct (vertex_point mesh v) as [pt|]; [|discriminate].
    exists pt. split; [reflexivity | now apply Nat.eqb_eq]. }
  destruct trow as [|t0 [|t1 [|t2 [|t3 [|? ?]]]]]; try discriminate.
  destruct (vertex_loop_total mesh [t0; t1; t2] t3 vnr vs 0 [] (center st))
    as (vertices & c' & Ep & F3); auto; [simpl; lia|].
  pose proof Ep as Ep'.
  apply vertex_loop_ok in Ep' as (bs & Bs & Ew & Cn & Cs).
  simpl in Ew. subst vertices.
  pose proof (bottom_frame_length _ _ _ _ _ Bs) as Lb.
  assert (L4 : length (with_top t3 vnr vs bs) = 4)
    by (rewrite with_top_length; auto; lia).
  destruct (GetFacesAndNormals_four _ L4 F3) as (fcs & nrmls & Ef).
  destruct Cs as (k & -> & _).
  { apply not_false_is_true. intros Ex.
    apply filter_central_none in Ex. rewrite Ex in Wc. discriminate. }
  unfold record_body, record_points, element_points, record_faces, item.
  rewrite Et. simpl. rewrite Ev. simpl. rewrite Ep. simpl.
  rewrite Ef. simpl. eauto.
Qed.

End OneRecord.

(** ** The loop over the records *)

Section RecordLoop.
Context {F : Type} `{Number F}.
Variable clock : nat -> F.
Variable mesh : Mesh F.
Variable times : list (list F).

Lemma kernel_faces_length (fcs : list (list nat)) :
  kernel_faces fcs -> length fcs = 4.
Proof. intros (f0 & f1 & f2 & f3 & -> & _). reflexivity. Qed.

Lemma face_opposite_lt (q : nat) (f : list nat) :
  face_opposite q f -> Forall (fun ix => ix < 4) f.
Proof.
  intros [-> | ->];
    repeat (constructor; [apply Nat.mod_upper_bound; lia|]); constructor.
Qed.

Lemma kernel_faces_lt (fcs : list (list nat)) :
  kernel_faces fcs -> Forall (Forall (fun ix => ix < 4)) fcs.
Proof.
  intros (f0 & f1 & f2 & f3 & -> & O0 & O1 & O2 & O3).
  repeat constructor; eapply face_opposite_lt; eauto.
Qed.

(** The lists after the loop: one group of four element-local faces
    and at least four vertices for every record, one entry of every
    other list. *)
Lemma record_loop_ok : forall rows st i st',
  record_loop clock mesh times st i rows = Ok st' ->
  exists groups,
    faces st' = faces st ++ concat groups
    /\ length groups = length rows
    /\ Forall kernel_faces groups
    /\ length (gvertices st) + 4 * length rows <= length (gvertices st')
    /\ length (nrs st') = length (nrs st) + length rows
    /\ length (layers st') = length (layers st) + length rows
    /\ length (tentcenters st') = length (tentcenters st) + length rows
    /\ length (normals st') = length (normals st) + 4 * length rows.
Proof.
  induction rows as [|d rows IH]; intros st i st' E; simpl in E.
  - injection E as <-. exists []. simpl. rewrite app_nil_r.
    repeat split; auto; lia.
  - apply bind_ok in E as (st1 & E1 & E).
    apply IH in E as (groups & Ef & Lg & Fg & Lv & Ln & Ll & Lc & Lm).
    apply record_body_ok in E1
      as (nr & layer & vnr & elnr & trow & ttop & vs & bs & fcs & nrmls & c
          & _ & _ & _ & _ & _ & _ & Ek & Eg & Efc & Enm & Etc & _ & _
          & Enr & Ely).
    apply GetFacesAndNormals_ok in Ek as (Kf & L4 & _ & Lw & _).
    exists (fcs :: groups). simpl.
    rewrite Ef, Efc, <- app_assoc.
    rewrite Eg, length_app in Lv. rewrite Enr, length_app in Ln.
    rewrite Ely, length_app in Ll. rewrite Etc, length_app in Lc.
    rewrite Enm, length_app in Lm. simpl in *.
    repeat split; auto; lia.
Qed.

(** On well-formed records the loop runs to the end and every record
    contributes exactly four vertices. *)
Lemma record_loop_total : forall rows st i,
  forallb (well_formed_record mesh) rows = true ->
  (forall k, k < length rows ->
             exists trow, nth_error times (i + k) = Some trow
                          /\ length trow = 4) ->
  exists st',
    record_loop clock mesh times st i rows = Ok st'
    /\ length (gvertices st') = length (gvertices st) + 4 * length rows.
Proof.
  induction rows as [|d rows IH]; intros st i W T; simpl.
  - exists st. split; [reflexivity | lia].
  - simpl in W. apply andb_prop in W as [Wd W].
    destruct (T 0) as (trow & Et & Lt); [simpl; lia|].
    rewrite Nat.add_0_r in Et.
    destruct (record_body_total clock mesh times st i d trow Wd Et Lt)
      as (st1 & E1).
    rewrite E1. simpl.
    destruct (IH st1 (S i) W) as (st' & E & L).
    { intros k Hk. destruct (T (S k)) as (tr & Etr & Ltr); [simpl; lia|].
      exists tr. split; [|exact Ltr].
      now replace (S i + k) with (i + S k) by lia. }
    exists st'. split; [exact E|].
    rewrite L.
    apply record_body_ok in E1
      as (nr & layer & vnr & elnr & trow' & ttop & vs & bs & fcs & nrmls & c
          & -> & _ & _ & Ev & Bs & _ & _ & Eg & _).
    unfold well_formed_record in Wd. rewrite Ev in Wd.
    apply andb_prop in Wd as [Wd _]. apply andb_prop in Wd as [Wl Wc].
    apply Nat.eqb_eq in Wl, Wc.
    rewrite Eg, length_app, with_top_length, Wl, Wc
      by (eapply bottom_frame_length; eauto).
    simpl. lia.
Qed.

(** After at least one record the variable [center] holds the index
    that was appended last. *)
Lemma center_is_last : forall rows st i st',
  record_loop clock mesh times st i rows = Ok st' -> rows <> [] ->
  exists l c, tentcenters st' = l ++ [c] /\ center st' = Some c.
Proof.
  induction rows as [|d rows IH]; intros st i st' E Hne; [congruence|].
  simpl in E. apply bind_ok in E as (st1 & E1 & E).
  destruct rows as [|d' rows'].
  - simpl in E. injection E as <-.
    apply record_body_ok in E1
      as (nr & layer & vnr & elnr & trow & ttop & vs & bs & fcs & nrmls & c
          & _ & _ & _ & _ & _ & _ & _ & _ & _ & _ & Etc & Ec & _).
    eauto.
  - eapply IH; [exact E | discriminate].
Qed.

Lemma bottom_frame_known : forall vs tbots j bs,
  bottom_frame mesh tbots j vs bs ->
  existsb (fun v => match vertex_point mesh v with
                    | Some _ => false
                    | None => true
                    end) vs = false.
Proof.
  induction vs as [|v vs IH]; intros tbots j [|b bs]; simpl; try tauto.
  intros [(pt & tb & -> & _) B]. simpl. eauto.
Qed.

(** A record that names an unknown element or vertex, or whose
    element lacks the central vertex, is not processed to the end. *)
Lemma record_body_malformed (st : loop_state F) (i : nat) (d : list Z) :
  unknown_or_uncentred mesh d = true ->
  exists e, record_body clock mesh times st i d = Raise e.
Proof.
  intros M. destruct (record_body clock mesh times st i d) as [st'|e] eqn:E;
    [|eauto].
  exfalso.
  apply record_body_ok in E
    as (nr & layer & vnr & elnr & trow & ttop & vs & bs & fcs & nrmls & c
        & -> & _ & _ & Ev & Bs & Ex & _).
  unfold unknown_or_uncentred in M. rewrite Ev, Ex in M.
  rewrite (bottom_frame_known _ _ _ _ Bs) in M. discriminate.
Qed.

Lemma record_body_no_times (st : loop_state F) (i : nat) (d : list Z) :
  length times <= i ->
  exists e, record_body clock mesh times st i d = Raise e.
Proof.
  intros L. destruct (record_body clock mesh times st i d) as [st'|e] eqn:E;
    [|eauto].
  exfalso.
  apply record_body_ok in E
    as (nr & layer & vnr & elnr & trow & ttop & vs & bs & fcs & nrmls & c
        & _ & Et & _).
  assert (i < length times) by (apply nth_error_Some; congruence). lia.
Qed.

Lemma record_loop_raises : forall rows st i k d,
  nth_error rows k = Some d ->
  unknown_or_uncentred mesh d = true \/ length times <= i + k ->
  exists e, record_loop clock mesh times st i rows = Raise e.
Proof.
  induction rows as [|d0 rows IH]; intros st i k d Ek M.
  - destruct k; discriminate.
  - simpl. destruct (record_body clock mesh times st i d0) as [st1|e] eqn:E1;
      simpl; [|eauto].
    destruct k as [|k].
    + exfalso. simpl in Ek. injection Ek as ->. destruct M as [M|M].
      * destruct (record_body_malformed st i d M) as (e & E). congruence.
      * rewrite Nat.add_0_r in M.
        destruct (record_body_no_times st i d M) as (e & E). congruence.
    + simpl in Ek. eapply IH; [exact Ek|].
      destruct M as [M|M]; [now left | right; lia].
Qed.

End RecordLoop.

(** ** The flattened scene *)

Section Flattened.
Context {F : Type} `{Number F}.

Lemma with_top_has_top (ttop : F) (vnr : Z) : forall vs bs,
  length bs = length vs -> existsb (is_central vnr) vs = true ->
  exists b, In b bs /\ In (top_of ttop b) (with_top ttop vnr vs bs).
Proof.
  induction vs as [|v vs IH]; intros [|b bs]; simpl; try discriminate.
  intros L. injection L as L. unfold is_central at 1.
  destruct (Z.eqb v vnr); simpl.
  - intros _. exists b. auto.
  - intros Ex. destruct (IH bs L Ex) as (b' & Hb & Ht). exists b'. auto.
Qed.

(** C1 (amended).  For every record that is processed, the points
    given to [GetFacesAndNormals] are the very list that is appended to
    the global vertices: the bottom points of the vertices of the
    element in their order, with the top point of the central vertex
    right after its bottom point.  The top point is among the points
    the faces and normals are computed from. *)
Theorem kernel_input_is_emitted_block (clock : nat -> F) (mesh : Mesh F)
    (times : list (list F)) (st st' : loop_state F) (i : nat) (d : list Z) :
  record_body clock mesh times st i d = Ok st' ->
  emitted_block mesh times i d st st'.
Proof.
  intros E.
  apply record_body_ok in E
    as (nr & layer & vnr & elnr & trow & ttop & vs & bs & fcs & nrmls & c
        & -> & Et & Ett & Ev & Bs & Ex & Ek & Eg & Ef & En & _).
  exists vnr, elnr, trow, ttop, vs, bs, fcs, nrmls.
  repeat split; auto.
  apply with_top_has_top; auto. eapply bottom_frame_length; eauto.
Qed.

(** C2 (amended).  For every sequence of N well-formed records with
    their 4N times, [GetElements2D] returns 4N vertices (per record
    three bottom points and the top point of the central vertex) and
    4N faces. *)
Theorem flatten_counts (clock : nat -> F) (mesh : Mesh F) (tps : Tents F)
    (rows : list (list Z)) :
  reshape4 (tents_data tps) = Ok rows ->
  length (tents_times tps) = 4 * length rows ->
  forallb (well_formed_record mesh) rows = true ->
  exists out printed,
    GetElements2D clock mesh tps = Ok (out, printed)
    /\ length (el_vertices out) = 4 * length rows
    /\ length (el_faces out) = 4 * length rows.
Proof.
  intros Ed Lt W.
  destruct (reshape4_rows (length rows) _ Lt) as (trows & Et & Ltr & Ft).
  destruct (record_loop_total clock mesh trows rows initial_state 0 W)
    as (st & El & Lv).
  { intros k Hk. simpl.
    destruct (nth_error trows k) as [trow|] eqn:En.
    - exists trow. split; [reflexivity|].
      rewrite Forall_forall in Ft. apply Ft. eapply nth_error_In; eauto.
    - apply nth_error_None in En. lia. }
  unfold GetElements2D. rewrite Ed, Et. simpl. rewrite El. simpl.
  eexists; eexists; split; [reflexivity|]. simpl.
  split; [exact Lv|].
  apply record_loop_ok in El as (groups & Ef & Lg & Fg & _).
  rewrite Ef. simpl. clear Ef.
  revert Lg Fg. generalize (length rows). clear.
  induction groups as [|g groups IH]; intros n Lg Fg; simpl in *.
  - lia.
  - destruct n as [|n]; [discriminate|].
    apply Forall_cons_iff in Fg as [Kg Fg].
    rewrite length_app, (kernel_faces_length _ Kg).
    rewrite (IH n); auto; lia.
Qed.

(** C3 (amended).  The faces are appended as [GetFacesAndNormals]
    returns them, without any offset: every stored face index is a
    local index of its element, one of 0, 1, 2, 3; it is below the
    number of global vertices because every processed record emits at
    least four of them. *)
Theorem faces_are_element_local (clock : nat -> F) (mesh : Mesh F)
    (tps : Tents F) (out : Elements F) (printed : F * F * F) :
  GetElements2D clock mesh tps = Ok (out, printed) ->
  element_local_faces out.
Proof.
  unfold GetElements2D. intros E.
  apply bind_ok in E as (rows & Ed & E).
  apply bind_ok in E as (trows & Et & E).
  apply bind_ok in E as (st & El & E).
  injection E as <- _.
  apply record_loop_ok in El
    as (groups & Ef & Lg & Fg & Lv & Ln & _).
  simpl in Ef, Lv, Ln.
  exists groups. simpl. repeat split; auto; try lia.
  rewrite Ef. clear Ef Ln.
  assert (Lv' : 4 * length groups <= length (gvertices st)) by lia.
  clear Lv Lg. revert Lv'. generalize (length (gvertices st)). intros n.
  induction groups as [|g groups IH]; intros Ln; simpl; [constructor|].
  apply Forall_cons_iff in Fg as [Kg Fg].
  apply Forall_app. split.
  - apply kernel_faces_lt in Kg.
    eapply Forall_impl; [|exact Kg]. intros f Hf.
    eapply Forall_impl; [|exact Hf]. simpl. intros ix Hix.
    simpl in Ln. lia.
  - apply IH; auto. simpl in Ln. lia.
Qed.

(** The call fails as a whole when the times are not a multiple of
    four or fewer than the data, when a lookup in the mesh does not
    return, and when the element of a record lacks its central
    vertex. *)
Lemma unknown_or_uncentred_raises (clock : nat -> F) (mesh : Mesh F)
    (version : string) (cast : F -> float32) (tps : Tents F) :
  too_few_times tps || names_unknown mesh tps = true ->
  exists e, GetElements2D clock mesh tps = Raise e
            /\ GetData clock mesh version cast tps = Raise e.
Proof.
  intros M.
  assert (R : exists e, GetElements2D clock mesh tps = Raise e).
  { unfold GetElements2D.
    destruct (reshape4 (tents_data tps)) as [rows|e] eqn:Ed; simpl; [|eauto].
    destruct (reshape4 (tents_times tps)) as [trows|e] eqn:Et; simpl; [|eauto].
    apply reshape4_ok in Et as [Lt _].
    pose proof Ed as Ed'. apply reshape4_ok in Ed' as [Ld _].
    assert (K : exists k d, nth_error rows k = Some d
                  /\ (unknown_or_uncentred mesh d = true
                      \/ length trows <= 0 + k)).
    { apply orb_prop in M as [M|M].
      - unfold too_few_times in M. apply orb_prop in M as [M|M].
        + rewrite Lt, Nat.mul_comm, Nat.Div0.mod_mul in M. discriminate.
        + apply Nat.ltb_lt in M.
          destruct (nth_error rows (length trows)) as [d|] eqn:En.
          * exists (length trows), d. split; [exact En | right; lia].
          * apply nth_error_None in En. lia.
      - unfold names_unknown in M. rewrite Ed in M.
        apply existsb_exists in M as (d & Hd & Md).
        apply In_nth_error in Hd as (k & Hk).
        exists k, d. auto. }
    destruct K as (k & d & Ek & Mk).
    destruct (record_loop_raises clock mesh trows rows initial_state 0 k d Ek Mk)
      as (e & ->).
    simpl. eauto. }
  destruct R as (e & R). exists e. split; [exact R|].
  unfold GetData. rewrite R. reflexivity.
Qed.

(** C9 (amended).  The call fails as a whole, with an exception and
    without any scene data, from [GetElements2D] as from [GetData],
    when the times are not a multiple of four or fewer than the data,
    and when the vertices that the mesh returns for the element of a
    record do not include the central vertex number of the record:
    this is so for a central vertex number the mesh does not have,
    and for an element number for which the mesh returns an element
    without vertices.  [GetElements2D] does not check the element
    number itself. *)
Theorem malformed_input_raises (clock : nat -> F) (mesh : Mesh F)
    (version : string) (cast : F -> float32) (tps : Tents F) :
  too_few_times tps || names_uncentred mesh tps = true ->
  exists e, GetElements2D clock mesh tps = Raise e
            /\ GetData clock mesh version cast tps = Raise e.
Proof.
  intros M. apply unknown_or_uncentred_raises.
  apply orb_prop in M as [M|M]; [rewrite M; reflexivity|].
  apply orb_true_iff. right.
  unfold names_uncentred in M. unfold names_unknown.
  destruct (reshape4 (tents_data tps)) as [rows|e]; [|discriminate].
  apply existsb_exists in M as (d & Hd & Md).
  apply existsb_exists. exists d. split; [exact Hd|].
  unfold lacks_central in Md. unfold unknown_or_uncentred.
  destruct d as [|nr [|layer [|vnr [|elnr [|? ?]]]]]; try discriminate.
  destruct (element_vertices mesh elnr) as [vs|]; [|discriminate].
  rewrite Md. apply orb_true_r.
Qed.

(** A record whose element has no vertex with the central number (its
    at most three vertices being known) leaves the variable [center]
    as it was.  When records were processed before it, the index
    appended last for the previous element is appended once more,
    without any exception at this point; when it is the first record,
    reading [center] raises [UnboundLocalError]. *)
Lemma stale_center_kept (clock : nat -> F) (mesh : Mesh F)
    (times : list (list F)) (pre : list (list Z)) (st : loop_state F)
    (nr layer vnr elnr : Z) (vs : list Z) (trow : list F) :
  record_loop clock mesh times initial_state 0 pre = Ok st ->
  nth_error times (length pre) = Some trow -> length trow = 4 ->
  element_vertices mesh elnr = Some vs ->
  existsb (is_central vnr) vs = false ->
  length vs <= 3 ->
  forallb (fun v => match vertex_point mesh v with
                    | Some _ => true
                    | None => false
                    end) vs = true ->
  (pre = [] ->
   record_points clock mesh times st (length pre) [nr; layer; vnr; elnr]
   = Raise UnboundLocalError)
  /\ (pre <> [] ->
      exists l c st1 vertices,
        tentcenters st = l ++ [c]
        /\ record_points clock mesh times st (length pre) [nr; layer; vnr; elnr]
           = Ok (st1, vertices)
        /\ tentcenters st1 = l ++ [c; c]
        /\ center st1 = center st
        /\ length vertices = length vs).
Proof.
  intros El Et Lt Ev Ex Lv Kn.
  destruct trow as [|t0 [|t1 [|t2 [|t3 [|? ?]]]]]; try discriminate.
  assert (V : forall c0, exists vertices,
            vertex_loop mesh [t0; t1; t2] t3 vnr 0 vs [] c0 = Ok (vertices, c0)
            /\ length vertices = length vs).
  { intros c0.
    assert (G : forall ws j acc,
               forallb (fun v => match vertex_point mesh v with
                                 | Some _ => true
                                 | None => false
                                 end) ws = true ->
               existsb (is_central vnr) ws = false ->
               j + length ws <= 3 ->
               exists vertices,
                 vertex_loop mesh [t0; t1; t2] t3 vnr j ws acc c0
                 = Ok (vertices, c0)
                 /\ length vertices = length acc + length ws).
    { induction ws as [|v ws IH]; intros j acc Kw Xw Lw; simpl.
      - exists acc. split; [reflexivity | lia].
      - simpl in Kw, Xw, Lw.
        apply andb_prop in Kw as [Kv Kw].
        apply orb_false_elim in Xw as [Xv Xw].
        destruct (vertex_point mesh v) as [pt|]; [|discriminate]. simpl.
        destruct (nth_error [t0; t1; t2] j) as [tb|] eqn:Etb.
        2:{ apply nth_error_None in Etb. simpl in Etb. lia. }
        unfold item. rewrite Etb. simpl.
        unfold is_central in Xv. rewrite Xv.
        destruct (IH (S j) (acc ++ [pt ++ [tb]]) Kw Xw) as (vertices & E & L);
          [lia|].
        exists vertices. split; [exact E|].
        rewrite L, length_app. simpl. lia. }
    destruct (G vs 0 [] Kn Ex) as (vertices & E & L); [simpl; lia|].
    exists vertices. simpl in L. auto. }
  split.
  - intros ->. simpl in El. injection El as <-.
    destruct (V None) as (vertices & E & _).
    unfold record_points, element_points, item. simpl in Et |- *.
    rewrite Et. simpl. rewrite Ev. simpl. rewrite E. reflexivity.
  - intros Hne.
    destruct (center_is_last clock mesh times pre initial_state 0 st El Hne)
      as (l & c & Etc & Ec).
    destruct (V (Some c)) as (vertices & E & L).
    exists l, c. eexists. exists vertices.
    split; [exact Etc|].
    unfold record_points, element_points, item.
    rewrite Et. simpl. rewrite Ev, Ec. simpl. rewrite E. simpl.
    split; [reflexivity|]. simpl.
    rewrite Etc, <- app_assoc. auto.
Qed.

(** With more than three vertices, none of them central, the vertex
    loop does not come to its end: the fourth vertex has no bottom
    time. *)
Lemma long_element_raises (mesh : Mesh F) (t0 t1 t2 ttop : F) (vnr : Z) :
  forall ws j acc c0,
    forallb (fun v => match vertex_point mesh v with
                      | Some _ => true
                      | None => false
                      end) ws = true ->
    existsb (is_central vnr) ws = false ->
    j <= 3 -> 3 < j + length ws ->
    vertex_loop mesh [t0; t1; t2] ttop vnr j ws acc c0 = Raise IndexError.
Proof.
  induction ws as [|v ws IH]; intros j acc c0 Kw Xw Lj Lw;
    [simpl in Lw; lia|].
  cbn [forallb existsb length] in Kw, Xw, Lw.
  apply andb_prop in Kw as [Kv Kw].
  apply orb_false_elim in Xw as [Xv Xw].
  cbn [vertex_loop].
  destruct (vertex_point mesh v) as [pt|]; [|discriminate].
  cbn [lookup bind]. unfold item.
  destruct (nth_error [t0; t1; t2] j) as [tb|] eqn:Etb; [|reflexivity].
  cbn [bind]. unfold is_central in Xv. rewrite Xv.
  assert (j < 3).
  { assert (j < length [t0; t1; t2]) by (apply nth_error_Some; congruence).
    simpl in *. lia. }
  apply IH; auto; lia.
Qed.

(** C10 (amended).  A record whose element has no vertex with the
    central number leaves the variable [center] as it was; there is
    no reset and no check.  With at most three vertices in the
    element: when records were processed before it, the index
    appended last for the previous element is appended once more,
    without any exception at this point, and when it is the first
    record, reading [center] raises [UnboundLocalError].  With more
    than three vertices the vertex loop raises [IndexError] at the
    bottom time of the fourth vertex, before anything is appended.
    (The vertices of an element are the mesh's own, so they are
    known.) *)
Theorem stale_center_is_appended (clock : nat -> F) (mesh : Mesh F)
    (times : list (list F)) (pre : list (list Z)) (st : loop_state F)
    (nr layer vnr elnr : Z) (vs : list Z) (trow : list F) :
  record_loop clock mesh times initial_state 0 pre = Ok st ->
  nth_error times (length pre) = Some trow -> length trow = 4 ->
  element_vertices mesh elnr = Some vs ->
  existsb (is_central vnr) vs = false ->
  forallb (fun v => match vertex_point mesh v with
                    | Some _ => true
                    | None => false
                    end) vs = true ->
  (length vs <= 3 ->
   (pre = [] ->
    record_points clock mesh times st (length pre) [nr; layer; vnr; elnr]
    = Raise UnboundLocalError)
   /\ (pre <> [] ->
       exists l c st1 vertices,
         tentcenters st = l ++ [c]
         /\ record_points clock mesh times st (length pre)
              [nr; layer; vnr; elnr]
            = Ok (st1, vertices)
         /\ tentcenters st1 = l ++ [c; c]
         /\ center st1 = center st
         /\ length vertices = length vs))
  /\ (3 < length vs ->
      record_points clock mesh times st (length pre) [nr; layer; vnr; elnr]
      = Raise IndexError).
Proof.
  intros El Et Lt Ev Ex Kn. split.
  - intros Lv.
    exact (stale_center_kept clock mesh times pre st nr layer vnr elnr vs trow
             El Et Lt Ev Ex Lv Kn).
  - intros Lv.
    destruct trow as [|t0 [|t1 [|t2 [|t3 [|? ?]]]]]; try discriminate.
    unfold record_points, element_points, item.
    rewrite Et. cbn [bind nth_error firstn]. rewrite Ev. cbn [lookup bind].
    rewrite (long_element_raises mesh t0 t1 t2 t3 vnr vs 0 [] (center st)
               Kn Ex); [reflexivity | lia | lia].
Qed.

End Flattened.

(** ** The clock does not reach the data *)

Section Clock.
Context {F : Type} `{Number F}.
Variables clock1 clock2 : nat -> F.
Variable mesh : Mesh F.

Lemma record_body_clock (times : list (list F)) (st1 st2 : loop_state F)
    (i : nat) (d : list Z) :
  data_of st1 = data_of st2 ->
  fmap data_of (record_body clock1 mesh times st1 i d)
  = fmap data_of (record_body clock2 mesh times st2 i d).
Proof.
  unfold data_of. intros E.
  injection E as Eg Etc En El Ef Enm Ec.
  unfold record_body, record_points, record_faces.
  destruct d as [|nr [|layer [|vnr [|elnr [|? ?]]]]]; try reflexivity.
  destruct (item times i) as [trow|]; cbn [bind fmap]; [|reflexivity].
  destruct (item trow 3) as [ttop|]; cbn [bind fmap]; [|reflexivity].
  rewrite Ec.
  destruct (element_points mesh (firstn 3 trow) ttop vnr elnr (center st2))
    as [[vertices c']|]; cbn [bind fmap]; [|reflexivity].
  destruct (read_local c') as [c|]; cbn [bind fmap]; [|reflexivity].
  destruct (GetFacesAndNormals vertices) as [[fcs nrmls]|];
    cbn [bind fmap gvertices tentcenters nrs layers faces normals center];
    [|reflexivity].
  congruence.
Qed.

Lemma record_loop_clock (times : list (list F)) : forall rows st1 st2 i,
  data_of st1 = data_of st2 ->
  fmap data_of (record_loop clock1 mesh times st1 i rows)
  = fmap data_of (record_loop clock2 mesh times st2 i rows).
Proof.
  induction rows as [|d rows IH]; intros st1 st2 i E; simpl.
  - now rewrite E.
  - pose proof (record_body_clock times st1 st2 i d E) as B.
    destruct (record_body clock1 mesh times st1 i d) as [s1|e1];
      destruct (record_body clock2 mesh times st2 i d) as [s2|e2];
      simpl in B |- *; try discriminate.
    + apply IH. congruence.
    + exact B.
Qed.

Lemma GetElements2D_clock (tps : Tents F) :
  fmap fst (GetElements2D clock1 mesh tps)
  = fmap fst (GetElements2D clock2 mesh tps).
Proof.
  unfold GetElements2D.
  destruct (reshape4 (tents_data tps)) as [rows|]; simpl; [|reflexivity].
  destruct (reshape4 (tents_times tps)) as [times|]; simpl; [|reflexivity].
  pose proof (record_loop_clock times rows initial_state initial_state 0
                eq_refl) as L.
  destruct (record_loop clock1 mesh times initial_state 0 rows) as [s1|e1];
    destruct (record_loop clock2 mesh times initial_state 0 rows) as [s2|e2];
    simpl in L |- *; try discriminate; [|congruence].
  unfold data_of in L. injection L as Eg Etc En El Ef Enm Ec.
  congruence.
Qed.

(** C8.  The scene data do not depend on the clock: run with any two
    clocks on the same tents and the same mesh, [GetData] returns the
    same dictionary, or raises the same exception.  What [time()]
    returns reaches the printed line only. *)
Theorem GetData_deterministic (version : string) (cast : F -> float32)
    (tps : Tents F) :
  fmap fst (GetData clock1 mesh version cast tps)
  = fmap fst (GetData clock2 mesh version cast tps).
Proof.
  unfold GetData.
  pose proof (GetElements2D_clock tps) as E.
  destruct (GetElements2D clock1 mesh tps) as [[l1 p1]|e1];
    destruct (GetElements2D clock2 mesh tps) as [[l2 p2]|e2];
    simpl in E |- *; try discriminate; [|congruence].
  injection E as ->.
  destruct (np_array (el_vertices l2)) as [vertices|]; simpl; [|reflexivity].
  destruct (np_array (el_normals l2)) as [normals|]; simpl; [|reflexivity].
  destruct (reduce_axis0 np_maximum vertices); simpl; [|reflexivity].
  destruct (reduce_axis0 np_minimum vertices); reflexivity.
Qed.

End Clock.

(** ** The encoder *)

Section Encoder.

Ltac div_lia := zify; Z.to_euclidean_division_equations; lia.





Lemma sextets_bound (a b c : N) :
  (a < 256)%N -> (b < 256)%N -> (c < 256)%N ->
  let '(s0, s1, s2, s3) := sextets a b c in
  (s0 < 64 /\ s1 < 64 /\ s2 < 64 /\ s3 < 64)%N.
Proof.
  intros La Lb Lc. unfold sextets. cbv beta iota. repeat split; div_lia.
Qed.


Lemma to_N_lt (b : byte) : (Byte.to_N b < 256)%N.
Proof. pose proof (Byte.to_N_bounded b). lia. Qed.




End Encoder.

(** ** The geometry kernel in exact arithmetic *)

Section RealKernel.
Open Scope R_scope.

Lemma dot3 (u v w a b c : R) :
  dot [u; v; w] [a; b; c] = u * a + v * b + w * c.
Proof. reflexivity. Qed.

Lemma np_norm3 (a b c : R) :
  np_norm [a; b; c] = sqrt (a * a + b * b + c * c).
Proof. reflexivity. Qed.

Lemma np_sign_cases (D : R) :
  D <> 0 ->
  (0 < D /\ np_sign D = 1 /\ gt0 (nneg (np_sign D)) = false)
  \/ (D < 0 /\ np_sign D = -1 /\ gt0 (nneg (np_sign D)) = true).
Proof.
  intros HD. cbn [np_sign gt0 nneg R_Number].
  destruct (Rlt_dec 0 D) as [P|NP].
  - left. repeat split; auto.
    match goal with
    | |- context [Rlt_dec ?a ?b] => destruct (Rlt_dec a b)
    end; [lra | reflexivity].
  - destruct (Rlt_dec D 0) as [N|NN]; [|lra].
    right. repeat split; auto.
    match goal with
    | |- context [Rlt_dec ?a ?b] => destruct (Rlt_dec a b)
    end; [reflexivity | lra].
Qed.

Lemma norm_pos (u v w a b c : R) :
  u * a + v * b + w * c <> 0 -> 0 < sqrt (a * a + b * b + c * c).
Proof.
  intros HD. apply sqrt_lt_R0.
  destruct (Req_dec a 0) as [->|Ha]; [|nra].
  destruct (Req_dec b 0) as [->|Hb]; [|nra].
  destruct (Req_dec c 0) as [->|Hc]; [|nra].
  exfalso. apply HD. ring.
Qed.

(** A vector divided by its length and multiplied by a sign has the
    length one. *)
Lemma scaled_norm (u v w a b c : R) :
  dot [u; v; w] [a; b; c] <> 0 ->
  np_norm [nmul (ndiv a (np_norm [a; b; c])) (nneg (np_sign (dot [u; v; w] [a; b; c])));
           nmul (ndiv b (np_norm [a; b; c])) (nneg (np_sign (dot [u; v; w] [a; b; c])));
           nmul (ndiv c (np_norm [a; b; c])) (nneg (np_sign (dot [u; v; w] [a; b; c])))]
  = 1.
Proof.
  intros HD. rewrite dot3 in HD |- *.
  pose proof (norm_pos _ _ _ _ _ _ HD) as HN.
  rewrite !np_norm3. cbn [nmul ndiv nneg R_Number].
  set (N := sqrt (a * a + b * b + c * c)) in *.
  assert (HS : N * N = a * a + b * b + c * c).
  { apply sqrt_sqrt. nra. }
  set (s := - np_sign (u * a + v * b + w * c)).
  assert (Hs : s * s = 1).
  { unfold s. destruct (np_sign_cases _ HD) as [(_ & -> & _)|(_ & -> & _)]; ring. }
  replace (a / N * s * (a / N * s) + b / N * s * (b / N * s)
           + c / N * s * (c / N * s))
    with ((a * a + b * b + c * c) / (N * N) * (s * s))
    by (field; lra).
  rewrite <- HS, Hs.
  replace (N * N / (N * N) * 1) with 1 by (field; lra).
  apply sqrt_1.
Qed.

Ltac unfold_real :=
  unfold volume6, dot, np_cross in *;
  cbn [zip_with fold_left] in *;
  cbn [nzero nunit ntwo nadd nsub nmul ndiv nneg nsqrt R_Number] in *.

(** A normal scaled by the sign opposite to the side of the fourth
    point points away from the centroid, whichever winding the face
    is given. *)
Lemma outward_normal (pts : list (list R)) (u v w a b c : R)
    (fa fb : list nat) :
  dot [u; v; w] [a; b; c] <> 0 ->
  (forall f, f = fa \/ f = fb ->
     exists g1 g2 g3,
       zip_with nsub (centroid (face_points pts f)) (centroid pts)
       = [g1; g2; g3]
       /\ a * g1 + b * g2 + c * g3 = - (u * a + v * b + w * c) / 4) ->
  points_away_true pts
    (if gt0 (nneg (np_sign (dot [u; v; w] [a; b; c]))) then fa else fb)
    [nmul (ndiv a (np_norm [a; b; c])) (nneg (np_sign (dot [u; v; w] [a; b; c])));
     nmul (ndiv b (np_norm [a; b; c])) (nneg (np_sign (dot [u; v; w] [a; b; c])));
     nmul (ndiv c (np_norm [a; b; c])) (nneg (np_sign (dot [u; v; w] [a; b; c])))].
Proof.
  intros HD HG. rewrite dot3 in HD |- *.
  pose proof (norm_pos _ _ _ _ _ _ HD) as HN.
  rewrite !np_norm3.
  set (N := sqrt (a * a + b * b + c * c)) in *.
  unfold points_away_true, points_away.
  destruct (np_sign_cases _ HD) as [(HP & -> & ->)|(HP & -> & ->)].
  - destruct (HG fb (or_intror eq_refl)) as (g1 & g2 & g3 & -> & E).
    rewrite dot3. cbn [nmul ndiv nneg gt0 R_Number].
    match goal with
    | |- context [Rlt_dec ?x ?y] => destruct (Rlt_dec x y) as [_|NP]
    end; [reflexivity|].
    exfalso. apply NP.
    replace (a / N * - (1) * g1 + b / N * - (1) * g2 + c / N * - (1) * g3)
      with (- (a * g1 + b * g2 + c * g3) / N) by (field; lra).
    rewrite E. apply Rdiv_lt_0_compat; lra.
  - destruct (HG fa (or_introl eq_refl)) as (g1 & g2 & g3 & -> & E).
    rewrite dot3. cbn [nmul ndiv nneg gt0 R_Number].
    match goal with
    | |- context [Rlt_dec ?x ?y] => destruct (Rlt_dec x y) as [_|NP]
    end; [reflexivity|].
    exfalso. apply NP.
    replace (a / N * - -1 * g1 + b / N * - -1 * g2 + c / N * - -1 * g3)
      with ((a * g1 + b * g2 + c * g3) / N) by (field; lra).
    rewrite E. apply Rdiv_lt_0_compat; lra.
Qed.

(** On a tetrahedron of non-zero volume every returned normal has
    the length one and points away from the centroid. *)
Lemma kernel_on_tetrahedron (x0 y0 z0 x1 y1 z1 x2 y2 z2 x3 y3 z3 : R) :
  let pts := [[x0; y0; z0]; [x1; y1; z1]; [x2; y2; z2]; [x3; y3; z3]] in
  volume6 pts <> 0 ->
  exists fcs nrmls,
    GetFacesAndNormals pts = Ok (fcs, nrmls)
    /\ Forall (fun n => np_norm n = 1) nrmls
    /\ Forall2 (points_away_true pts) fcs nrmls.
Proof.
  intros pts HV. subst pts.
  eexists; eexists. split.
  { unfold GetFacesAndNormals, np_array, np_roll, face_and_normal, column, item.
    cbn -[np_norm np_sign dot nmul ndiv nneg gt0 nsub nadd]. reflexivity. }
  split.
  - repeat constructor; apply scaled_norm; unfold_real; lra.
  - repeat constructor; apply outward_normal;
      try (unfold_real; lra);
      intros f [-> | ->]; eexists; eexists; eexists;
      (split; [cbn -[nsub nadd ndiv nunit]; reflexivity | unfold_real; field]).
Qed.

(** A regular tetrahedron has a volume: the square of six times the
    volume is the Gram determinant of the edges at the first point,
    which is half the cube of the squared edge length. *)
Lemma regular_volume (x0 y0 z0 x1 y1 z1 x2 y2 z2 x3 y3 z3 : R) :
  let pts := [[x0; y0; z0]; [x1; y1; z1]; [x2; y2; z2]; [x3; y3; z3]] in
  regular_R pts -> volume6 pts <> 0.
Proof.
  intros pts. subst pts. unfold regular_R, dist2. unfold_real.
  intros (Hs & H02 & H03 & H12 & H13 & H23).
  remember ((x0 - x1) * (x0 - x1) + (y0 - y1) * (y0 - y1)
            + (z0 - z1) * (z0 - z1)) as S eqn:ES.
  set (a1 := x1 - x0). set (b1 := y1 - y0). set (c1 := z1 - z0).
  set (a2 := x2 - x0). set (b2 := y2 - y0). set (c2 := z2 - z0).
  set (a3 := x3 - x0). set (b3 := y3 - y0). set (c3 := z3 - z0).
  assert (G11 : a1 * a1 + b1 * b1 + c1 * c1 = S) by (unfold a1, b1, c1; lra).
  assert (G22 : a2 * a2 + b2 * b2 + c2 * c2 = S) by (unfold a2, b2, c2; lra).
  assert (G33 : a3 * a3 + b3 * b3 + c3 * c3 = S) by (unfold a3, b3, c3; lra).
  assert (G12 : a1 * a2 + b1 * b2 + c1 * c2 = S / 2)
    by (unfold a1, b1, c1, a2, b2, c2 in *; lra).
  assert (G13 : a1 * a3 + b1 * b3 + c1 * c3 = S / 2)
    by (unfold a1, b1, c1, a3, b3, c3 in *; lra).
  assert (G23 : a2 * a3 + b2 * b3 + c2 * c3 = S / 2)
    by (unfold a2, b2, c2, a3, b3, c3 in *; lra).
  clearbody a1 b1 c1 a2 b2 c2 a3 b3 c3. clear - Hs G11 G22 G33 G12 G13 G23.
  set (V := a1 * (b2 * c3 - c2 * b3) + b1 * (c2 * a3 - a2 * c3)
            + c1 * (a2 * b3 - b2 * a3)).
  assert (Gram : V * V =
    (a1 * a1 + b1 * b1 + c1 * c1)
    * ((a2 * a2 + b2 * b2 + c2 * c2) * (a3 * a3 + b3 * b3 + c3 * c3)
       - (a2 * a3 + b2 * b3 + c2 * c3) * (a2 * a3 + b2 * b3 + c2 * c3))
    - (a1 * a2 + b1 * b2 + c1 * c2)
      * ((a1 * a2 + b1 * b2 + c1 * c2) * (a3 * a3 + b3 * b3 + c3 * c3)
         - (a2 * a3 + b2 * b3 + c2 * c3) * (a1 * a3 + b1 * b3 + c1 * c3))
    + (a1 * a3 + b1 * b3 + c1 * c3)
      * ((a1 * a2 + b1 * b2 + c1 * c2) * (a2 * a3 + b2 * b3 + c2 * c3)
         - (a2 * a2 + b2 * b2 + c2 * c2) * (a1 * a3 + b1 * b3 + c1 * c3)))
    by (unfold V; ring).
  rewrite G11, G22, G33, G12, G13, G23 in Gram.
  intros HV. rewrite HV in Gram.
  assert (0 < S * S * S) by (repeat apply Rmult_lt_0_compat; assumption).
  lra.
Qed.

End RealKernel.

(** ** Families of inputs computed in binary64 *)

Section Families.

Lemma Zrange_In (a b z : Z) : (a <= z <= b)%Z -> In z (Zrange a b).
Proof.
  intros Hz. unfold Zrange. apply in_map_iff.
  exists (Z.to_nat (z - a)). split; [lia|]. apply in_seq. lia.
Qed.

Lemma points3_In (cs : list Z) (x y z : Z) :
  In x cs -> In y cs -> In z cs -> In (x, y, z) (points3 cs).
Proof.
  intros Hx Hy Hz. unfold points3.
  apply in_flat_map. exists x. split; [exact Hx|].
  apply in_flat_map. exists y. split; [exact Hy|].
  apply in_map. exact Hz.
Qed.

Lemma in_box_In (n : Z) (p : Z * Z * Z) :
  in_box n p = true -> In p (points3 (Zrange (- n) n)).
Proof.
  destruct p as [[x y] z]. unfold in_box. cbn [forallb].
  rewrite !andb_true_iff, !Z.leb_le. intros ((? & ?) & (? & ?) & (? & ?) & _).
  apply points3_In; apply Zrange_In; lia.
Qed.

Lemma all_tetrahedra_spec (n : Z) check :
  all_tetrahedra (Zrange (- n) n) check = true ->
  forall p0 p1 p2 p3,
    in_box n p0 = true -> in_box n p1 = true ->
    in_box n p2 = true -> in_box n p3 = true ->
    check p0 p1 p2 p3 = true.
Proof.
  unfold all_tetrahedra. intros A p0 p1 p2 p3 B0 B1 B2 B3.
  rewrite forallb_forall in A. specialize (A p0 (in_box_In _ _ B0)).
  rewrite forallb_forall in A. specialize (A p1 (in_box_In _ _ B1)).
  rewrite forallb_forall in A. specialize (A p2 (in_box_In _ _ B2)).
  rewrite forallb_forall in A. exact (A p3 (in_box_In _ _ B3)).
Qed.

Lemma all_tetrahedra_from_spec (n : Z) skip2 skip3 check :
  all_tetrahedra_from (Zrange (- n) n) skip2 skip3 check = true ->
  forall p0 p1 p2 p3,
    in_box n p0 = true -> in_box n p1 = true ->
    in_box n p2 = true -> in_box n p3 = true ->
    skip2 p0 p1 = false -> skip3 p0 p1 p2 = false ->
    check p0 p1 p2 p3 = true.
Proof.
  unfold all_tetrahedra_from. intros A p0 p1 p2 p3 B0 B1 B2 B3 S2 S3.
  rewrite forallb_forall in A. specialize (A p0 (in_box_In _ _ B0)).
  rewrite forallb_forall in A. specialize (A p1 (in_box_In _ _ B1)).
  rewrite S2 in A.
  rewrite forallb_forall in A. specialize (A p2 (in_box_In _ _ B2)).
  rewrite S3 in A.
  rewrite forallb_forall in A. exact (A p3 (in_box_In _ _ B3)).
Qed.

Lemma unit_normals_spec (pts : list (list float)) :
  unit_normals pts = true ->
  exists fcs nrmls,
    GetFacesAndNormals pts = Ok (fcs, nrmls)
    /\ length fcs = 4 /\ length nrmls = 4
    /\ Forall (fun n => unit_length_float n = true) nrmls.
Proof.
  unfold unit_normals.
  destruct (GetFacesAndNormals pts) as [[fcs nrmls]|]; [|discriminate].
  rewrite !andb_true_iff, !Nat.eqb_eq, forallb_forall.
  intros ((Lf & Ln) & U). exists fcs, nrmls.
  repeat split; auto. now apply Forall_forall.
Qed.

Lemma away_normals_spec (pts : list (list float)) :
  away_normals pts = true ->
  exists fcs nrmls,
    GetFacesAndNormals pts = Ok (fcs, nrmls)
    /\ length fcs = 4 /\ length nrmls = 4
    /\ Forall2 (points_away_true pts) fcs nrmls.
Proof.
  unfold away_normals.
  destruct (GetFacesAndNormals pts) as [[fcs nrmls]|]; [|discriminate].
  rewrite !andb_true_iff, !Nat.eqb_eq.
  intros ((Lf & Ln) & U). exists fcs, nrmls.
  repeat split; auto.
  destruct fcs as [|f0 [|f1 [|f2 [|f3 [|? ?]]]]]; try discriminate.
  destruct nrmls as [|n0 [|n1 [|n2 [|n3 [|? ?]]]]]; try discriminate.
  cbn [combine forallb fst snd] in U.
  rewrite !andb_true_iff in U. destruct U as (U0 & U1 & U2 & U3 & _).
  repeat constructor; assumption.
Qed.

(** Every tetrahedron of non-zero volume with coordinates -1, 0 and 1,
    computed in binary64. *)
Lemma unit_normals_small :
  all_tetrahedra (Zrange (- 1) 1)
    (fun p0 p1 p2 p3 =>
       if Z.eqb (Zvolume6 p0 p1 p2 p3) 0 then true
       else unit_normals (float_points p0 p1 p2 p3)) = true.
Proof. vm_compute. reflexivity. Qed.

(** Every regular tetrahedron with integer coordinates from -2 to 2,
    computed in binary64. *)
Lemma away_normals_small :
  all_tetrahedra_from (Zrange (- 2) 2)
    (fun p0 p1 => Z.eqb (Zdist2 p0 p1) 0) not_equilateral
    (fun p0 p1 p2 p3 =>
       if Zregular p0 p1 p2 p3
       then away_normals (float_points p0 p1 p2 p3) else true) = true.
Proof. vm_compute. reflexivity. Qed.

Lemma unit_normals_scaled :
  forallb (fun k => non_degenerate_float (scaled k regular)
                    && unit_normals (scaled k regular))
          (Zrange (- 250) 250) = true.
Proof. vm_compute. reflexivity. Qed.

Lemma away_normals_scaled :
  forallb (fun k => regular_float (scaled k regular)
                    && away_normals (scaled k regular))
          (Zrange (- 250) 250) = true.
Proof. vm_compute. reflexivity. Qed.

End Families.

(** ** Faces, unit normals and orientation *)

Section FacesAndNormals.

Lemma face_opposite_index_set (q : nat) (f : list nat) :
  q < 4 -> face_opposite q f -> opposite_index_set q f.
Proof.
  intros Lq O.
  destruct q as [|[|[|[|q]]]]; try lia;
    destruct O as [-> | ->]; (split; [reflexivity|]);
    intros ix; cbn; lia.
Qed.

Lemma kernel_faces_index_sets (fcs : list (list nat)) :
  kernel_faces fcs ->
  length fcs = 4
  /\ forall i f, nth_error fcs i = Some f -> opposite_index_set i f.
Proof.
  intros (f0 & f1 & f2 & f3 & -> & O0 & O1 & O2 & O3).
  split; [reflexivity|].
  intros [|[|[|[|i]]]] f E; simpl in E; try injection E as <-;
    try (apply face_opposite_index_set; [lia | assumption]).
  destruct i; discriminate.
Qed.

Lemma four_points_of_three {A} (pts : list (list A)) :
  length pts = 4 -> Forall (fun p => length p = 3) pts ->
  exists x0 y0 z0 x1 y1 z1 x2 y2 z2 x3 y3 z3,
    pts = [[x0; y0; z0]; [x1; y1; z1]; [x2; y2; z2]; [x3; y3; z3]].
Proof.
  intros L Fa.
  destruct pts as [|p0 [|p1 [|p2 [|p3 [|? ?]]]]]; try discriminate.
  repeat match goal with
         | Fa : Forall _ (_ :: _) |- _ =>
             let Lp := fresh "Lp" in inversion Fa as [|? ? Lp ?]; subst; clear Fa
         end.
  destruct p0 as [|? [|? [|? [|? ?]]]]; try discriminate.
  destruct p1 as [|? [|? [|? [|? ?]]]]; try discriminate.
  destruct p2 as [|? [|? [|? [|? ?]]]]; try discriminate.
  destruct p3 as [|? [|? [|? [|? ?]]]]; try discriminate.
  repeat eexists.
Qed.

(** C4 (amended).  On every input of four points of three coordinates,
    in whatever arithmetic, [GetFacesAndNormals] returns exactly four
    faces and four normals, and the index set of the [i]-th face is
    0, 1, 2, 3 without [i].  In exact real arithmetic every normal
    of a tetrahedron of non-zero volume has the Euclidean length 1,
    so it is within 1e-6 of it.  Computed in binary64, every normal
    has the length one within 1e-6 for the regular tetrahedron
    [regular], for every tetrahedron of non-zero volume with the
    coordinates -1, 0 and 1, and for [regular] scaled by every power
    of two from 2^-250 to 2^250. *)
Theorem faces_and_unit_normals :
  (forall (F : Type) (NF : Number F) (element : list (list F)),
      length element = 4 -> Forall (fun p => length p = 3) element ->
      exists fcs nrmls,
        GetFacesAndNormals element = Ok (fcs, nrmls)
        /\ length fcs = 4 /\ length nrmls = 4
        /\ forall i f, nth_error fcs i = Some f -> opposite_index_set i f)
  /\ (forall pts : list (list R),
         length pts = 4 -> Forall (fun p => length p = 3) pts ->
         volume6 pts <> 0%R ->
         exists fcs nrmls,
           GetFacesAndNormals pts = Ok (fcs, nrmls)
           /\ Forall (fun n => np_norm n = 1%R
                               /\ (Rabs (np_norm n - 1) <= 1 / 1000000)%R)
                     nrmls)
  /\ (exists fcs nrmls,
         GetFacesAndNormals regular = Ok (fcs, nrmls)
         /\ Forall (fun n => unit_length_float n = true) nrmls)
  /\ (forall p0 p1 p2 p3 : Z * Z * Z,
         in_box 1 p0 = true -> in_box 1 p1 = true ->
         in_box 1 p2 = true -> in_box 1 p3 = true ->
         Zvolume6 p0 p1 p2 p3 <> 0%Z ->
         exists fcs nrmls,
           GetFacesAndNormals (float_points p0 p1 p2 p3) = Ok (fcs, nrmls)
           /\ length fcs = 4 /\ length nrmls = 4
           /\ Forall (fun n => unit_length_float n = true) nrmls)
  /\ (forall k : Z,
         (- 250 <= k <= 250)%Z ->
         non_degenerate_float (scaled k regular) = true
         /\ exists fcs nrmls,
              GetFacesAndNormals (scaled k regular) = Ok (fcs, nrmls)
              /\ length fcs = 4 /\ length nrmls = 4
              /\ Forall (fun n => unit_length_float n = true) nrmls).
Proof.
  split; [|split; [|split; [|split]]].
  - intros F NF element L Fa.
    destruct (GetFacesAndNormals_four element L Fa) as (fcs & nrmls & E).
    exists fcs, nrmls. split; [exact E|].
    apply GetFacesAndNormals_ok in E as (K & Ln & _).
    apply kernel_faces_index_sets in K as [Lf I]. auto.
  - intros pts L Fa HV.
    destruct (four_points_of_three pts L Fa)
      as (x0 & y0 & z0 & x1 & y1 & z1 & x2 & y2 & z2 & x3 & y3 & z3 & ->).
    destruct (kernel_on_tetrahedron _ _ _ _ _ _ _ _ _ _ _ _ HV)
      as (fcs & nrmls & E & U & _).
    exists fcs, nrmls. split; [exact E|].
    eapply Forall_impl; [|exact U].
    intros n Hn. cbv beta in Hn. split; [exact Hn|].
    rewrite Hn. replace (1 - 1)%R with 0%R by ring.
    rewrite Rabs_R0. lra.
  - eexists; eexists. split; [vm_compute; reflexivity|].
    repeat constructor.
  - intros p0 p1 p2 p3 B0 B1 B2 B3 HV.
    pose proof (all_tetrahedra_spec 1 _ unit_normals_small
                  p0 p1 p2 p3 B0 B1 B2 B3) as A.
    cbv beta in A. apply Z.eqb_neq in HV. rewrite HV in A.
    exact (unit_normals_spec _ A).
  - intros k Hk.
    pose proof unit_normals_scaled as A. rewrite forallb_forall in A.
    specialize (A k (Zrange_In _ _ _ Hk)).
    apply andb_prop in A as [A1 A2].
    split; [exact A1 | exact (unit_normals_spec _ A2)].
Qed.

(** C5 (amended).  Each of the four normals that [GetFacesAndNormals]
    returns points away from the centroid,
    [dot(normal_i, centroid(face_i) - centroid(tetrahedron)) > 0]:
    computed in binary64 for the regular tetrahedron on (1,1,1),
    (1,-1,-1), (-1,1,-1), (-1,-1,1), for every regular tetrahedron
    with integer coordinates from -2 to 2, in every order of its
    points, and for the first one scaled by every power of two from
    2^-250 to 2^250; in exact real arithmetic for every regular
    tetrahedron. *)
Theorem normals_point_away :
  (regular_float regular = true
   /\ exists fcs nrmls,
        GetFacesAndNormals regular = Ok (fcs, nrmls)
        /\ length fcs = 4 /\ length nrmls = 4
        /\ Forall2 (points_away_true regular) fcs nrmls)
  /\ (forall pts : list (list R),
         Forall (fun p => length p = 3) pts -> regular_R pts ->
         exists fcs nrmls,
           GetFacesAndNormals pts = Ok (fcs, nrmls)
           /\ length fcs = 4 /\ length nrmls = 4
           /\ Forall2 (points_away_true pts) fcs nrmls)
  /\ (forall p0 p1 p2 p3 : Z * Z * Z,
         in_box 2 p0 = true -> in_box 2 p1 = true ->
         in_box 2 p2 = true -> in_box 2 p3 = true ->
         Zregular p0 p1 p2 p3 = true ->
         exists fcs nrmls,
           GetFacesAndNormals (float_points p0 p1 p2 p3) = Ok (fcs, nrmls)
           /\ length fcs = 4 /\ length nrmls = 4
           /\ Forall2 (points_away_true (float_points p0 p1 p2 p3))
                      fcs nrmls)
  /\ (forall k : Z,
         (- 250 <= k <= 250)%Z ->
         regular_float (scaled k regular) = true
         /\ exists fcs nrmls,
              GetFacesAndNormals (scaled k regular) = Ok (fcs, nrmls)
              /\ length fcs = 4 /\ length nrmls = 4
              /\ Forall2 (points_away_true (scaled k regular)) fcs nrmls).
Proof.
  split; [|split; [|split]].
  - split; [vm_compute; reflexivity|].
    eexists; eexists. split; [vm_compute; reflexivity|].
    split; [reflexivity|]. split; [reflexivity|].
    repeat constructor; vm_compute; reflexivity.
  - intros pts Fa Reg.
    assert (L : length pts = 4).
    { destruct pts as [|p0 [|p1 [|p2 [|p3 [|? ?]]]]];
        simpl in Reg; try contradiction. reflexivity. }
    destruct (four_points_of_three pts L Fa)
      as (x0 & y0 & z0 & x1 & y1 & z1 & x2 & y2 & z2 & x3 & y3 & z3 & ->).
    pose proof (regular_volume _ _ _ _ _ _ _ _ _ _ _ _ Reg) as HV.
    destruct (kernel_on_tetrahedron _ _ _ _ _ _ _ _ _ _ _ _ HV)
      as (fcs & nrmls & E & _ & O).
    exists fcs, nrmls. split; [exact E|].
    pose proof (GetFacesAndNormals_ok _ _ _ E) as (K & Ln & _).
    apply kernel_faces_index_sets in K as [Lf _]. auto.
  - intros p0 p1 p2 p3 B0 B1 B2 B3 Reg.
    assert (S2 : Z.eqb (Zdist2 p0 p1) 0 = false
                 /\ not_equilateral p0 p1 p2 = false).
    { unfold Zregular in Reg. unfold not_equilateral.
      rewrite !andb_true_iff in Reg.
      destruct Reg as (((((R0 & R1) & R2) & _) & _) & _).
      apply negb_true_iff in R0. rewrite R0, R1, R2. auto. }
    destruct S2 as [S2 S3].
    pose proof (all_tetrahedra_from_spec 2 _ _ _ away_normals_small
                  p0 p1 p2 p3 B0 B1 B2 B3 S2 S3) as A.
    cbv beta in A. rewrite Reg in A.
    exact (away_normals_spec _ A).
  - intros k Hk.
    pose proof away_normals_scaled as A. rewrite forallb_forall in A.
    specialize (A k (Zrange_In _ _ _ Hk)).
    apply andb_prop in A as [A1 A2].
    split; [exact A1 | exact (away_normals_spec _ A2)].
Qed.

End FacesAndNormals.

(** ** The bounding sphere *)

Section BoundingSphere.

Lemma record_loop_points3 {F : Type} `{Number F} (clock : nat -> F)
    (mesh : Mesh F) (times : list (list F)) : forall rows st i st',
  record_loop clock mesh times st i rows = Ok st' ->
  Forall (fun p => length p = 3) (gvertices st) ->
  Forall (fun p => length p = 3) (gvertices st').
Proof.
  induction rows as [|d rows IH]; intros st i st' E Fa; simpl in E.
  - injection E as <-. exact Fa.
  - apply bind_ok in E as (st1 & E1 & E).
    apply (IH _ _ _ E).
    apply record_body_ok in E1
      as (nr & layer & vnr & elnr & trow & ttop & vs & bs & fcs & nrmls & c
          & _ & _ & _ & _ & _ & _ & Ek & Eg & _).
    apply GetFacesAndNormals_ok in Ek as (_ & _ & _ & _ & F3).
    rewrite Eg. apply Forall_app. auto.
Qed.

Open Scope R_scope.

Lemma min_corner_step (seen : list (list R)) (acc x : list R) :
  seen <> [] -> is_min_corner seen acc -> length x = 3%nat ->
  is_min_corner (seen ++ [x]) (zip_with Rmin acc x).
Proof.
  intros Hne [La Hc] Lx.
  destruct acc as [|a0 [|a1 [|a2 [|? ?]]]]; try discriminate.
  destruct x as [|b0 [|b1 [|b2 [|? ?]]]]; try discriminate.
  split; [reflexivity|].
  intros k Hk. destruct (Hc k Hk) as [Lo (w & Hw & Ew)].
  assert (E : coord k (zip_with Rmin [a0; a1; a2] [b0; b1; b2])
              = Rmin (coord k [a0; a1; a2]) (coord k [b0; b1; b2])).
  { destruct k as [|[|[|k]]]; try reflexivity. lia. }
  rewrite E. split.
  - intros v Hv. apply in_app_or in Hv as [Hv|[<-|[]]].
    + specialize (Lo v Hv). pose proof (Rmin_l (coord k [a0; a1; a2])
                                               (coord k [b0; b1; b2])). lra.
    + apply Rmin_r.
  - destruct (Rle_dec (coord k [a0; a1; a2]) (coord k [b0; b1; b2])) as [C|C].
    + exists w. split; [apply in_or_app; now left|].
      rewrite Rmin_left by assumption. exact Ew.
    + exists [b0; b1; b2]. split; [apply in_or_app; right; now left|].
      rewrite Rmin_right by lra. reflexivity.
Qed.

Lemma max_corner_step (seen : list (list R)) (acc x : list R) :
  seen <> [] -> is_max_corner seen acc -> length x = 3%nat ->
  is_max_corner (seen ++ [x]) (zip_with Rmax acc x).
Proof.
  intros Hne [La Hc] Lx.
  destruct acc as [|a0 [|a1 [|a2 [|? ?]]]]; try discriminate.
  destruct x as [|b0 [|b1 [|b2 [|? ?]]]]; try discriminate.
  split; [reflexivity|].
  intros k Hk. destruct (Hc k Hk) as [Lo (w & Hw & Ew)].
  assert (E : coord k (zip_with Rmax [a0; a1; a2] [b0; b1; b2])
              = Rmax (coord k [a0; a1; a2]) (coord k [b0; b1; b2])).
  { destruct k as [|[|[|k]]]; try reflexivity. lia. }
  rewrite E. split.
  - intros v Hv. apply in_app_or in Hv as [Hv|[<-|[]]].
    + specialize (Lo v Hv). pose proof (Rmax_l (coord k [a0; a1; a2])
                                               (coord k [b0; b1; b2])). lra.
    + apply Rmax_r.
  - destruct (Rle_dec (coord k [a0; a1; a2]) (coord k [b0; b1; b2])) as [C|C].
    + exists [b0; b1; b2]. split; [apply in_or_app; right; now left|].
      rewrite Rmax_right by assumption. reflexivity.
    + exists w. split; [apply in_or_app; now left|].
      rewrite Rmax_left by lra. exact Ew.
Qed.

Lemma fold_min_corner : forall rows seen acc,
  seen <> [] -> is_min_corner seen acc ->
  Forall (fun p => length p = 3%nat) rows ->
  is_min_corner (seen ++ rows) (fold_left (zip_with Rmin) rows acc).
Proof.
  induction rows as [|x rows IH]; intros seen acc Hne Hc Fa; simpl.
  - now rewrite app_nil_r.
  - apply Forall_cons_iff in Fa as [Lx Fa].
    replace (seen ++ x :: rows) with ((seen ++ [x]) ++ rows)
      by (rewrite <- app_assoc; reflexivity).
    apply IH; auto.
    + destruct seen; discriminate.
    + now apply min_corner_step.
Qed.

Lemma fold_max_corner : forall rows seen acc,
  seen <> [] -> is_max_corner seen acc ->
  Forall (fun p => length p = 3%nat) rows ->
  is_max_corner (seen ++ rows) (fold_left (zip_with Rmax) rows acc).
Proof.
  induction rows as [|x rows IH]; intros seen acc Hne Hc Fa; simpl.
  - now rewrite app_nil_r.
  - apply Forall_cons_iff in Fa as [Lx Fa].
    replace (seen ++ x :: rows) with ((seen ++ [x]) ++ rows)
      by (rewrite <- app_assoc; reflexivity).
    apply IH; auto.
    + destruct seen; discriminate.
    + now apply max_corner_step.
Qed.

Lemma corner_of_one (r : list R) :
  length r = 3%nat -> is_min_corner [r] r /\ is_max_corner [r] r.
Proof.
  intros L. split; (split; [exact L|]); intros k Hk; split;
    try (intros v [<-|[]]; lra); exists r; split; auto; now left.
Qed.

(** In every arithmetic the two fields are computed from the columnwise
    minimum and maximum of the emitted vertices. *)
Lemma GetData_slab {F : Type} `{Number F} (clock : nat -> F) (mesh : Mesh F)
    (version : string) (cast : F -> float32) (tps : Tents F)
    (d : SceneData F) (printed : F * F * F) :
  GetData clock mesh version cast tps = Ok (d, printed) ->
  exists out printed' vmin vmax,
    GetElements2D clock mesh tps = Ok (out, printed')
    /\ reduce_axis0 np_minimum (el_vertices out) = Ok vmin
    /\ reduce_axis0 np_maximum (el_vertices out) = Ok vmax
    /\ d_slab_center d = map (fun c => ndiv c ntwo) (zip_with nadd vmin vmax)
    /\ d_slab_radius d = ndiv (np_norm (zip_with nsub vmax vmin)) ntwo.
Proof.
  unfold GetData. intros E.
  apply bind_ok in E as ([out printed'] & Eg & E).
  apply bind_ok in E as (vertices & Ev & E).
  apply np_array_ok in Ev as [-> _].
  apply bind_ok in E as (normals & En & E).
  apply bind_ok in E as (vmax & Emax & E).
  apply bind_ok in E as (vmin & Emin & E).
  injection E as <- _.
  exists out, printed', vmin, vmax. auto.
Qed.

(** C7.  For the vertices (0,0,0), (0,0,2), (2,0,0), (0,2,0), emitted
    for one record and computed in binary64, the center is (1,1,1)
    and the radius [sqrt(12)/2].  In every arithmetic, whenever
    [GetData] returns, [slab_center] is [(vmin+vmax)/2] and
    [slab_radius] is [norm(vmax-vmin)/2] for the columnwise minimum and
    maximum of all emitted vertices; in exact real arithmetic these
    are the two corners of the bounding box, so [slab_center] is its
    midpoint and [slab_radius] half the Euclidean distance of the
    corners. *)
Theorem bounding_sphere :
  (exists out printed' d printed,
      GetElements2D clock0 mesh1 tents1 = Ok (out, printed')
      /\ el_vertices out = [[0; 0; 0]; [0; 0; 2]; [2; 0; 0]; [0; 2; 0]]%float
      /\ GetData clock0 mesh1 "6.2" float32_of_float tents1 = Ok (d, printed)
      /\ d_slab_center d = [1; 1; 1]%float
      /\ d_slab_radius d = PrimFloat.div (PrimFloat.sqrt 12) 2)
  /\ (forall (F : Type) (NF : Number F) (clock : nat -> F) (mesh : Mesh F)
             (version : string) (cast : F -> float32) (tps : Tents F)
             (d : SceneData F) (printed : F * F * F),
         GetData clock mesh version cast tps = Ok (d, printed) ->
         exists out printed' vmin vmax,
           GetElements2D clock mesh tps = Ok (out, printed')
           /\ reduce_axis0 np_minimum (el_vertices out) = Ok vmin
           /\ reduce_axis0 np_maximum (el_vertices out) = Ok vmax
           /\ d_slab_center d
              = map (fun c => ndiv c ntwo) (zip_with nadd vmin vmax)
           /\ d_slab_radius d
              = ndiv (np_norm (zip_with nsub vmax vmin)) ntwo)
  /\ (forall (clock : nat -> R) (mesh : Mesh R) (version : string)
             (cast : R -> float32) (tps : Tents R)
             (d : SceneData R) (printed : R * R * R),
         GetData clock mesh version cast tps = Ok (d, printed) ->
         exists out printed' lo hi,
           GetElements2D clock mesh tps = Ok (out, printed')
           /\ is_min_corner (el_vertices out) lo
           /\ is_max_corner (el_vertices out) hi
           /\ d_slab_center d = zip_with (fun a b => (a + b) / 2) lo hi
           /\ d_slab_radius d = sqrt (dist2 hi lo) / 2).
Proof.
  split; [|split].
  - eexists; eexists; eexists; eexists.
    split; [vm_compute; reflexivity|]. split; [reflexivity|].
    split; [vm_compute; reflexivity|].
    split; vm_compute; reflexivity.
  - intros F NF clock mesh version cast tps d printed E.
    exact (GetData_slab clock mesh version cast tps d printed E).
  - intros clock mesh version cast tps d printed E.
    unfold GetData in E.
    apply bind_ok in E as ([out printed'] & Eg & E).
    apply bind_ok in E as (vertices & Ev & E).
    apply np_array_ok in Ev as [-> _].
    apply bind_ok in E as (normals & En & E).
    apply bind_ok in E as (vmax & Emax & E).
    apply bind_ok in E as (vmin & Emin & E).
    injection E as <- _.
    assert (F3 : Forall (fun p => length p = 3%nat) (el_vertices out)).
    { unfold GetElements2D in Eg.
      apply bind_ok in Eg as (rows & _ & Eg).
      apply bind_ok in Eg as (trows & _ & Eg).
      apply bind_ok in Eg as (st & El & Eg).
      injection Eg as <- _. simpl.
      eapply record_loop_points3; [exact El | constructor]. }
    destruct (el_vertices out) as [|r rows] eqn:Eo; [discriminate|].
    apply Forall_cons_iff in F3 as [Lr F3].
    simpl in Emax, Emin. injection Emax as <-. injection Emin as <-.
    destruct (corner_of_one r Lr) as [Cmin Cmax].
    pose proof (fold_min_corner rows [r] r ltac:(discriminate) Cmin F3) as Hlo.
    pose proof (fold_max_corner rows [r] r ltac:(discriminate) Cmax F3) as Hhi.
    simpl app in Hlo, Hhi.
    exists out, printed',
      (fold_left (zip_with Rmin) rows r), (fold_left (zip_with Rmax) rows r).
    rewrite Eo. repeat split; try apply Hlo; try apply Hhi; auto.
    cbn [d_slab_center].
    destruct Hlo as [Llo _]. destruct Hhi as [Lhi _].
    change np_minimum with Rmin. change np_maximum with Rmax.
    destruct (fold_left (zip_with Rmin) rows r) as [|a0 [|a1 [|a2 [|? ?]]]];
      try discriminate.
    destruct (fold_left (zip_with Rmax) rows r) as [|b0 [|b1 [|b2 [|? ?]]]];
      try discriminate.
    reflexivity.
Qed.

End BoundingSphere.

(** ** The statements on concrete inputs *)

Section Concrete.

(** C1, as the specification states it, fails: for the record of
    [tents1] the list given to [GetFacesAndNormals] is the list that is
    emitted; it holds the top point (0,0,2) of the central vertex and
    is not the bottom frame, on which the kernel would raise. *)
Lemma kernel_receives_top_point :
  exists st' vertices fcs nrmls,
    record_body clock0 mesh1 [[0; 0; 0; 2]%float] initial_state 0 [0; 0; 0; 0]%Z
    = Ok st'
    /\ element_points mesh1 [0; 0; 0]%float 2%float 0 0 None
       = Ok (vertices, Some 0)
    /\ GetFacesAndNormals vertices = Ok (fcs, nrmls)
    /\ gvertices st' = vertices /\ faces st' = fcs /\ normals st' = nrmls
    /\ In [0; 0; 2]%float vertices
    /\ ~ bottom_frame mesh1 [0; 0; 0]%float 0 [0; 1; 2]%Z vertices
    /\ forall bs, bottom_frame mesh1 [0; 0; 0]%float 0 [0; 1; 2]%Z bs ->
                  GetFacesAndNormals bs = Raise IndexError.
Proof.
  eexists; eexists; eexists; eexists.
  split; [vm_compute; reflexivity|].
  split; [vm_compute; reflexivity|].
  split; [vm_compute; reflexivity|].
  split; [reflexivity|]. split; [reflexivity|]. split; [reflexivity|].
  split; [right; left; reflexivity|].
  split.
  - intros (_ & _ & _ & []).
  - intros [|b0 [|b1 [|b2 [|? ?]]]]; simpl; try tauto.
    intros ((p0 & t0 & E0 & T0 & ->) & (p1 & t1 & E1 & T1 & ->)
            & (p2 & t2 & E2 & T2 & ->) & _).
    injection E0 as <-. injection T0 as <-.
    injection E1 as <-. injection T1 as <-.
    injection E2 as <-. injection T2 as <-.
    vm_compute. reflexivity.
Qed.

Lemma kernel_input_is_emitted_block_witness :
  exists st',
    record_body clock0 mesh1 [[0; 0; 0; 2]%float] initial_state 0 [0; 0; 0; 0]%Z
    = Ok st'
    /\ emitted_block mesh1 [[0; 0; 0; 2]%float] 0 [0; 0; 0; 0]%Z
         initial_state st'.
Proof.
  eexists. split.
  - vm_compute. reflexivity.
  - apply (kernel_input_is_emitted_block clock0). vm_compute. reflexivity.
Defined.

(** C2, as the specification states it, fails: the single well-formed
    record of [tents1] yields four vertices, not five; the same record
    on an element of four vertices yields no scene at all. *)
Lemma one_record_four_vertices :
  exists rows out printed,
    reshape4 (tents_data tents1) = Ok rows /\ length rows = 1
    /\ forallb (well_formed_record mesh1) rows = true
    /\ GetElements2D clock0 mesh1 tents1 = Ok (out, printed)
    /\ length (el_vertices out) = 4
    /\ length (el_vertices out) <> 5 * length rows
    /\ length (el_faces out) = 4
    /\ GetElements2D clock0 mesh1 tents_quad = Raise IndexError.
Proof.
  eexists; eexists; eexists.
  split; [vm_compute; reflexivity|].
  split; [reflexivity|].
  split; [vm_compute; reflexivity|].
  split; [vm_compute; reflexivity|].
  split; [reflexivity|]. split; [simpl; lia|]. split; [reflexivity|].
  vm_compute. reflexivity.
Qed.

Lemma flatten_counts_witness :
  exists out printed,
    GetElements2D clock0 mesh1 tents2 = Ok (out, printed)
    /\ length (el_vertices out) = 8 /\ length (el_faces out) = 8.
Proof.
  apply (flatten_counts clock0 mesh1 tents2
           [[0; 0; 0; 0]%Z; [1; 1; 1; 0]%Z]);
    vm_compute; reflexivity.
Defined.

(** C3, as the specification states it, fails: for the two records of
    [tents2] the faces of the second element are stored with the
    local indices 0 to 3, although four vertices were emitted before
    it; the stored list is not the offset list. *)
Lemma faces_are_not_offset :
  exists out printed v1 f1 n1 v2 f2 n2,
    GetElements2D clock0 mesh1 tents2 = Ok (out, printed)
    /\ el_vertices out = v1 ++ v2 /\ length v1 = 4
    /\ GetFacesAndNormals v1 = Ok (f1, n1)
    /\ GetFacesAndNormals v2 = Ok (f2, n2)
    /\ el_faces out = f1 ++ f2
    /\ el_faces out <> offset_faces 0 [(v1, f1); (v2, f2)]
    /\ nth_error (el_faces out) 4 = Some [1; 3; 2]
    /\ nth_error (offset_faces 0 [(v1, f1); (v2, f2)]) 4 = Some [5; 7; 6].
Proof.
  eexists; eexists.
  exists [[0; 0; 0]; [0; 0; 2]; [2; 0; 0]; [0; 2; 0]]%float.
  eexists; eexists.
  exists [[0; 0; 2]; [2; 0; 0]; [2; 0; 4]; [0; 2; 0]]%float.
  eexists; eexists.
  split; [vm_compute; reflexivity|].
  split; [reflexivity|]. split; [reflexivity|].
  split; [vm_compute; reflexivity|].
  split; [vm_compute; reflexivity|].
  split; [reflexivity|].
  split; [vm_compute; discriminate|].
  split; reflexivity.
Qed.

Lemma faces_are_element_local_witness :
  exists out printed,
    GetElements2D clock0 mesh1 tents2 = Ok (out, printed)
    /\ element_local_faces out.
Proof.
  eexists; eexists. split.
  - vm_compute. reflexivity.
  - eapply (faces_are_element_local clock0 mesh1 tents2).
    vm_compute. reflexivity.
Defined.

(** C4, as the specification states it, fails in binary64: the
    regular tetrahedron scaled by 2^600, and the one scaled by
    2^-600, are not degenerate, yet the products of the cross product
    overflow, or underflow to zero, and every normal returned is NaN.
    It fails at the scale of one as well: the four points of [thin]
    span a volume, yet the two products of its first cross product
    round to the same number, this normal is NaN and the other three
    are zero vectors. *)
Lemma unit_normal_fails_in_binary64 :
  (non_degenerate_float huge = true
   /\ exists fcs nrmls,
        GetFacesAndNormals huge = Ok (fcs, nrmls)
        /\ length nrmls = 4
        /\ Forall (fun n => unit_length_float n = false) nrmls)
  /\ (non_degenerate_float tiny = true
      /\ exists fcs nrmls,
           GetFacesAndNormals tiny = Ok (fcs, nrmls)
           /\ length nrmls = 4
           /\ Forall (fun n => unit_length_float n = false) nrmls)
  /\ (non_degenerate_float thin = true
      /\ exists fcs nrmls,
           GetFacesAndNormals thin = Ok (fcs, nrmls)
           /\ length nrmls = 4
           /\ Forall (fun n => unit_length_float n = false) nrmls).
Proof.
  split; [|split]; (split; [vm_compute; reflexivity|]);
    eexists; eexists; (split; [vm_compute; reflexivity|]);
    (split; [reflexivity|]); repeat constructor.
Qed.

Lemma regularR_volume : volume6 regularR <> 0%R.
Proof.
  unfold regularR, volume6, dot, np_cross.
  cbn [zip_with fold_left nadd nsub nmul R_Number]. lra.
Qed.

Lemma regularR_regular : regular_R regularR.
Proof.
  unfold regularR, regular_R, dist2, dot.
  cbn [zip_with fold_left nadd nsub nmul R_Number].
  repeat split; lra.
Qed.

Lemma faces_and_unit_normals_witness :
  (exists fcs nrmls,
      GetFacesAndNormals regularR = Ok (fcs, nrmls)
      /\ Forall (fun n => np_norm n = 1%R
                          /\ (Rabs (np_norm n - 1) <= 1 / 1000000)%R) nrmls)
  /\ (Zvolume6 (0, 0, 0)%Z (1, 0, 0)%Z (0, 1, 0)%Z (1, 1, 1)%Z <> 0%Z
      /\ exists fcs nrmls,
           GetFacesAndNormals
             (float_points (0, 0, 0)%Z (1, 0, 0)%Z (0, 1, 0)%Z (1, 1, 1)%Z)
           = Ok (fcs, nrmls)
           /\ length fcs = 4 /\ length nrmls = 4
           /\ Forall (fun n => unit_length_float n = true) nrmls)
  /\ (non_degenerate_float (scaled (- 200) regular) = true
      /\ exists fcs nrmls,
           GetFacesAndNormals (scaled (- 200) regular) = Ok (fcs, nrmls)
           /\ length fcs = 4 /\ length nrmls = 4
           /\ Forall (fun n => unit_length_float n = true) nrmls).
Proof.
  split; [|split].
  - apply (proj1 (proj2 faces_and_unit_normals) regularR).
    + reflexivity.
    + repeat constructor.
    + exact regularR_volume.
  - split; [discriminate|].
    apply (proj1 (proj2 (proj2 (proj2 faces_and_unit_normals))));
      try reflexivity.
    discriminate.
  - apply (proj2 (proj2 (proj2 (proj2 faces_and_unit_normals))) (- 200)%Z).
    lia.
Defined.

Lemma normals_point_away_witness :
  (exists fcs nrmls,
      GetFacesAndNormals regularR = Ok (fcs, nrmls)
      /\ length fcs = 4 /\ length nrmls = 4
      /\ Forall2 (points_away_true regularR) fcs nrmls)
  /\ (Zregular (0, 0, 0)%Z (2, 2, 0)%Z (2, 0, 2)%Z (0, 2, 2)%Z = true
      /\ exists fcs nrmls,
           GetFacesAndNormals
             (float_points (0, 0, 0)%Z (2, 2, 0)%Z (2, 0, 2)%Z (0, 2, 2)%Z)
           = Ok (fcs, nrmls)
           /\ length fcs = 4 /\ length nrmls = 4
           /\ Forall2 (points_away_true
                         (float_points (0, 0, 0)%Z (2, 2, 0)%Z (2, 0, 2)%Z
                            (0, 2, 2)%Z)) fcs nrmls)
  /\ (regular_float (scaled 100 regular) = true
      /\ exists fcs nrmls,
           GetFacesAndNormals (scaled 100 regular) = Ok (fcs, nrmls)
           /\ length fcs = 4 /\ length nrmls = 4
           /\ Forall2 (points_away_true (scaled 100 regular)) fcs nrmls).
Proof.
  split; [|split].
  - apply (proj1 (proj2 normals_point_away) regularR).
    + repeat constructor.
    + exact regularR_regular.
  - split; [reflexivity|].
    apply (proj1 (proj2 (proj2 normals_point_away))); reflexivity.
  - apply (proj2 (proj2 (proj2 normals_point_away)) 100%Z). lia.
Defined.

(** C5, as the specification states it, fails in binary64: the
    regular tetrahedron scaled by 2^600 is regular, yet the products
    of the cross product overflow, the four normals are NaN, and none
    of them has a positive product with the vector from the centroid
    to its face. *)
Lemma outward_fails_in_binary64 :
  regular_float huge = true
  /\ exists fcs nrmls,
       GetFacesAndNormals huge = Ok (fcs, nrmls)
       /\ length fcs = 4 /\ length nrmls = 4
       /\ Forall2 (fun f n => points_away huge f n = false) fcs nrmls.
Proof.
  split; [vm_compute; reflexivity|].
  eexists; eexists. split; [vm_compute; reflexivity|].
  split; [reflexivity|]. split; [reflexivity|].
  repeat constructor.
Qed.

Lemma bounding_sphere_witness :
  exists d printed,
    GetData clockR meshR "6.2" castR tentsR = Ok (d, printed)
    /\ exists out printed' lo hi,
         GetElements2D clockR meshR tentsR = Ok (out, printed')
         /\ is_min_corner (el_vertices out) lo
         /\ is_max_corner (el_vertices out) hi
         /\ d_slab_center d = zip_with (fun a b => ((a + b) / 2)%R) lo hi
         /\ d_slab_radius d = (sqrt (dist2 hi lo) / 2)%R.
Proof.
  assert (E : exists d printed,
             GetData clockR meshR "6.2" castR tentsR = Ok (d, printed)).
  { eexists; eexists.
    cbn -[Rplus Rminus Rmult Rdiv Ropp sqrt Rlt_dec Rmax Rmin].
    reflexivity. }
  destruct E as (d & printed & E).
  exists d, printed. split; [exact E|].
  exact (proj2 (proj2 bounding_sphere) clockR meshR "6.2"%string castR tentsR d printed E).
Defined.

(** The round trip on a concrete array: the text that Python
    produces for [1, -2.5] and the two values back. *)
Example encodeData_example :
  encodeData float32_of_float [[1; -2.5]%float] = "AACAPwAAIMA="%string
  /\ Decode "AACAPwAAIMA="
     = Some [(x00, x00, x80, x3f); (x00, x00, x20, xc0)].
Proof. split; vm_compute; reflexivity. Qed.

(** C9, as the specification states it, fails: with eight times for
    the one record of [tents_long] the times have the wrong length,
    and the call returns a scene built from the first four. *)
Lemma surplus_times_are_ignored :
  wrong_length_times tents_long = true
  /\ exists d printed,
       GetData clock0 mesh1 "6.2" float32_of_float tents_long = Ok (d, printed)
       /\ fmap fst (GetData clock0 mesh1 "6.2" float32_of_float tents1)
          = Ok d.
Proof.
  split; [reflexivity|].
  eexists; eexists. split; vm_compute; reflexivity.
Qed.

Lemma malformed_input_raises_witness :
  (too_few_times tents_stale || names_uncentred mesh1 tents_stale = true)
  /\ (too_few_times tents_unknown
       || names_uncentred mesh_empty_element tents_unknown = true)
  /\ (exists e, GetElements2D clock0 mesh1 tents_stale = Raise e
                /\ GetData clock0 mesh1 "6.2" float32_of_float tents_stale
                   = Raise e)
  /\ (exists e, GetElements2D clock0 mesh_empty_element tents_unknown
                = Raise e
                /\ GetData clock0 mesh_empty_element "6.2" float32_of_float
                     tents_unknown
                   = Raise e).
Proof.
  split; [vm_compute; reflexivity|].
  split; [vm_compute; reflexivity|].
  split; apply malformed_input_raises; vm_compute; reflexivity.
Defined.

Lemma stale_center_is_appended_witness :
  record_loop clock0 mesh1 times_stale initial_state 0 first_stale
  = Ok state_stale
  /\ (exists l c st1 vertices,
        tentcenters state_stale = l ++ [c]
        /\ record_points clock0 mesh1 times_stale state_stale 1 [1; 1; 3; 0]%Z
           = Ok (st1, vertices)
        /\ tentcenters st1 = l ++ [c; c]
        /\ center st1 = center state_stale
        /\ length vertices = 3)
  /\ record_points clock0 mesh1 times_stale state_stale 1 [1; 1; 7; 1]%Z
     = Raise IndexError.
Proof.
  split; [vm_compute; reflexivity|]. split.
  - apply (proj2 (proj1 (@stale_center_is_appended float float_Number
                           clock0 mesh1 times_stale first_stale
                           state_stale 1 1 3 0 [0; 1; 2]%Z [0; 2; 0; 4]%float
                           ltac:(vm_compute; reflexivity) eq_refl eq_refl
                           eq_refl eq_refl eq_refl)
                   ltac:(simpl; lia))).
    discriminate.
  - apply (proj2 (@stale_center_is_appended float float_Number
                    clock0 mesh1 times_stale first_stale
                    state_stale 1 1 7 1 [0; 1; 2; 3]%Z [0; 2; 0; 4]%float
                    ltac:(vm_compute; reflexivity) eq_refl eq_refl
                    eq_refl eq_refl eq_refl)).
    simpl; lia.
Defined.

(** C10, as the specification states it, fails: the second record
    names the element 1, whose four vertices do not include the
    central number 7; no index is appended for it, the vertex loop
    raises [IndexError] at the bottom time of the fourth vertex, and
    so does the call. *)
Lemma long_element_is_not_appended :
  record_loop clock0 mesh1 times_stale initial_state 0 first_stale
  = Ok state_stale
  /\ element_vertices mesh1 1 = Some [0; 1; 2; 3]%Z
  /\ existsb (is_central 7) [0; 1; 2; 3]%Z = false
  /\ record_points clock0 mesh1 times_stale state_stale 1 [1; 1; 7; 1]%Z
     = Raise IndexError
  /\ GetElements2D clock0 mesh1 tents_long_element = Raise IndexError.
Proof. repeat split; vm_compute; reflexivity. Qed.

(** The first record of a call has no previous center to fall back
    on, and the stale index never reaches a returned scene: the
    three points of the record make [GetFacesAndNormals] raise. *)
Example uncentred_record_fails :
  GetElements2D clock0 mesh1 tents_uncentred = Raise UnboundLocalError
  /\ GetElements2D clock0 mesh1 tents_stale = Raise IndexError.
Proof. split; vm_compute; reflexivity. Qed.

(** What is printed does depend on the clock. *)
Example printed_depends_on_clock :
  fmap snd (GetElements2D clock0 mesh1 tents1)
  <> fmap snd (GetElements2D (fun n => PrimFloat.of_uint63 (Uint63.of_nat n))
                 mesh1 tents1).
Proof. vm_compute. discriminate. Qed.

End Concrete.

(* ================================================================= *)
(** * Further properties of the code *)

(** ** The domain of the geometry kernel *)

Section KernelDomain.
Context {F : Type} `{Number F}.

Lemma np_array_rect (element : list (list F)) (d : nat) :
  Forall (fun p => length p = d) element -> np_array element = Ok element.
Proof.
  destruct element as [|p ps]; simpl; [reflexivity|].
  intros Fa. apply Forall_cons_iff in Fa as [Lp Fp].
  replace (forallb _ ps) with true; [reflexivity|].
  symmetry. apply forallb_forall. intros q Hq.
  rewrite Forall_forall in Fp. apply Nat.eqb_eq.
  rewrite (Fp q Hq). now rewrite Lp.
Qed.

Lemma face_and_normal_total (vecs : list (list F)) (q : nat) :
  (forall c, c < 4 -> exists v, nth_error vecs c = Some v /\ length v = 3) ->
  q < 4 -> exists r, face_and_normal vecs q = Ok r.
Proof.
  intros V Lq.
  destruct (V ((q + 2) mod 4)) as (vk & Ek & Lk); [apply Nat.mod_upper_bound; lia|].
  destruct (V ((q + 3) mod 4)) as (vm & Em & Lm); [apply Nat.mod_upper_bound; lia|].
  destruct (V q Lq) as (vi & Ei & Li).
  unfold face_and_normal, column, item. rewrite Ek, Em. cbn [bind].
  destruct vk as [|? [|? [|? [|? ?]]]]; try discriminate.
  destruct vm as [|? [|? [|? [|? ?]]]]; try discriminate.
  cbn [np_cross bind]. rewrite Ei. cbn [bind]. eauto.
Qed.

(** X1.  [GetFacesAndNormals] returns exactly on the lists of at
    least four points that have three coordinates each; whatever the
    numbers are, it does not raise. *)
Theorem GetFacesAndNormals_domain (element : list (list F)) :
  (exists r, GetFacesAndNormals element = Ok r)
  <-> (4 <= length element /\ Forall (fun p => length p = 3) element).
Proof.
  split.
  - intros ([fcs nrmls] & E).
    apply GetFacesAndNormals_ok in E as (_ & _ & _ & L & Fa). auto.
  - intros [L Fa]. unfold GetFacesAndNormals.
    rewrite (np_array_rect element 3 Fa). cbn [bind].
    destruct (np_roll element) as [rolled|e] eqn:Er.
    2:{ destruct element; [simpl in L; lia | discriminate]. }
    cbn [bind]. apply np_roll_ok in Er as [Lr Inr].
    set (vecs := map _ _).
    assert (V : forall c, c < 4 ->
                exists v, nth_error vecs c = Some v /\ length v = 3).
    { intros c Hc. unfold vecs. rewrite nth_error_map.
      destruct (nth_error (combine element rolled) c) as [[p r]|] eqn:Ec.
      - exists (zip_with nsub p r). split; [reflexivity|].
        apply nth_error_In in Ec.
        pose proof (in_combine_l _ _ _ _ Ec) as Hp.
        pose proof (in_combine_r _ _ _ _ Ec) as Hr%Inr.
        rewrite Forall_forall in Fa.
        rewrite zip_with_length, (Fa _ Hp), (Fa _ Hr). reflexivity.
      - apply nth_error_None in Ec. rewrite length_combine, Lr in Ec. lia. }
    cbn [for_each].
    destruct (face_and_normal_total vecs 0 V) as (r0 & ->); [lia|].
    destruct (face_and_normal_total vecs 1 V) as (r1 & ->); [lia|].
    destruct (face_and_normal_total vecs 2 V) as (r2 & ->); [lia|].
    destruct (face_and_normal_total vecs 3 V) as (r3 & ->); [lia|].
    cbn [bind]. eauto.
Qed.

End KernelDomain.

(** ** What a record contributes does not depend on the loop state *)

Section RecordsAlone.
Context {F : Type} `{Number F}.
Variable mesh : Mesh F.

Lemma vertex_loop_center (tbots : list F) (ttop : F) (vnr : Z) :
  forall vs j acc c0 vertices c',
    vertex_loop mesh tbots ttop vnr j vs acc c0 = Ok (vertices, c') ->
    forall c1,
      vertex_loop mesh tbots ttop vnr j vs acc c1
      = Ok (vertices, if existsb (is_central vnr) vs then c' else c1).
Proof.
  induction vs as [|v vs IH]; intros j acc c0 vertices c' E c1; simpl in E.
  - injection E as <- <-. reflexivity.
  - cbn [vertex_loop existsb]. unfold is_central at 1.
    destruct (lookup (vertex_point mesh v)) as [pt|]; [|discriminate].
    cbn [bind] in *.
    destruct (item tbots j) as [tb|]; [|discriminate].
    cbn [bind] in *.
    destruct (Z.eqb v vnr) eqn:Ev; cbn [orb].
    + destruct (set_item (pt ++ [tb]) 2 ttop) as [top|]; [|discriminate].
      cbn [bind] in *.
      exact E.
    + exact (IH _ _ _ _ _ E c1).
Qed.

(** A record that is processed to the end is processed to the end
    from every loop state, with any clock and any times that have the
    same row for it, and appends the same lists. *)
Lemma record_body_alone (clock : nat -> F) (times : list (list F))
    (st st' : loop_state F) (i : nat) (d : list Z) :
  record_body clock mesh times st i d = Ok st' ->
  exists delta,
    extends_by st st' delta
    /\ el_nrs delta = [nth 0 d 0%Z] /\ el_layers delta = [nth 1 d 0%Z]
    /\ forall (clock' : nat -> F) (times' : list (list F))
              (st0 : loop_state F) (i' : nat),
         nth_error times' i' = nth_error times i ->
         exists st0',
           record_body clock' mesh times' st0 i' d = Ok st0'
           /\ extends_by st0 st0' delta.
Proof.
  intros E.
  pose proof E as E0.
  apply record_body_ok in E0
    as (nr & layer & vnr & elnr & trow & ttop & vs & bs & fcs & nrmls & c
        & -> & Et & Ett & Ev & Bs & Ex & Ek & Eg & Ef & En & Etc & Ec & _
        & Enr & Ely).
  exists {| el_vertices := with_top ttop vnr vs bs; el_normals := nrmls;
            el_faces := fcs; el_tentcenters := [c]; el_nrs := [nr];
            el_layers := [layer]; el_ntents := 0; el_nlayers := 0 |}.
  split; [unfold extends_by; cbn; auto 10|].
  split; [reflexivity|]. split; [reflexivity|].
  intros clock' times' st0 i' Ht.
  (* the vertex loop of the run we have *)
  unfold record_body, record_points, element_points, item in E.
  rewrite Et in E. cbn [bind] in E. rewrite Ett in E. cbn [bind] in E.
  rewrite Ev in E. cbn [lookup bind] in E.
  destruct (vertex_loop mesh (firstn 3 trow) ttop vnr 0 vs [] (center st))
    as [[vertices c']|] eqn:Ev1; [|discriminate].
  pose proof (vertex_loop_center _ _ _ _ _ _ _ _ _ Ev1 (center st0)) as Ev2.
  rewrite Ex in Ev2.
  pose proof Ev1 as Ev3.
  apply vertex_loop_ok in Ev3 as (bs' & Bs' & Ew & _ & Cs).
  destruct (Cs Ex) as (k & -> & _).
  cbn [bind read_local] in E.
  unfold record_faces in E.
  destruct (GetFacesAndNormals vertices) as [[fcs' nrmls']|] eqn:Ef'; [|discriminate].
  cbn [bind] in E. injection E as E.
  assert (vertices = with_top ttop vnr vs bs /\ fcs' = fcs /\ nrmls' = nrmls
          /\ k = c) as (-> & -> & -> & ->).
  { subst st'. cbn in Eg, Ef, En, Ec.
    apply app_inv_head in Eg, Ef, En. injection Ec as ->. auto. }
  unfold record_body, record_points, element_points, item.
  rewrite Ht, Et. cbn [bind]. rewrite Ett. cbn [bind].
  rewrite Ev. cbn [lookup bind]. rewrite Ev2. cbn [bind read_local].
  unfold record_faces. rewrite Ef'. cbn [bind].
  eexists. split; [reflexivity|]. unfold extends_by. cbn. auto 10.
Qed.

Lemma extends_by_refl (st : loop_state F) (n l : Z) :
  extends_by st st {| el_vertices := []; el_normals := []; el_faces := [];
                      el_tentcenters := []; el_nrs := []; el_layers := [];
                      el_ntents := n; el_nlayers := l |}.
Proof. unfold extends_by. cbn. now rewrite !app_nil_r. Qed.

Lemma extends_by_trans (st st1 st2 : loop_state F) (a b : Elements F) (n l : Z) :
  extends_by st st1 a -> extends_by st1 st2 b ->
  extends_by st st2
    {| el_vertices := el_vertices a ++ el_vertices b;
       el_normals := el_normals a ++ el_normals b;
       el_faces := el_faces a ++ el_faces b;
       el_tentcenters := el_tentcenters a ++ el_tentcenters b;
       el_nrs := el_nrs a ++ el_nrs b;
       el_layers := el_layers a ++ el_layers b;
       el_ntents := n; el_nlayers := l |}.
Proof.
  unfold extends_by. cbn.
  intros (A1 & A2 & A3 & A4 & A5 & A6) (B1 & B2 & B3 & B4 & B5 & B6).
  rewrite B1, B2, B3, B4, B5, B6, A1, A2, A3, A4, A5, A6, <- !app_assoc.
  auto 10.
Qed.

(** The same for the whole loop. *)
Lemma record_loop_alone (clock : nat -> F) (times : list (list F)) :
  forall rows st i st',
    record_loop clock mesh times st i rows = Ok st' ->
    exists delta,
      extends_by st st' delta
      /\ el_nrs delta = data_column 0 rows
      /\ el_layers delta = data_column 1 rows
      /\ forall (clock' : nat -> F) (times' : list (list F))
                (st0 : loop_state F) (i' : nat),
           (forall k, k < length rows ->
                      nth_error times' (i' + k) = nth_error times (i + k)) ->
           exists st0',
             record_loop clock' mesh times' st0 i' rows = Ok st0'
             /\ extends_by st0 st0' delta.
Proof.
  induction rows as [|d rows IH]; intros st i st' E; simpl in E.
  - injection E as <-. eexists. split; [apply (extends_by_refl st 0 0)|].
    split; [reflexivity|]. split; [reflexivity|].
    intros clock' times' st0 i' _. exists st0.
    split; [reflexivity | apply extends_by_refl].
  - apply bind_ok in E as (st1 & E1 & E).
    apply record_body_alone in E1 as (a & Xa & Na & La & Ha).
    apply IH in E as (b & Xb & Nb & Lb & Hb).
    eexists. split; [exact (extends_by_trans _ _ _ _ _ 0 0 Xa Xb)|].
    split; [cbn; now rewrite Na, Nb|]. split; [cbn; now rewrite La, Lb|].
    intros clock' times' st0 i' Ht.
    destruct (Ha clock' times' st0 i') as (s1 & R1 & X1).
    { specialize (Ht 0). rewrite !Nat.add_0_r in Ht. apply Ht. simpl. lia. }
    destruct (Hb clock' times' s1 (S i')) as (s2 & R2 & X2).
    { intros k Hk. specialize (Ht (S k)).
      replace (S i' + k) with (i' + S k) by lia.
      replace (S i + k) with (i + S k) by lia. apply Ht. simpl. lia. }
    exists s2. cbn [record_loop]. rewrite R1. cbn [bind].
    split; [exact R2 | exact (extends_by_trans _ _ _ _ _ 0 0 X1 X2)].
Qed.

End RecordsAlone.

(** ** The records of a call *)

Section Records.
Context {F : Type} `{Number F}.
Variable mesh : Mesh F.

Lemma reshape4_app {A} (l2 : list A) : forall (r1 : list (list A)) l1,
  reshape4 l1 = Ok r1 ->
  reshape4 (l1 ++ l2) = (r2 <- reshape4 l2 ;; Ok (r1 ++ r2)).
Proof.
  induction r1 as [|row r1 IH]; intros l1 E;
    destruct l1 as [|a [|b [|c [|d t]]]]; simpl in E; try discriminate.
  - simpl. destruct (reshape4 l2); reflexivity.
  - apply bind_ok in E as (rows & _ & E). discriminate.
  - apply bind_ok in E as (rows & E' & E). injection E as <- <-.
    cbn [app reshape4]. rewrite (IH t E').
    destruct (reshape4 l2); reflexivity.
Qed.

Lemma reshape4_mod {A} (l : list A) :
  length l mod 4 = 0 ->
  exists rows, reshape4 l = Ok rows /\ length l = 4 * length rows.
Proof.
  intros M.
  destruct (reshape4_rows (length l / 4) l) as (rows & E & L & _).
  { pose proof (Nat.div_mod_eq (length l) 4). lia. }
  exists rows. split; [exact E|]. apply reshape4_ok in E. tauto.
Qed.

Lemma reshape4_raises {A} (e : exn) : forall (n : nat) (l : list A),
  length l <= n -> reshape4 l = Raise e -> e = ValueError.
Proof.
  induction n as [|n IH]; intros l L E;
    destruct l as [|a [|b [|c [|d t]]]]; simpl in L, E; try congruence;
    try lia.
  destruct (reshape4 t) as [rows|e'] eqn:Et; simpl in E; [discriminate|].
  injection E as <-. apply (IH t); [lia | exact Et].
Qed.

(** The loop reads from the times only the rows of its records. *)
Lemma record_loop_times (clock : nat -> F) (times times' : list (list F)) :
  forall rows st i,
    (forall k, k < length rows ->
               nth_error times' (i + k) = nth_error times (i + k)) ->
    record_loop clock mesh times' st i rows
    = record_loop clock mesh times st i rows.
Proof.
  induction rows as [|d rows IH]; intros st i Ht; [reflexivity|].
  cbn [record_loop].
  assert (E : record_body clock mesh times' st i d
              = record_body clock mesh times st i d).
  { unfold record_body, record_points, item.
    specialize (Ht 0). rewrite Nat.add_0_r in Ht.
    rewrite Ht by (simpl; lia). reflexivity. }
  rewrite E. destruct (record_body clock mesh times st i d); [|reflexivity].
  cbn [bind]. apply IH. intros k Hk.
  replace (S i + k) with (i + S k) by lia. apply Ht. simpl. lia.
Qed.

Lemma record_loop_app (clock : nat -> F) (times : list (list F)) :
  forall r1 r2 st i,
    record_loop clock mesh times st i (r1 ++ r2)
    = (st1 <- record_loop clock mesh times st i r1 ;;
       record_loop clock mesh times st1 (i + length r1) r2).
Proof.
  induction r1 as [|d r1 IH]; intros r2 st i.
  - simpl. now rewrite Nat.add_0_r.
  - cbn [app record_loop length].
    destruct (record_body clock mesh times st i d); [|reflexivity].
    cbn [bind]. rewrite IH. now replace (S i + length r1) with (i + S (length r1)) by lia.
Qed.

Lemma GetElements2D_ok (clock : nat -> F) (tps : Tents F) (out : Elements F)
    (printed : F * F * F) :
  GetElements2D clock mesh tps = Ok (out, printed) ->
  exists rows trows st,
    reshape4 (tents_data tps) = Ok rows
    /\ reshape4 (tents_times tps) = Ok trows
    /\ record_loop clock mesh trows initial_state 0 rows = Ok st
    /\ el_vertices out = gvertices st /\ el_normals out = normals st
    /\ el_faces out = faces st /\ el_tentcenters out = tentcenters st
    /\ el_nrs out = nrs st /\ el_layers out = layers st
    /\ el_ntents out = tents_ntents tps /\ el_nlayers out = tents_nlayers tps.
Proof.
  unfold GetElements2D. intros E.
  apply bind_ok in E as (rows & Er & E).
  apply bind_ok in E as (trows & Et & E).
  apply bind_ok in E as (st & Es & E).
  injection E as <- _. exists rows, trows, st. cbn. auto 12.
Qed.

Lemma GetElements2D_returns (clock : nat -> F) (tps : Tents F) rows trows st :
  reshape4 (tents_data tps) = Ok rows ->
  reshape4 (tents_times tps) = Ok trows ->
  record_loop clock mesh trows initial_state 0 rows = Ok st ->
  exists out printed,
    GetElements2D clock mesh tps = Ok (out, printed)
    /\ el_vertices out = gvertices st /\ el_normals out = normals st
    /\ el_faces out = faces st /\ el_tentcenters out = tentcenters st
    /\ el_nrs out = nrs st /\ el_layers out = layers st.
Proof.
  intros Er Et Es. unfold GetElements2D. rewrite Er, Et. cbn [bind].
  rewrite Es. cbn [bind]. do 2 eexists. split; [reflexivity|]. cbn. auto 10.
Qed.

Lemma extends_initial (st : loop_state F) (delta : Elements F) :
  extends_by initial_state st delta ->
  gvertices st = el_vertices delta /\ normals st = el_normals delta
  /\ faces st = el_faces delta /\ tentcenters st = el_tentcenters delta
  /\ nrs st = el_nrs delta /\ layers st = el_layers delta.
Proof. unfold extends_by. cbn. tauto. Qed.

(** X2.  Whenever [GetElements2D] returns, the tent numbers and the
    layers it returns are the first and the second entry of every
    record, in the order of the records; there is one center for each
    record and there are four normals; the counts of tents and layers
    are passed through. *)
Theorem tent_numbers_and_layers (clock : nat -> F) (tps : Tents F)
    (out : Elements F) (printed : F * F * F) :
  GetElements2D clock mesh tps = Ok (out, printed) ->
  exists rows,
    reshape4 (tents_data tps) = Ok rows
    /\ el_nrs out = data_column 0 rows
    /\ el_layers out = data_column 1 rows
    /\ length (el_tentcenters out) = length rows
    /\ length (el_normals out) = 4 * length rows
    /\ el_ntents out = tents_ntents tps
    /\ el_nlayers out = tents_nlayers tps.
Proof.
  intros E.
  apply GetElements2D_ok in E
    as (rows & trows & st & Er & Et & Es & Ev & En & Ef & Ec & Enr & El & E1 & E2).
  exists rows. split; [exact Er|].
  pose proof Es as Es'.
  apply record_loop_alone in Es' as (delta & X & Dn & Dl & _).
  apply extends_initial in X as (_ & _ & _ & _ & Xn & Xl).
  apply record_loop_ok in Es as (_ & _ & _ & _ & _ & _ & _ & Lc & Lm).
  cbn in Lc, Lm.
  rewrite Enr, El, Ec, En, Xn, Xl. auto 10.
Qed.

(** X3.  Times beyond those of the records are never read: with the
    data covered by the times, appending whole rows of further times
    changes neither what [GetElements2D] returns or raises nor what
    it prints. *)
Theorem surplus_times_never_read (clock : nat -> F) (tps tps' : Tents F)
    (extra : list F) :
  tents_data tps' = tents_data tps ->
  tents_times tps' = tents_times tps ++ extra ->
  tents_ntents tps' = tents_ntents tps ->
  tents_nlayers tps' = tents_nlayers tps ->
  length (tents_data tps) <= length (tents_times tps) ->
  length (tents_times tps) mod 4 = 0 ->
  length extra mod 4 = 0 ->
  GetElements2D clock mesh tps' = GetElements2D clock mesh tps.
Proof.
  intros Ed Et En El Le M Mx. unfold GetElements2D.
  rewrite Ed, Et, En, El.
  destruct (reshape4 (tents_data tps)) as [rows|e] eqn:Er; [|reflexivity].
  cbn [bind].
  destruct (reshape4_mod _ M) as (trows & Etr & Lt).
  destruct (reshape4_mod _ Mx) as (xrows & Ex & _).
  rewrite (reshape4_app extra _ _ Etr), Ex, Etr. cbn [bind].
  apply reshape4_ok in Er as [Lr _].
  rewrite (record_loop_times clock trows (trows ++ xrows)); [reflexivity|].
  intros k Hk. simpl. apply nth_error_app1. lia.
Qed.

(** X4.  The records are processed independently of each other: a
    call on the records of two inputs one after the other returns if
    and only if the calls on the two inputs return (whatever the
    clocks), and then each of its six lists is the list of the first
    call followed by the list of the second. *)
Theorem records_are_independent (clock clock1 clock2 : nat -> F)
    (tps tps1 tps2 : Tents F) :
  tents_data tps = tents_data tps1 ++ tents_data tps2 ->
  tents_times tps = tents_times tps1 ++ tents_times tps2 ->
  length (tents_times tps1) = length (tents_data tps1) ->
  length (tents_data tps1) mod 4 = 0 ->
  ((exists out printed, GetElements2D clock mesh tps = Ok (out, printed))
   <-> ((exists out1 printed1,
           GetElements2D clock1 mesh tps1 = Ok (out1, printed1))
        /\ (exists out2 printed2,
              GetElements2D clock2 mesh tps2 = Ok (out2, printed2))))
  /\ (forall out printed out1 printed1 out2 printed2,
        GetElements2D clock mesh tps = Ok (out, printed) ->
        GetElements2D clock1 mesh tps1 = Ok (out1, printed1) ->
        GetElements2D clock2 mesh tps2 = Ok (out2, printed2) ->
        lists_app out out1 out2).
Proof.
  intros Ed Et Lt M.
  destruct (reshape4_mod _ M) as (r1 & Er1 & Lr1).
  assert (Mt : length (tents_times tps1) mod 4 = 0) by (now rewrite Lt).
  destruct (reshape4_mod _ Mt) as (t1 & Et1 & Lt1).
  assert (L1 : length t1 = length r1) by lia.
  pose proof (reshape4_app (tents_data tps2) _ _ Er1) as Ad.
  pose proof (reshape4_app (tents_times tps2) _ _ Et1) as At.
  rewrite <- Ed in Ad. rewrite <- Et in At.
  (* both directions rest on the loop of the joint call split in two *)
  assert (Split : forall r2 t2 st,
            record_loop clock mesh (t1 ++ t2) initial_state 0 (r1 ++ r2) = Ok st ->
            exists s1 s2 d1 d2,
              record_loop clock1 mesh t1 initial_state 0 r1 = Ok s1
              /\ record_loop clock2 mesh t2 initial_state 0 r2 = Ok s2
              /\ extends_by initial_state s1 d1
              /\ extends_by initial_state s2 d2
              /\ exists m, extends_by initial_state m d1 /\ extends_by m st d2).
  { intros r2 t2 st E. rewrite record_loop_app in E.
    apply bind_ok in E as (m & E1 & E2). simpl in E2.
    apply record_loop_alone in E1 as (d1 & X1 & _ & _ & H1).
    apply record_loop_alone in E2 as (d2 & X2 & _ & _ & H2).
    destruct (H1 clock1 t1 initial_state 0) as (s1 & R1 & Y1).
    { intros k Hk. simpl. symmetry. apply nth_error_app1. lia. }
    destruct (H2 clock2 t2 initial_state 0) as (s2 & R2 & Y2).
    { intros k Hk. simpl. rewrite nth_error_app2 by lia.
      f_equal. lia. }
    exists s1, s2, d1, d2.
    split; [exact R1|]. split; [exact R2|]. split; [exact Y1|].
    split; [exact Y2|]. exists m. split; assumption. }
  split; [split|].
  - intros (out & printed & E).
    apply GetElements2D_ok in E as (rows & trows & st & Er & Etr & Es & _).
    rewrite Er in Ad. rewrite Etr in At.
    destruct (reshape4 (tents_data tps2)) as [r2|] eqn:Er2; [|discriminate].
    destruct (reshape4 (tents_times tps2)) as [t2|] eqn:Et2; [|discriminate].
    cbn [bind] in Ad, At. injection Ad as ->. injection At as ->.
    destruct (Split r2 t2 st Es) as (s1 & s2 & _ & _ & R1 & R2 & _).
    destruct (GetElements2D_returns clock1 tps1 _ _ _ Er1 Et1 R1)
      as (o1 & p1 & G1 & _).
    destruct (GetElements2D_returns clock2 tps2 _ _ _ Er2 Et2 R2)
      as (o2 & p2 & G2 & _).
    split; [exists o1, p1 | exists o2, p2]; assumption.
  - intros [(o1 & p1 & G1) (o2 & p2 & G2)].
    apply GetElements2D_ok in G1 as (r1' & t1' & s1 & Er1' & Et1' & R1 & _).
    apply GetElements2D_ok in G2 as (r2 & t2 & s2 & Er2 & Et2 & R2 & _).
    assert (r1' = r1) as -> by congruence.
    assert (t1' = t1) as -> by congruence.
    rewrite Er2 in Ad. rewrite Et2 in At. cbn [bind] in Ad, At.
    apply record_loop_alone in R1 as (d1 & _ & _ & _ & H1).
    apply record_loop_alone in R2 as (d2 & _ & _ & _ & H2).
    destruct (H1 clock (t1 ++ t2) initial_state 0) as (m & Rm & _).
    { intros k Hk. simpl. apply nth_error_app1. lia. }
    destruct (H2 clock (t1 ++ t2) m (length r1)) as (st & Rs & _).
    { intros k Hk. simpl. rewrite nth_error_app2 by lia. f_equal. lia. }
    destruct (GetElements2D_returns clock tps (r1 ++ r2) (t1 ++ t2) st Ad At)
      as (o & p & G & _).
    { rewrite record_loop_app, Rm. exact Rs. }
    exists o, p. exact G.
  - intros out printed out1 printed1 out2 printed2 G G1 G2.
    apply GetElements2D_ok in G
      as (rows & trows & st & Er & Etr & Es & Ov & On & Of & Oc & Onr & Ol & _).
    apply GetElements2D_ok in G1
      as (r1' & t1' & s1 & Er1' & Et1' & R1 & Ov1 & On1 & Of1 & Oc1 & Onr1 & Ol1 & _).
    apply GetElements2D_ok in G2
      as (r2 & t2 & s2 & Er2 & Et2 & R2 & Ov2 & On2 & Of2 & Oc2 & Onr2 & Ol2 & _).
    assert (r1' = r1) as -> by congruence.
    assert (t1' = t1) as -> by congruence.
    rewrite Er, Er2 in Ad. rewrite Etr, Et2 in At. cbn [bind] in Ad, At.
    injection Ad as ->. injection At as ->.
    destruct (Split r2 t2 st Es)
      as (s1' & s2' & d1 & d2 & R1' & R2' & X1 & X2 & m & Xm & Xs).
    assert (s1' = s1) as -> by congruence.
    assert (s2' = s2) as -> by congruence.
    apply extends_initial in X1 as (A1 & A2 & A3 & A4 & A5 & A6).
    apply extends_initial in X2 as (B1 & B2 & B3 & B4 & B5 & B6).
    apply extends_initial in Xm as (C1 & C2 & C3 & C4 & C5 & C6).
    destruct Xs as (D1 & D2 & D3 & D4 & D5 & D6).
    unfold lists_app.
    rewrite Ov, On, Of, Oc, Onr, Ol, Ov1, On1, Of1, Oc1, Onr1, Ol1,
      Ov2, On2, Of2, Oc2, Onr2, Ol2, D1, D2, D3, D4, D5, D6,
      C1, C2, C3, C4, C5, C6, A1, A2, A3, A4, A5, A6,
      B1, B2, B3, B4, B5, B6.
    auto 10.
Qed.

End Records.

(** ** Where a record's points and center lie in the returned lists *)

Section Layout.
Context {F : Type} `{Number F}.
Variable mesh : Mesh F.

Lemma nth_error_concat4 {A} : forall (blocks : list (list A)) r b j,
  Forall (fun b => length b = 4) blocks ->
  nth_error blocks r = Some b -> j < 4 ->
  nth_error (concat blocks) (4 * r + j) = nth_error b j.
Proof.
  induction blocks as [|b0 blocks IH]; intros r b j Fa E Hj.
  - destruct r; discriminate.
  - inversion Fa as [|? ? L4 Fa']; subst.
    destruct r as [|r]; simpl in E.
    + injection E as ->. cbn [concat]. rewrite Nat.mul_0_r.
      apply nth_error_app1. simpl. lia.
    + cbn [concat]. rewrite nth_error_app2 by lia.
      replace (4 * S r + j - length b0) with (4 * r + j) by lia.
      now apply IH.
Qed.

(** The records of a loop that ran to the end, one by one. *)
Lemma record_loop_rows (clock : nat -> F) (times : list (list F)) :
  forall rows st i st',
    record_loop clock mesh times st i rows = Ok st' ->
    exists blocks cs,
      gvertices st' = gvertices st ++ concat blocks
      /\ tentcenters st' = tentcenters st ++ cs
      /\ Forall (Forall (fun p => length p = 3)) blocks
      /\ length blocks = length rows /\ length cs = length rows
      /\ forall r d,
           nth_error rows r = Some d ->
           exists nr layer vnr elnr trow ttop vs bs c,
             d = [nr; layer; vnr; elnr]
             /\ nth_error times (i + r) = Some trow
             /\ nth_error trow 3 = Some ttop
             /\ element_vertices mesh elnr = Some vs
             /\ bottom_frame mesh (firstn 3 trow) 0 vs bs
             /\ nth_error blocks r = Some (with_top ttop vnr vs bs)
             /\ nth_error cs r = Some c
             /\ nth_error vs c = Some vnr.
Proof.
  induction rows as [|d rows IH]; intros st i st' E; simpl in E.
  - injection E as <-. exists [], []. cbn. rewrite !app_nil_r.
    repeat split; auto. intros [|r] d'; discriminate.
  - apply bind_ok in E as (st1 & E1 & E).
    apply IH in E as (blocks & cs & Eg & Ec & Fa & Lb & Lc & Rows).
    apply record_body_ok in E1
      as (nr & layer & vnr & elnr & trow & ttop & vs & bs & fcs & nrmls & c
          & -> & Et & Ett & Ev & Bs & _ & Ek & Eg1 & _ & _ & Ec1 & _ & Ecv & _).
    apply GetFacesAndNormals_ok in Ek as (_ & _ & _ & _ & F3).
    exists (with_top ttop vnr vs bs :: blocks), (c :: cs).
    rewrite Eg, Eg1, Ec, Ec1, <- !app_assoc. cbn [concat app length].
    repeat split; auto.
    intros [|r] d' Ed; cbn [nth_error] in Ed |- *.
    + injection Ed as <-. rewrite Nat.add_0_r.
      exists nr, layer, vnr, elnr, trow, ttop, vs, bs, c. auto 10.
    + destruct (Rows r d' Ed)
        as (nr' & layer' & vnr' & elnr' & trow' & ttop' & vs' & bs' & c'
            & -> & Et' & Rest).
      exists nr', layer', vnr', elnr', trow', ttop', vs', bs', c'.
      split; [reflexivity|]. split; [|exact Rest].
      now replace (i + S r) with (S i + r) by lia.
Qed.

Lemma nth_error_firstn_some {A} : forall (n j : nat) (l : list A) a,
  nth_error (firstn n l) j = Some a -> nth_error l j = Some a /\ j < n.
Proof.
  induction n as [|n IH]; intros j l a E.
  - destruct j; discriminate.
  - destruct l as [|x l]; [destruct j; discriminate|].
    destruct j as [|j]; simpl in E |- *; [split; [exact E | lia]|].
    apply IH in E as [E L]. split; [exact E | lia].
Qed.

(** The block of a well-formed record: four points, the bottom point
    of the central vertex at the index of that vertex in the element
    and its top point right after it. *)
Lemma with_top_layout (tbots : list F) (ttop : F) (vnr : Z) (vs : list Z)
    (bs : list (list F)) (c : nat) :
  length vs = 3 ->
  length (filter (is_central vnr) vs) = 1 ->
  forallb (fun v => match vertex_point mesh v with
                    | Some pt => Nat.eqb (length pt) 2
                    | None => false
                    end) vs = true ->
  bottom_frame mesh tbots 0 vs bs ->
  nth_error vs c = Some vnr ->
  exists pt tb,
    vertex_point mesh vnr = Some pt /\ length pt = 2
    /\ nth_error tbots c = Some tb
    /\ nth_error (with_top ttop vnr vs bs) c = Some (pt ++ [tb])
    /\ nth_error (with_top ttop vnr vs bs) (c + 1) = Some (pt ++ [ttop])
    /\ length (with_top ttop vnr vs bs) = 4.
Proof.
  intros L3 L1 W B Ec.
  destruct vs as [|v0 [|v1 [|v2 [|? ?]]]]; try discriminate.
  destruct bs as [|b0 [|b1 [|b2 [|? ?]]]]; simpl in B; try tauto.
  destruct B as ((p0 & t0 & P0 & T0 & ->) & (p1 & t1 & P1 & T1 & ->)
                 & (p2 & t2 & P2 & T2 & ->) & _).
  cbn [forallb] in W. rewrite P0, P1, P2 in W.
  apply andb_prop in W as [W0 W]. apply andb_prop in W as [W1 W].
  apply andb_prop in W as [W2 _].
  apply Nat.eqb_eq in W0, W1, W2.
  destruct p0 as [|x0 [|y0 [|? ?]]]; try discriminate.
  destruct p1 as [|x1 [|y1 [|? ?]]]; try discriminate.
  destruct p2 as [|x2 [|y2 [|? ?]]]; try discriminate.
  cbn [filter] in L1. unfold is_central in L1. cbn [with_top].
  destruct (Z.eqb v0 vnr) eqn:E0, (Z.eqb v1 vnr) eqn:E1,
    (Z.eqb v2 vnr) eqn:E2; cbn [length] in L1; try discriminate L1;
    (destruct c as [|[|[|c]]]; cbn [nth_error] in Ec;
     [| | |destruct c; discriminate Ec]);
    injection Ec as ->;
    try (rewrite Z.eqb_refl in E0; discriminate E0);
    try (rewrite Z.eqb_refl in E1; discriminate E1);
    try (rewrite Z.eqb_refl in E2; discriminate E2);
    eexists; eexists;
    (split; [eassumption|]); (split; [reflexivity|]);
    (split; [eassumption|]); repeat split.
Qed.

(** X5.  A center that is returned is never stale: for every record
    of a call that returns, the center at the record's position is
    an index below three at which the element of the record has the
    record's central vertex. *)
Theorem tent_centers_are_local (clock : nat -> F) (tps : Tents F)
    (out : Elements F) (printed : F * F * F) (rows : list (list Z)) :
  GetElements2D clock mesh tps = Ok (out, printed) ->
  reshape4 (tents_data tps) = Ok rows ->
  forall r nr layer vnr elnr,
    nth_error rows r = Some [nr; layer; vnr; elnr] ->
    exists c vs,
      nth_error (el_tentcenters out) r = Some c
      /\ element_vertices mesh elnr = Some vs
      /\ nth_error vs c = Some vnr
      /\ c < 3.
Proof.
  intros E Er r nr layer vnr elnr Ed.
  apply GetElements2D_ok in E
    as (rows' & trows & st & Er' & _ & Es & _ & _ & _ & Ec & _).
  assert (rows' = rows) as -> by congruence.
  apply record_loop_rows in Es as (blocks & cs & _ & Ecs & _ & _ & _ & Rows).
  destruct (Rows r _ Ed)
    as (nr' & layer' & vnr' & elnr' & trow & ttop & vs & bs & c
        & Eq & _ & _ & Ev & Bs & _ & Ecr & Ecv).
  injection Eq as <- <- <- <-.
  exists c, vs. rewrite Ec, Ecs. cbn. repeat split; auto.
  assert (c < length vs) by (apply nth_error_Some; congruence).
  assert (vs <> []) by (intros ->; simpl in *; lia).
  pose proof (bottom_frame_bound _ _ _ _ _ Bs ltac:(assumption)) as Bd.
  rewrite length_firstn in Bd. lia.
Qed.

(** Every row that the loop appends to the vertices, the normals and
    the faces has three entries. *)
Lemma record_loop_triples (clock : nat -> F) (times : list (list F)) :
  forall rows st i st',
    record_loop clock mesh times st i rows = Ok st' ->
    Forall (fun p => length p = 3) (gvertices st) ->
    Forall (fun n => length n = 3) (normals st) ->
    Forall (fun f : list nat => length f = 3) (faces st) ->
    Forall (fun p => length p = 3) (gvertices st')
    /\ Forall (fun n => length n = 3) (normals st')
    /\ Forall (fun f : list nat => length f = 3) (faces st').
Proof.
  induction rows as [|d rows IH]; intros st i st' E Fv Fn Ff; simpl in E.
  - injection E as <-. auto.
  - apply bind_ok in E as (st1 & E1 & E).
    apply record_body_ok in E1
      as (nr & layer & vnr & elnr & trow & ttop & vs & bs & fcs & nrmls & c
          & _ & _ & _ & _ & _ & _ & Ek & Eg & Efc & Enm & _).
    apply GetFacesAndNormals_ok in Ek
      as ((f0 & f1 & f2 & f3 & -> & O0 & O1 & O2 & O3) & _ & N3 & _ & V3).
    apply (IH _ _ _ E).
    + rewrite Eg. apply Forall_app; auto.
    + rewrite Enm. apply Forall_app; auto.
    + rewrite Efc. apply Forall_app. split; [exact Ff|].
      repeat constructor;
        match goal with
        | O : face_opposite ?q ?f |- length ?f = 3 =>
            destruct O as [-> | ->]; reflexivity
        end.
Qed.

(** X6.  Every row of the three arrays that [GetElements2D] returns
    for the renderer has three entries: every vertex and every normal
    three coordinates, every face three indices. *)
Theorem returned_rows_are_triples (clock : nat -> F) (tps : Tents F)
    (out : Elements F) (printed : F * F * F) :
  GetElements2D clock mesh tps = Ok (out, printed) ->
  Forall (fun p => length p = 3) (el_vertices out)
  /\ Forall (fun n => length n = 3) (el_normals out)
  /\ Forall (fun f => length f = 3) (el_faces out).
Proof.
  intros E.
  apply GetElements2D_ok in E
    as (rows & trows & st & _ & _ & Es & Ev & En & Ef & _).
  rewrite Ev, En, Ef.
  apply (record_loop_triples _ _ _ _ _ _ Es); constructor.
Qed.

(** X7.  On well-formed records the returned center locates the
    central vertex in the returned vertices: the four vertices of the
    record of index [r] are at the indices from [4 * r] on, the
    bottom point of its central vertex, with the bottom time of that
    vertex, at [4 * r + c] for the returned center [c], and its top
    point, the same point with the top time, right after it. *)
Theorem central_vertex_layout (clock : nat -> F) (tps : Tents F)
    (out : Elements F) (printed : F * F * F) (rows : list (list Z))
    (trows : list (list F)) :
  GetElements2D clock mesh tps = Ok (out, printed) ->
  reshape4 (tents_data tps) = Ok rows ->
  reshape4 (tents_times tps) = Ok trows ->
  forallb (well_formed_record mesh) rows = true ->
  forall r nr layer vnr elnr trow,
    nth_error rows r = Some [nr; layer; vnr; elnr] ->
    nth_error trows r = Some trow ->
    exists c pt tb ttop,
      nth_error (el_tentcenters out) r = Some c /\ c < 3
      /\ vertex_point mesh vnr = Some pt /\ length pt = 2
      /\ nth_error trow c = Some tb
      /\ nth_error trow 3 = Some ttop
      /\ nth_error (el_vertices out) (4 * r + c) = Some (pt ++ [tb])
      /\ nth_error (el_vertices out) (4 * r + c + 1) = Some (pt ++ [ttop]).
Proof.
  intros E Er Et W r nr layer vnr elnr trow Ed Etr.
  apply GetElements2D_ok in E
    as (rows' & trows' & st & Er' & Et' & Es & Ev & _ & _ & Ec & _).
  assert (rows' = rows) as -> by congruence.
  assert (trows' = trows) as -> by congruence.
  apply record_loop_rows in Es
    as (blocks & cs & Eg & Ecs & _ & Lb & _ & Rows).
  cbn in Eg, Ecs.
  (* the block of a well-formed record *)
  assert (Block : forall r d,
            nth_error rows r = Some d ->
            exists nr layer vnr elnr trow ttop vs bs c,
              d = [nr; layer; vnr; elnr]
              /\ nth_error trows r = Some trow
              /\ nth_error trow 3 = Some ttop
              /\ nth_error blocks r = Some (with_top ttop vnr vs bs)
              /\ nth_error cs r = Some c
              /\ exists pt tb,
                   vertex_point mesh vnr = Some pt /\ length pt = 2
                   /\ nth_error (firstn 3 trow) c = Some tb
                   /\ nth_error (with_top ttop vnr vs bs) c = Some (pt ++ [tb])
                   /\ nth_error (with_top ttop vnr vs bs) (c + 1)
                      = Some (pt ++ [ttop])
                   /\ length (with_top ttop vnr vs bs) = 4).
  { intros r0 d0 Ed0.
    destruct (Rows r0 d0 Ed0)
      as (nr0 & layer0 & vnr0 & elnr0 & trow0 & ttop0 & vs0 & bs0 & c0
          & -> & Et0 & Ett0 & Ev0 & Bs0 & Eb0 & Ec0 & Ecv0).
    exists nr0, layer0, vnr0, elnr0, trow0, ttop0, vs0, bs0, c0.
    repeat (split; [assumption || reflexivity|]).
    assert (Wd : well_formed_record mesh [nr0; layer0; vnr0; elnr0] = true).
    { rewrite forallb_forall in W. apply W.
      eapply nth_error_In; eauto. }
    unfold well_formed_record in Wd. rewrite Ev0 in Wd.
    apply andb_prop in Wd as [Wd Wp]. apply andb_prop in Wd as [Wl Wc].
    apply Nat.eqb_eq in Wl, Wc.
    eapply with_top_layout; eauto. }
  assert (B4 : Forall (fun b : list (list F) => length b = 4) blocks).
  { apply Forall_forall. intros b Hb.
    apply In_nth_error in Hb as (k & Hk).
    assert (Lk : k < length rows).
    { rewrite <- Lb. apply nth_error_Some. congruence. }
    destruct (nth_error rows k) as [d|] eqn:Edk;
      [|apply nth_error_None in Edk; lia].
    destruct (Block k d Edk)
      as (? & ? & ? & ? & ? & ? & ? & ? & ? & _ & _ & _ & Eb & _
          & ? & ? & _ & _ & _ & _ & _ & L4).
    congruence. }
  destruct (Block r _ Ed)
    as (nr0 & layer0 & vnr0 & elnr0 & trow0 & ttop0 & vs0 & bs0 & c0
        & Eq & Et0 & Ett0 & Eb0 & Ec0 & pt & tb & Ep & Lp & Etb & Ebot
        & Etop & L4).
  injection Eq as <- <- <- <-.
  assert (trow0 = trow) as -> by congruence.
  apply nth_error_firstn_some in Etb as [Etb Hc].
  exists c0, pt, tb, ttop0.
  rewrite Ec, Ecs, Ev, Eg.
  repeat (split; [assumption|]).
  split.
  - rewrite (nth_error_concat4 _ _ _ _ B4 Eb0) by lia. exact Ebot.
  - rewrite <- Nat.add_assoc.
    rewrite (nth_error_concat4 _ _ _ _ B4 Eb0) by lia. exact Etop.
Qed.

End Layout.

(** ** The text of the encoder *)

Section EncoderText.

Lemma b64encode_length : forall bs : list byte,
  String.length (b64encode bs) = 4 * ((length bs + 2) / 3).
Proof.
  fix IH 1. intros [|a [|b [|c t]]].
  - reflexivity.
  - cbn [b64encode]. destruct (sextets _ _ _) as [[[s0 s1] s2] s3]. reflexivity.
  - cbn [b64encode]. destruct (sextets _ _ _) as [[[s0 s1] s2] s3]. reflexivity.
  - cbn [b64encode]. destruct (sextets _ _ _) as [[[s0 s1] s2] s3].
    cbn [String.length]. rewrite (IH t).
    change (length (a :: b :: c :: t)) with (3 + length t).
    generalize (length t). intros n.
    replace (3 + n + 2) with (1 * 3 + (n + 2)) by lia.
    rewrite Nat.div_add_l by lia. lia.
Qed.

Lemma b64_char_alphabet (n : N) : (n < 64)%N -> In (b64_char n) b64_alphabet.
Proof.
  intros L. unfold b64_char. apply nth_In.
  change (length b64_alphabet) with 64. lia.
Qed.

Lemma b64encode_alphabet : forall bs : list byte,
  Forall (fun c => In c b64_alphabet \/ c = "="%char)
         (list_ascii_of_string (b64encode bs))
  /\ (length bs mod 3 = 0 ->
      Forall (fun c => In c b64_alphabet)
             (list_ascii_of_string (b64encode bs))).
Proof.
  fix IH 1. intros [|a [|b [|c t]]].
  - split; constructor.
  - pose proof (sextets_bound _ 0 0 (to_N_lt a) eq_refl eq_refl) as B.
    cbn [b64encode]. destruct (sextets _ _ _) as [[[s0 s1] s2] s3].
    destruct B as (B0 & B1 & B2 & B3).
    split; [|discriminate].
    cbn [list_ascii_of_string].
    repeat (apply Forall_cons;
            [first [left; apply b64_char_alphabet; assumption
                   | right; reflexivity]|]).
    apply Forall_nil.
  - pose proof (sextets_bound _ _ 0 (to_N_lt a) (to_N_lt b) eq_refl) as B.
    cbn [b64encode]. destruct (sextets _ _ _) as [[[s0 s1] s2] s3].
    destruct B as (B0 & B1 & B2 & B3).
    split; [|discriminate].
    cbn [list_ascii_of_string].
    repeat (apply Forall_cons;
            [first [left; apply b64_char_alphabet; assumption
                   | right; reflexivity]|]).
    apply Forall_nil.
  - pose proof (sextets_bound _ _ _ (to_N_lt a) (to_N_lt b) (to_N_lt c)) as B.
    cbn [b64encode]. destruct (sextets _ _ _) as [[[s0 s1] s2] s3].
    destruct B as (B0 & B1 & B2 & B3).
    destruct (IH t) as [A P].
    cbn [list_ascii_of_string].
    split.
    + repeat (apply Forall_cons;
              [left; apply b64_char_alphabet; assumption|]).
      exact A.
    + intros M.
      repeat (apply Forall_cons; [apply b64_char_alphabet; assumption|]).
      apply P.
      change (length (a :: b :: c :: t)) with (3 + length t) in M.
      revert M. generalize (length t). intros n M.
      replace (3 + n) with (n + 1 * 3) in M by lia.
      now rewrite Nat.Div0.mod_add in M.
Qed.

Lemma float32_bytes_length {F} (cast : F -> float32) : forall l : list F,
  length (flat_map float32_bytes (map cast l)) = 4 * length l.
Proof.
  induction l as [|x l IH]; [reflexivity|].
  cbn [map flat_map]. rewrite length_app, IH.
  destruct (cast x) as [[[b0 b1] b2] b3]. simpl. lia.
Qed.

Lemma concat_triples {A} : forall rows : list (list A),
  Forall (fun r => length r = 3) rows ->
  length (concat rows) = 3 * length rows.
Proof.
  induction rows as [|r rows IH]; intros Fa; [reflexivity|].
  apply Forall_cons_iff in Fa as [L Fa].
  cbn [concat length]. rewrite length_app, L, (IH Fa). lia.
Qed.

(** X8.  The text [encodeData] returns has four characters for every
    three bytes of the array converted to [float32], rounded up; every
    character is one of the 64 of the base64 alphabet or the padding
    character. *)
Theorem encodeData_text {F : Type} (cast : F -> float32)
    (array : list (list F)) :
  String.length (encodeData cast array)
  = 4 * ((4 * length (concat array) + 2) / 3)
  /\ Forall (fun c => In c b64_alphabet \/ c = "="%char)
            (list_ascii_of_string (encodeData cast array)).
Proof.
  unfold encodeData. cbv zeta.
  rewrite b64encode_length, float32_bytes_length.
  split; [reflexivity | apply b64encode_alphabet].
Qed.

(** An array of rows of three entries is encoded in sixteen
    characters for each row, with no padding. *)
Lemma encodeData_triples {F : Type} (cast : F -> float32)
    (array : list (list F)) :
  Forall (fun r => length r = 3) array ->
  String.length (encodeData cast array) = 16 * length array
  /\ Forall (fun c => In c b64_alphabet)
            (list_ascii_of_string (encodeData cast array)).
Proof.
  intros Fa. pose proof (concat_triples array Fa) as L.
  unfold encodeData. cbv zeta. split.
  - rewrite b64encode_length, float32_bytes_length, L.
    generalize (length array). intros n.
    replace (4 * (3 * n) + 2) with (4 * n * 3 + 2) by lia.
    rewrite Nat.div_add_l by lia. change (2 / 3) with 0. lia.
  - apply b64encode_alphabet.
    rewrite float32_bytes_length, L.
    generalize (length array). intros n.
    replace (4 * (3 * n)) with (0 + 4 * n * 3) by lia.
    now rewrite Nat.Div0.mod_add.
Qed.

End EncoderText.

(** ** The scene *)

Section SceneProperties.
Context {F : Type} `{Number F}.
Variable mesh : Mesh F.

Lemma GetData_ok (clock : nat -> F) (version : string) (cast : F -> float32)
    (tps : Tents F) (d : SceneData F) (printed : F * F * F) :
  GetData clock mesh version cast tps = Ok (d, printed) ->
  exists out,
    GetElements2D clock mesh tps = Ok (out, printed)
    /\ el_vertices out <> []
    /\ d_tent_el_vertices d = encodeData cast (el_vertices out)
    /\ d_face_normals d = encodeData cast (el_normals out)
    /\ d_faces d = el_faces out
    /\ d_tent_centers d = el_tentcenters out
    /\ d_tent_nrs d = el_nrs out
    /\ d_tent_layers d = el_layers out
    /\ d_ntents d = el_ntents out
    /\ d_nlayers d = el_nlayers out
    /\ d_ngsolve_version d = version.
Proof.
  unfold GetData. intros E.
  apply bind_ok in E as ([out printed'] & Eg & E).
  apply bind_ok in E as (vertices & Ev & E).
  apply np_array_ok in Ev as [-> _].
  apply bind_ok in E as (normals & En & E).
  apply np_array_ok in En as [-> _].
  apply bind_ok in E as (vmax & Emax & E).
  apply bind_ok in E as (vmin & Emin & E).
  injection E as <- <-.
  exists out. split; [exact Eg|].
  split; [intros E0; rewrite E0 in Emax; discriminate|].
  cbn. auto 12.
Qed.

Lemma GetData_returns (clock : nat -> F) (version : string)
    (cast : F -> float32) (tps : Tents F) (out : Elements F)
    (printed : F * F * F) :
  GetElements2D clock mesh tps = Ok (out, printed) ->
  el_vertices out <> [] ->
  exists d, GetData clock mesh version cast tps = Ok (d, printed).
Proof.
  intros E Hne. unfold GetData. rewrite E. cbn [bind].
  apply GetElements2D_ok in E
    as (rows & trows & st & _ & _ & Es & Ev & En & _).
  destruct (record_loop_triples mesh clock trows rows initial_state 0 st Es
              (Forall_nil _) (Forall_nil _) (Forall_nil _)) as (Fv & Fn & _).
  rewrite <- Ev in Fv. rewrite <- En in Fn.
  rewrite (np_array_rect _ 3 Fv), (np_array_rect _ 3 Fn). cbn [bind].
  destruct (el_vertices out) as [|v vs]; [congruence|].
  cbn [reduce_axis0 bind]. eexists. reflexivity.
Qed.

(** X9.  [GetData] returns a scene exactly when there is a record and
    [GetElements2D] returns: nothing after the flattening can fail
    but the maximum over no vertices.  Without a record [GetData]
    raises [ValueError], whatever the times and the mesh are. *)
Theorem GetData_domain (clock : nat -> F) (version : string)
    (cast : F -> float32) (tps : Tents F) :
  ((exists d printed, GetData clock mesh version cast tps = Ok (d, printed))
   <-> (tents_data tps <> []
        /\ exists out printed,
             GetElements2D clock mesh tps = Ok (out, printed)))
  /\ (tents_data tps = [] ->
      GetData clock mesh version cast tps = Raise ValueError).
Proof.
  split; [split|].
  - intros (d & printed & E).
    apply GetData_ok in E as (out & Eg & Hne & _).
    split; [|exists out, printed; exact Eg].
    intros Ed. apply Hne.
    apply GetElements2D_ok in Eg
      as (rows & trows & st & Er & _ & Es & Ev & _).
    rewrite Ed in Er. injection Er as <-. simpl in Es. injection Es as <-.
    exact Ev.
  - intros (Hne & out & printed & Eg).
    destruct (GetData_returns clock version cast tps out printed Eg)
      as (d & Ed); [|exists d, printed; exact Ed].
    pose proof Eg as Eg'.
    apply GetElements2D_ok in Eg'
      as (rows & trows & st & Er & _ & Es & Ev & _).
    apply reshape4_ok in Er as [Lr _].
    apply record_loop_ok in Es as (_ & _ & _ & _ & Lv & _).
    intros E0. rewrite Ev in E0. rewrite E0 in Lv. simpl in Lv.
    destruct (tents_data tps); [congruence | simpl in Lr; lia].
  - intros Ed. unfold GetData, GetElements2D. rewrite Ed. cbn [reshape4 bind].
    destruct (reshape4 (tents_times tps)) as [trows|e] eqn:Et.
    + reflexivity.
    + cbn [bind]. f_equal. eapply reshape4_raises; eauto.
Qed.

(** X10.  The two texts of a scene: sixteen characters for each
    emitted vertex and sixty-four for each record's normals, all of
    them characters of the base64 alphabet (the payloads are never
    padded); the other lists are those of [GetElements2D]. *)
Theorem scene_payloads (clock : nat -> F) (version : string)
    (cast : F -> float32) (tps : Tents F) (d : SceneData F)
    (printed : F * F * F) :
  GetData clock mesh version cast tps = Ok (d, printed) ->
  exists out rows,
    GetElements2D clock mesh tps = Ok (out, printed)
    /\ reshape4 (tents_data tps) = Ok rows
    /\ String.length (d_tent_el_vertices d) = 16 * length (el_vertices out)
    /\ String.length (d_face_normals d) = 64 * length rows
    /\ Forall (fun c => In c b64_alphabet)
              (list_ascii_of_string (d_tent_el_vertices d))
    /\ Forall (fun c => In c b64_alphabet)
              (list_ascii_of_string (d_face_normals d))
    /\ d_faces d = el_faces out
    /\ d_tent_centers d = el_tentcenters out
    /\ d_tent_nrs d = el_nrs out
    /\ d_tent_layers d = el_layers out.
Proof.
  intros E.
  apply GetData_ok in E
    as (out & Eg & _ & Dv & Dn & Df & Dc & Dnr & Dl & _).
  pose proof Eg as Eg'.
  apply GetElements2D_ok in Eg'
    as (rows & trows & st & Er & _ & Es & Ev & En & _).
  exists out, rows. split; [exact Eg|]. split; [exact Er|].
  destruct (record_loop_triples mesh clock trows rows initial_state 0 st Es
              (Forall_nil _) (Forall_nil _) (Forall_nil _)) as (Fv & Fn & _).
  apply record_loop_ok in Es as (_ & _ & _ & _ & _ & _ & _ & _ & Ln).
  rewrite <- Ev in Fv. rewrite <- En in Fn, Ln.
  change (length (normals initial_state)) with 0 in Ln.
  destruct (encodeData_triples cast _ Fv) as [Lv Av].
  destruct (encodeData_triples cast _ Fn) as [Lnn An].
  rewrite Dv, Dn, Lv, Lnn, Ln.
  repeat split; auto. lia.
Qed.

(** X11.  On one or more well-formed records with their times
    [GetData] returns a scene, whatever the arithmetic computes. *)
Theorem GetData_returns_on_well_formed (clock : nat -> F) (version : string)
    (cast : F -> float32) (tps : Tents F) (rows : list (list Z)) :
  reshape4 (tents_data tps) = Ok rows -> rows <> [] ->
  length (tents_times tps) = length (tents_data tps) ->
  forallb (well_formed_record mesh) rows = true ->
  exists d printed, GetData clock mesh version cast tps = Ok (d, printed).
Proof.
  intros Er Hne Lt W.
  pose proof (reshape4_ok _ _ Er) as [Lr _].
  destruct (reshape4_rows (length rows) (tents_times tps)) as (trows & Et & Ltr & Ft);
    [lia|].
  destruct (record_loop_total clock mesh trows rows initial_state 0 W)
    as (st & Es & Lv).
  { intros k Hk. simpl.
    destruct (nth_error trows k) as [trow|] eqn:En.
    - exists trow. split; [reflexivity|].
      rewrite Forall_forall in Ft. apply Ft. eapply nth_error_In; eauto.
    - apply nth_error_None in En. lia. }
  destruct (GetElements2D_returns mesh clock tps rows trows st Er Et Es)
    as (out & printed & Eg & Ev & _).
  destruct (GetData_returns clock version cast tps out printed Eg)
    as (d & Ed); [|exists d, printed; exact Ed].
  intros E0. rewrite Ev in E0. rewrite E0 in Lv. simpl in Lv.
  destruct rows; [congruence | simpl in Lv; lia].
Qed.

End SceneProperties.

(** ** The faces and normals of a record belong to its block of vertices *)

Section Blocks.
Context {F : Type} `{Number F}.
Variable mesh : Mesh F.

Lemma group4_concat {A} : forall (blocks : list (list A)) r b,
  Forall (fun b => length b = 4) blocks ->
  nth_error blocks r = Some b ->
  group4 r (concat blocks) = b.
Proof.
  unfold group4.
  induction blocks as [|b0 blocks IH]; intros r b Fa E.
  - destruct r; discriminate.
  - inversion Fa as [|? ? L4 Fa']; subst.
    destruct b0 as [|x0 [|x1 [|x2 [|x3 [|? ?]]]]]; try discriminate.
    destruct r as [|r]; simpl in E.
    + injection E as <-. reflexivity.
    + replace (4 * S r) with (4 + 4 * r) by lia.
      cbn [concat app]. change (skipn (4 + 4 * r) (x0 :: x1 :: x2 :: x3 :: concat blocks))
        with (skipn (4 * r) (concat blocks)).
      now apply IH.
Qed.

(** The groups of a loop over well-formed records: for every record
    four vertices, four faces and four normals, the faces and normals
    being those of the vertices. *)
Lemma record_loop_groups (clock : nat -> F) (times : list (list F)) :
  forall rows st i st',
    record_loop clock mesh times st i rows = Ok st' ->
    forallb (well_formed_record mesh) rows = true ->
    exists blocks fgroups ngroups,
      gvertices st' = gvertices st ++ concat blocks
      /\ faces st' = faces st ++ concat fgroups
      /\ normals st' = normals st ++ concat ngroups
      /\ Forall (fun b => length b = 4) blocks
      /\ Forall (fun g => length g = 4) fgroups
      /\ Forall (fun g => length g = 4) ngroups
      /\ forall r, r < length rows ->
           exists b fs ns,
             nth_error blocks r = Some b /\ nth_error fgroups r = Some fs
             /\ nth_error ngroups r = Some ns
             /\ GetFacesAndNormals b = Ok (fs, ns).
Proof.
  induction rows as [|d rows IH]; intros st i st' E W; simpl in E.
  - injection E as <-. exists [], [], []. cbn. rewrite !app_nil_r.
    repeat split; auto. intros r Hr. lia.
  - cbn [forallb] in W. apply andb_prop in W as [Wd W].
    apply bind_ok in E as (st1 & E1 & E).
    destruct (IH _ _ _ E W)
      as (blocks & fgroups & ngroups & Eg & Ef & En & Fb & Ff & Fn & Rows).
    apply record_body_ok in E1
      as (nr & layer & vnr & elnr & trow & ttop & vs & bs & fcs & nrmls & c
          & -> & _ & _ & Ev & Bs & _ & Ek & Eg1 & Ef1 & En1 & _).
    unfold well_formed_record in Wd. rewrite Ev in Wd.
    apply andb_prop in Wd as [Wd _]. apply andb_prop in Wd as [Wl Wc].
    apply Nat.eqb_eq in Wl, Wc.
    assert (L4 : length (with_top ttop vnr vs bs) = 4).
    { rewrite with_top_length, Wl, Wc by (eapply bottom_frame_length; eauto).
      reflexivity. }
    pose proof (GetFacesAndNormals_ok _ _ _ Ek)
      as ((f0 & f1 & f2 & f3 & Efc & _) & Ln & _).
    exists (with_top ttop vnr vs bs :: blocks), (fcs :: fgroups),
      (nrmls :: ngroups).
    rewrite Eg, Eg1, Ef, Ef1, En, En1, <- !app_assoc. cbn [concat].
    repeat split; auto.
    + constructor; auto. rewrite Efc. reflexivity.
    + intros [|r] Hr; cbn [nth_error].
      * exists (with_top ttop vnr vs bs), fcs, nrmls. auto.
      * apply Rows. simpl in Hr. lia.
Qed.

(** X12.  On well-formed records the r-th four faces and the r-th
    four normals that are returned are the faces and normals of the
    r-th four returned vertices: the indices of a face, which are
    local to the element, refer to the vertices from [4 * r] on. *)
Theorem faces_and_normals_of_block (clock : nat -> F) (tps : Tents F)
    (out : Elements F) (printed : F * F * F) (rows : list (list Z)) :
  GetElements2D clock mesh tps = Ok (out, printed) ->
  reshape4 (tents_data tps) = Ok rows ->
  forallb (well_formed_record mesh) rows = true ->
  forall r, r < length rows ->
    GetFacesAndNormals (group4 r (el_vertices out))
    = Ok (group4 r (el_faces out), group4 r (el_normals out)).
Proof.
  intros E Er W r Hr.
  apply GetElements2D_ok in E
    as (rows' & trows & st & Er' & _ & Es & Ev & En & Ef & _).
  assert (rows' = rows) as -> by congruence.
  destruct (record_loop_groups _ _ _ _ _ _ Es W)
    as (blocks & fgroups & ngroups & Eg & Efc & Enm & Fb & Ff & Fn & Rows).
  cbn in Eg, Efc, Enm.
  destruct (Rows r Hr) as (b & fs & ns & Eb & Efs & Ens & Ek).
  rewrite Ev, En, Ef, Eg, Efc, Enm.
  rewrite (group4_concat _ _ _ Fb Eb), (group4_concat _ _ _ Ff Efs),
    (group4_concat _ _ _ Fn Ens).
  exact Ek.
Qed.

End Blocks.

(** ** The normals and the winding of the faces in exact arithmetic *)

Section RealFaces.
Open Scope R_scope.

Ltac real_ops :=
  cbn [zip_with fold_left dot
       nzero nunit ntwo nadd nsub nmul ndiv nneg nsqrt R_Number] in *.

Lemma perpendicular_normal (pts : list (list R)) (a b c N s : R)
    (f : list nat) :
  (forall ia ib pa pb,
     In ia f -> In ib f ->
     nth_error pts ia = Some pa -> nth_error pts ib = Some pb ->
     exists e1 e2 e3,
       zip_with nsub pb pa = [e1; e2; e3] /\ a * e1 + b * e2 + c * e3 = 0) ->
  perpendicular_to_face pts f
    [nmul (ndiv a N) s; nmul (ndiv b N) s; nmul (ndiv c N) s].
Proof.
  intros Hf ia ib pa pb Ha Hb Ea Eb.
  destruct (Hf ia ib pa pb Ha Hb Ea Eb) as (e1 & e2 & e3 & -> & E).
  unfold dot. real_ops. unfold Rdiv.
  replace (a * / N * s * e1 + b * / N * s * e2 + c * / N * s * e3)
    with ((a * e1 + b * e2 + c * e3) * (/ N * s)) by ring.
  rewrite E. ring.
Qed.

Lemma winding_normal (pts : list (list R)) (u v w a b c : R)
    (fa fb : list nat) :
  dot [u; v; w] [a; b; c] <> 0 ->
  (exists a' b' c', face_cross pts fa = Ok [a'; b'; c']
                    /\ a' = a /\ b' = b /\ c' = c) ->
  (exists a' b' c', face_cross pts fb = Ok [a'; b'; c']
                    /\ a' = - a /\ b' = - b /\ c' = - c) ->
  counterclockwise pts
    (if gt0 (nneg (np_sign (dot [u; v; w] [a; b; c]))) then fa else fb)
    [nmul (ndiv a (np_norm [a; b; c])) (nneg (np_sign (dot [u; v; w] [a; b; c])));
     nmul (ndiv b (np_norm [a; b; c])) (nneg (np_sign (dot [u; v; w] [a; b; c])));
     nmul (ndiv c (np_norm [a; b; c])) (nneg (np_sign (dot [u; v; w] [a; b; c])))].
Proof.
  intros HD (a1 & b1 & c1 & Ea & -> & -> & ->)
    (a2 & b2 & c2 & Eb & -> & -> & ->).
  rewrite dot3 in HD |- *.
  pose proof (norm_pos _ _ _ _ _ _ HD) as HN.
  rewrite !np_norm3.
  set (N := sqrt (a * a + b * b + c * c)) in *.
  assert (HS : N * N = a * a + b * b + c * c).
  { apply sqrt_sqrt. nra. }
  unfold counterclockwise.
  destruct (np_sign_cases _ HD) as [(HP & -> & ->)|(HP & -> & ->)].
  - exists [- a; - b; - c]. split; [exact Eb|].
    rewrite dot3. cbn [nmul ndiv nneg gt0 R_Number].
    match goal with
    | |- context [Rlt_dec ?x ?y] => destruct (Rlt_dec x y) as [_|NP]
    end; [reflexivity|].
    exfalso. apply NP.
    replace (- a * (a / N * - (1)) + - b * (b / N * - (1))
             + - c * (c / N * - (1)))
      with ((N * N) / N) by (rewrite HS; field; lra).
    apply Rdiv_lt_0_compat; nra.
  - exists [a; b; c]. split; [exact Ea|].
    rewrite dot3. cbn [nmul ndiv nneg gt0 R_Number].
    match goal with
    | |- context [Rlt_dec ?x ?y] => destruct (Rlt_dec x y) as [_|NP]
    end; [reflexivity|].
    exfalso. apply NP.
    replace (a * (a / N * - -1) + b * (b / N * - -1) + c * (c / N * - -1))
      with ((N * N) / N) by (rewrite HS; field; lra).
    apply Rdiv_lt_0_compat; nra.
Qed.

Ltac real_volume :=
  unfold volume6, dot, np_cross in *;
  cbn [zip_with fold_left] in *;
  cbn [nzero nunit ntwo nadd nsub nmul ndiv nneg nsqrt R_Number] in *.

(** On a tetrahedron of non-zero volume every returned normal is
    perpendicular to its face, and the face is listed
    counterclockwise seen from the side of the normal. *)
Lemma kernel_faces_on_tetrahedron (x0 y0 z0 x1 y1 z1 x2 y2 z2 x3 y3 z3 : R) :
  let pts := [[x0; y0; z0]; [x1; y1; z1]; [x2; y2; z2]; [x3; y3; z3]] in
  volume6 pts <> 0 ->
  exists fcs nrmls,
    GetFacesAndNormals pts = Ok (fcs, nrmls)
    /\ Forall2 (perpendicular_to_face pts) fcs nrmls
    /\ Forall2 (counterclockwise pts) fcs nrmls.
Proof.
  intros pts HV. subst pts.
  eexists; eexists. split.
  { unfold GetFacesAndNormals, np_array, np_roll, face_and_normal, column, item.
    cbn -[np_norm np_sign dot nmul ndiv nneg gt0 nsub nadd]. reflexivity. }
  split.
  - repeat constructor; apply perpendicular_normal;
      intros ia ib pa pb Ha Hb Ea Eb;
      destruct (gt0 _);
      cbn [In] in Ha, Hb;
      repeat (destruct Ha as [Ha|Ha]; [subst ia|]); try contradiction;
      repeat (destruct Hb as [Hb|Hb]; [subst ib|]); try contradiction;
      cbn [nth_error] in Ea, Eb; injection Ea as <-; injection Eb as <-;
      eexists; eexists; eexists;
      (split; [reflexivity | real_ops; ring]).
  - repeat constructor; apply winding_normal;
      try (real_volume; lra);
      eexists; eexists; eexists;
      (split; [reflexivity|]); real_ops; repeat split; ring.
Qed.

End RealFaces.

(** ** The scene in exact arithmetic *)

Section RealScene.
Open Scope R_scope.

Ltac real_volume :=
  unfold volume6, dot, np_cross in *;
  cbn [zip_with fold_left] in *;
  cbn [nzero nunit ntwo nadd nsub nmul ndiv nneg nsqrt R_Number] in *.

(** X13.  In exact arithmetic, on every tetrahedron of non-zero
    volume, each normal that [GetFacesAndNormals] returns is
    perpendicular to the edges of its face, and the three indices of
    the face are in counterclockwise order seen from the side the
    normal points to: the cross product of the edges from the first
    to the second and to the third vertex has a positive product with
    the normal. *)
Theorem faces_are_counterclockwise (pts : list (list R)) :
  length pts = 4%nat -> Forall (fun p => length p = 3%nat) pts ->
  volume6 pts <> 0 ->
  exists fcs nrmls,
    GetFacesAndNormals pts = Ok (fcs, nrmls)
    /\ Forall2 (perpendicular_to_face pts) fcs nrmls
    /\ Forall2 (counterclockwise pts) fcs nrmls.
Proof.
  intros L Fa HV.
  destruct (four_points_of_three pts L Fa)
    as (x0 & y0 & z0 & x1 & y1 & z1 & x2 & y2 & z2 & x3 & y3 & z3 & ->).
  exact (kernel_faces_on_tetrahedron _ _ _ _ _ _ _ _ _ _ _ _ HV).
Qed.

(** X14.  In exact arithmetic the faces and normals depend on the
    shape only: moving the four points of a tetrahedron of non-zero
    volume by one vector changes nothing of what is returned.  (The
    volume keeps the statement to the inputs on which no normal is
    divided by a zero length, where numpy and the real numbers
    part.) *)
Theorem kernel_ignores_translation (pts : list (list R)) (t : list R) :
  length pts = 4%nat -> Forall (fun p => length p = 3%nat) pts ->
  length t = 3%nat -> volume6 pts <> 0 ->
  GetFacesAndNormals (translate t pts) = GetFacesAndNormals pts.
Proof.
  intros L Fa Lt _.
  destruct (four_points_of_three pts L Fa)
    as (x0 & y0 & z0 & x1 & y1 & z1 & x2 & y2 & z2 & x3 & y3 & z3 & ->).
  destruct t as [|t0 [|t1 [|t2 [|? ?]]]]; try discriminate.
  unfold translate, GetFacesAndNormals, np_array, np_roll, face_and_normal,
    column, item.
  cbn -[np_norm np_sign dot nmul ndiv nneg gt0 nsub nadd np_cross].
  cbn [nadd nsub R_Number].
  repeat match goal with
         | |- context [?a + ?s - (?b + ?s)] =>
             replace (a + s - (b + s)) with (a - b) by ring
         end.
  reflexivity.
Qed.

Lemma sqrt_quarter (x : R) : 0 <= x -> sqrt (x / 4) = sqrt x / 2.
Proof.
  intros Hx. apply sqrt_lem_1.
  - lra.
  - pose proof (sqrt_pos x). lra.
  - replace (sqrt x / 2 * (sqrt x / 2)) with (sqrt x * sqrt x / 4) by field.
    now rewrite sqrt_sqrt.
Qed.

(** The corners of the bounding box of what [GetData] returns, in
    exact arithmetic. *)
Lemma GetData_corners (clock : nat -> R) (mesh : Mesh R) (version : string)
    (cast : R -> float32) (tps : Tents R) (d : SceneData R)
    (printed : R * R * R) :
  GetData clock mesh version cast tps = Ok (d, printed) ->
  exists out lo hi,
    GetElements2D clock mesh tps = Ok (out, printed)
    /\ Forall (fun p => length p = 3%nat) (el_vertices out)
    /\ is_min_corner (el_vertices out) lo
    /\ is_max_corner (el_vertices out) hi
    /\ d_slab_center d = zip_with (fun a b => (a + b) / 2) lo hi
    /\ d_slab_radius d = sqrt (dist2 hi lo) / 2.
Proof.
  intros E. unfold GetData in E.
  apply bind_ok in E as ([out printed'] & Eg & E).
  apply bind_ok in E as (vertices & Ev & E).
  apply np_array_ok in Ev as [-> _].
  apply bind_ok in E as (normals & En & E).
  apply bind_ok in E as (vmax & Emax & E).
  apply bind_ok in E as (vmin & Emin & E).
  injection E as <- <-.
  pose proof Eg as Eg'.
  apply GetElements2D_ok in Eg' as (rows & trows & st & _ & _ & Es & Ev & _).
  destruct (record_loop_triples mesh clock trows rows initial_state 0%nat st Es
              (Forall_nil _) (Forall_nil _) (Forall_nil _)) as (F3 & _).
  rewrite <- Ev in F3. clear Ev Es.
  exists out.
  destruct (el_vertices out) as [|r vs] eqn:Eo; [discriminate|].
  pose proof F3 as F3'.
  apply Forall_cons_iff in F3' as [Lr F3'].
  simpl in Emax, Emin. injection Emax as <-. injection Emin as <-.
  destruct (corner_of_one r Lr) as [Cmin Cmax].
  pose proof (fold_min_corner vs [r] r ltac:(discriminate) Cmin F3') as Hlo.
  pose proof (fold_max_corner vs [r] r ltac:(discriminate) Cmax F3') as Hhi.
  simpl app in Hlo, Hhi.
  exists (fold_left (zip_with Rmin) vs r), (fold_left (zip_with Rmax) vs r).
  repeat split; try apply Hlo; try apply Hhi; auto.
  cbn [d_slab_center].
  destruct Hlo as [Llo _]. destruct Hhi as [Lhi _].
  change np_minimum with Rmin. change np_maximum with Rmax.
  destruct (fold_left (zip_with Rmin) vs r) as [|a0 [|a1 [|a2 [|? ?]]]];
    try discriminate.
  destruct (fold_left (zip_with Rmax) vs r) as [|b0 [|b1 [|b2 [|? ?]]]];
    try discriminate.
  reflexivity.
Qed.

(** X15.  In exact arithmetic the sphere around [slab_center] with
    the radius [slab_radius] holds the whole scene: no emitted vertex
    is farther from the center than the radius. *)
Theorem sphere_holds_the_vertices (clock : nat -> R) (mesh : Mesh R)
    (version : string) (cast : R -> float32) (tps : Tents R)
    (d : SceneData R) (printed : R * R * R) :
  GetData clock mesh version cast tps = Ok (d, printed) ->
  exists out,
    GetElements2D clock mesh tps = Ok (out, printed)
    /\ forall v, In v (el_vertices out) ->
         sqrt (dist2 v (d_slab_center d)) <= d_slab_radius d.
Proof.
  intros E.
  apply GetData_corners in E as (out & lo & hi & Eg & F3 & Hlo & Hhi & -> & ->).
  exists out. split; [exact Eg|].
  intros v Hv.
  rewrite Forall_forall in F3. pose proof (F3 v Hv) as Lv.
  destruct Hlo as [Llo Hlo]. destruct Hhi as [Lhi Hhi].
  destruct (Hlo 0%nat ltac:(lia)) as [Lo0 _].
  destruct (Hlo 1%nat ltac:(lia)) as [Lo1 _].
  destruct (Hlo 2%nat ltac:(lia)) as [Lo2 _].
  destruct (Hhi 0%nat ltac:(lia)) as [Hi0 _].
  destruct (Hhi 1%nat ltac:(lia)) as [Hi1 _].
  destruct (Hhi 2%nat ltac:(lia)) as [Hi2 _].
  specialize (Lo0 v Hv). specialize (Lo1 v Hv). specialize (Lo2 v Hv).
  specialize (Hi0 v Hv). specialize (Hi1 v Hv). specialize (Hi2 v Hv).
  destruct lo as [|l0 [|l1 [|l2 [|? ?]]]]; try discriminate.
  destruct hi as [|h0 [|h1 [|h2 [|? ?]]]]; try discriminate.
  destruct v as [|v0 [|v1 [|v2 [|? ?]]]]; try discriminate.
  unfold coord in *. cbn [nth] in *.
  unfold dist2, dot.
  cbn [zip_with fold_left nadd nsub nmul R_Number].
  set (D := (h0 - l0) * (h0 - l0) + (h1 - l1) * (h1 - l1)
            + (h2 - l2) * (h2 - l2)).
  assert (HD : 0 <= D) by (unfold D; nra).
  rewrite <- (sqrt_quarter D HD).
  apply sqrt_le_1_alt. unfold D.
  assert (A0 : (v0 - (l0 + h0) / 2) * (v0 - (l0 + h0) / 2)
               <= (h0 - l0) * (h0 - l0) / 4) by nra.
  assert (A1 : (v1 - (l1 + h1) / 2) * (v1 - (l1 + h1) / 2)
               <= (h1 - l1) * (h1 - l1) / 4) by nra.
  assert (A2 : (v2 - (l2 + h2) / 2) * (v2 - (l2 + h2) / 2)
               <= (h2 - l2) * (h2 - l2) / 4) by nra.
  lra.
Qed.

(** X16.  In exact arithmetic a scene on well-formed records is
    geometrically right record by record: where the four vertices of
    a record span a tetrahedron of non-zero volume, its four normals
    have the length one, point away from the centroid of these four
    vertices and are perpendicular to their faces, whose indices,
    read in the record's own four vertices, are in counterclockwise
    order. *)
Theorem scene_faces_and_normals (clock : nat -> R) (mesh : Mesh R)
    (tps : Tents R) (out : Elements R) (printed : R * R * R)
    (rows : list (list Z)) (r : nat) :
  GetElements2D clock mesh tps = Ok (out, printed) ->
  reshape4 (tents_data tps) = Ok rows ->
  forallb (well_formed_record mesh) rows = true ->
  (r < length rows)%nat ->
  volume6 (group4 r (el_vertices out)) <> 0 ->
  Forall (fun n => np_norm n = 1) (group4 r (el_normals out))
  /\ Forall2 (points_away_true (group4 r (el_vertices out)))
             (group4 r (el_faces out)) (group4 r (el_normals out))
  /\ Forall2 (perpendicular_to_face (group4 r (el_vertices out)))
             (group4 r (el_faces out)) (group4 r (el_normals out))
  /\ Forall2 (counterclockwise (group4 r (el_vertices out)))
             (group4 r (el_faces out)) (group4 r (el_normals out)).
Proof.
  intros E Er W Hr HV.
  apply GetElements2D_ok in E
    as (rows' & trows & st & Er' & _ & Es & Ev & En & Ef & _).
  assert (rows' = rows) as -> by congruence.
  destruct (record_loop_groups _ _ _ _ _ _ _ Es W)
    as (blocks & fgroups & ngroups & Eg & Efc & Enm & Fb & Ff & Fn & Rows).
  cbn in Eg, Efc, Enm.
  destruct (Rows r Hr) as (b & fs & ns & Eb & Efs & Ens & Ek).
  rewrite Ev, En, Ef, Eg, Efc, Enm in *.
  rewrite (group4_concat _ _ _ Fb Eb) in *.
  rewrite (group4_concat _ _ _ Ff Efs), (group4_concat _ _ _ Fn Ens).
  assert (L4 : length b = 4%nat).
  { rewrite Forall_forall in Fb. apply Fb. eapply nth_error_In; eauto. }
  pose proof (GetFacesAndNormals_ok _ _ _ Ek) as (_ & _ & _ & _ & F3).
  destruct (four_points_of_three b L4 F3)
    as (x0 & y0 & z0 & x1 & y1 & z1 & x2 & y2 & z2 & x3 & y3 & z3 & ->).
  destruct (kernel_on_tetrahedron _ _ _ _ _ _ _ _ _ _ _ _ HV)
    as (fcs & nrmls & E1 & U & O).
  destruct (kernel_faces_on_tetrahedron _ _ _ _ _ _ _ _ _ _ _ _ HV)
    as (fcs' & nrmls' & E2 & P & C).
  assert (fcs = fs /\ nrmls = ns) as [-> ->] by (split; congruence).
  assert (fcs' = fs /\ nrmls' = ns) as [-> ->] by (split; congruence).
  auto.
Qed.

End RealScene.

(** ** The inputs on which the flattening returns *)

Section Accepted.
Context {F : Type} `{Number F}.
Variable mesh : Mesh F.

Lemma bottom_frame_plane (tbots : list F) (ttop : F) (vnr : Z) :
  forall vs j bs,
    bottom_frame mesh tbots j vs bs ->
    Forall (fun p => length p = 3) (with_top ttop vnr vs bs) ->
    Forall (fun v => exists pt, vertex_point mesh v = Some pt
                                /\ length pt = 2) vs.
Proof.
  induction vs as [|v vs IH]; intros j [|b bs] B Fa; simpl in B;
    try tauto; [constructor|].
  destruct B as [(pt & tb & Ep & _ & ->) B].
  cbn [with_top] in Fa. apply Forall_app in Fa as [Fb Fa].
  constructor; [|eapply IH; eauto].
  exists pt. split; [exact Ep|].
  assert (L : length (pt ++ [tb]) = 3).
  { destruct (Z.eqb v vnr); inversion Fb; assumption. }
  rewrite length_app in L. simpl in L. lia.
Qed.

(** X17.  [GetElements2D] returns only on a two-dimensional mesh of
    triangles: if it returns, every record has four entries and
    names an element of at most three vertices, its central vertex
    among them, all of them known to the mesh with exactly two
    coordinates, and the times have a row for it. *)
Theorem returns_only_on_triangles (clock : nat -> F) (tps : Tents F)
    (out : Elements F) (printed : F * F * F) :
  GetElements2D clock mesh tps = Ok (out, printed) ->
  exists rows trows,
    reshape4 (tents_data tps) = Ok rows
    /\ reshape4 (tents_times tps) = Ok trows
    /\ length rows <= length trows
    /\ forall d, In d rows ->
         exists nr layer vnr elnr,
           d = [nr; layer; vnr; elnr] /\ triangle_around mesh vnr elnr.
Proof.
  intros E.
  apply GetElements2D_ok in E
    as (rows & trows & st & Er & Et & Es & _).
  exists rows, trows. split; [exact Er|]. split; [exact Et|].
  apply record_loop_rows in Es
    as (blocks & cs & _ & _ & F3 & Lb & _ & Rows).
  split.
  - destruct rows as [|d0 rows0] eqn:Erows; [simpl; lia|].
    rewrite <- Erows in *.
    destruct (nth_error rows (length rows - 1)) as [d|] eqn:Ed.
    + destruct (Rows _ _ Ed)
        as (? & ? & ? & ? & trow & ? & ? & ? & ? & _ & Etr & _).
      simpl in Etr.
      assert (length rows - 1 < length trows)
        by (apply nth_error_Some; congruence).
      lia.
    + apply nth_error_None in Ed. rewrite Erows in Ed. simpl in Ed. lia.
  - intros d Hd. apply In_nth_error in Hd as (r & Ed).
    destruct (Rows r d Ed)
      as (nr & layer & vnr & elnr & trow & ttop & vs & bs & c
          & -> & _ & _ & Ev & Bs & Eb & _ & Ecv).
    exists nr, layer, vnr, elnr. split; [reflexivity|].
    exists vs. split; [exact Ev|].
    assert (Hne : vs <> []) by (intros ->; destruct c; discriminate).
    pose proof (bottom_frame_bound _ _ _ _ _ Bs Hne) as Bd.
    rewrite length_firstn in Bd.
    split; [lia|]. split; [eapply nth_error_In; eauto|].
    eapply bottom_frame_plane; [exact Bs|].
    rewrite Forall_forall in F3. apply F3. eapply nth_error_In; eauto.
Qed.

End Accepted.

(** ** The further properties on concrete inputs *)

Section FurtherConcrete.

Lemma tent_numbers_and_layers_witness :
  exists out printed,
    GetElements2D clock0 mesh1 tents2 = Ok (out, printed)
    /\ exists rows,
         reshape4 (tents_data tents2) = Ok rows
         /\ el_nrs out = data_column 0 rows
         /\ el_layers out = data_column 1 rows
         /\ length (el_tentcenters out) = length rows
         /\ length (el_normals out) = 4 * length rows
         /\ el_ntents out = tents_ntents tents2
         /\ el_nlayers out = tents_nlayers tents2.
Proof.
  eexists; eexists. split; [vm_compute; reflexivity|].
  eapply (tent_numbers_and_layers mesh1 clock0 tents2).
  vm_compute; reflexivity.
Defined.

Lemma surplus_times_never_read_witness :
  length (tents_data tents1) <= length (tents_times tents1)
  /\ length (tents_times tents1) mod 4 = 0
  /\ GetElements2D clock0 mesh1 tents_long = GetElements2D clock0 mesh1 tents1.
Proof.
  split; [cbn; lia|]. split; [reflexivity|].
  apply (surplus_times_never_read mesh1 clock0 tents1 tents_long
           [1; 1; 1; 3]%float);
    first [reflexivity | cbn; lia].
Defined.

Lemma records_are_independent_witness :
  ((exists out printed, GetElements2D clock0 mesh1 tents2 = Ok (out, printed))
   <-> ((exists out1 printed1,
           GetElements2D clock0 mesh1 tents1 = Ok (out1, printed1))
        /\ (exists out2 printed2,
              GetElements2D clock0 mesh1 tents2_second = Ok (out2, printed2))))
  /\ (forall out printed out1 printed1 out2 printed2,
        GetElements2D clock0 mesh1 tents2 = Ok (out, printed) ->
        GetElements2D clock0 mesh1 tents1 = Ok (out1, printed1) ->
        GetElements2D clock0 mesh1 tents2_second = Ok (out2, printed2) ->
        lists_app out out1 out2).
Proof.
  apply (records_are_independent mesh1 clock0 clock0 clock0
           tents2 tents1 tents2_second); reflexivity.
Defined.

Lemma tent_centers_are_local_witness :
  exists out printed,
    GetElements2D clock0 mesh1 tents2 = Ok (out, printed)
    /\ exists c vs,
         nth_error (el_tentcenters out) 1 = Some c
         /\ element_vertices mesh1 0 = Some vs
         /\ nth_error vs c = Some 1%Z
         /\ c < 3.
Proof.
  eexists; eexists. split; [vm_compute; reflexivity|].
  eapply (tent_centers_are_local mesh1 clock0 tents2 _ _ rows2);
    [vm_compute; reflexivity | reflexivity | reflexivity].
Defined.

Lemma returned_rows_are_triples_witness :
  exists out printed,
    GetElements2D clock0 mesh1 tents2 = Ok (out, printed)
    /\ Forall (fun p => length p = 3) (el_vertices out)
    /\ Forall (fun n => length n = 3) (el_normals out)
    /\ Forall (fun f => length f = 3) (el_faces out).
Proof.
  eexists; eexists. split; [vm_compute; reflexivity|].
  eapply (returned_rows_are_triples mesh1 clock0 tents2).
  vm_compute; reflexivity.
Defined.

Lemma central_vertex_layout_witness :
  exists out printed,
    GetElements2D clock0 mesh1 tents2 = Ok (out, printed)
    /\ forallb (well_formed_record mesh1) rows2 = true
    /\ exists c pt tb ttop,
         nth_error (el_tentcenters out) 1 = Some c /\ c < 3
         /\ vertex_point mesh1 1 = Some pt /\ length pt = 2
         /\ nth_error [2; 0; 0; 4]%float c = Some tb
         /\ nth_error [2; 0; 0; 4]%float 3 = Some ttop
         /\ nth_error (el_vertices out) (4 * 1 + c) = Some (pt ++ [tb])
         /\ nth_error (el_vertices out) (4 * 1 + c + 1) = Some (pt ++ [ttop]).
Proof.
  eexists; eexists. split; [vm_compute; reflexivity|].
  split; [vm_compute; reflexivity|].
  eapply (central_vertex_layout mesh1 clock0 tents2 _ _ rows2
            [[0; 0; 0; 2]; [2; 0; 0; 4]]%float);
    [vm_compute; reflexivity | reflexivity | reflexivity
    | vm_compute; reflexivity | reflexivity | reflexivity].
Defined.

Lemma scene_payloads_witness :
  exists d printed,
    GetData clock0 mesh1 "6.2" float32_of_float tents1 = Ok (d, printed)
    /\ exists out rows,
         GetElements2D clock0 mesh1 tents1 = Ok (out, printed)
         /\ reshape4 (tents_data tents1) = Ok rows
         /\ String.length (d_tent_el_vertices d) = 16 * length (el_vertices out)
         /\ String.length (d_face_normals d) = 64 * length rows
         /\ Forall (fun c => In c b64_alphabet)
                   (list_ascii_of_string (d_tent_el_vertices d))
         /\ Forall (fun c => In c b64_alphabet)
                   (list_ascii_of_string (d_face_normals d))
         /\ d_faces d = el_faces out
         /\ d_tent_centers d = el_tentcenters out
         /\ d_tent_nrs d = el_nrs out
         /\ d_tent_layers d = el_layers out.
Proof.
  eexists; eexists. split; [vm_compute; reflexivity|].
  eapply (scene_payloads mesh1 clock0 "6.2"%string float32_of_float tents1).
  vm_compute; reflexivity.
Defined.

Lemma GetData_returns_on_well_formed_witness :
  forallb (well_formed_record mesh1) rows2 = true
  /\ exists d printed,
       GetData clock0 mesh1 "6.2" float32_of_float tents2 = Ok (d, printed).
Proof.
  split; [vm_compute; reflexivity|].
  apply (GetData_returns_on_well_formed mesh1 clock0 "6.2"%string
           float32_of_float tents2 rows2);
    [reflexivity | discriminate | reflexivity | vm_compute; reflexivity].
Defined.

Lemma faces_and_normals_of_block_witness :
  exists out printed,
    GetElements2D clock0 mesh1 tents2 = Ok (out, printed)
    /\ GetFacesAndNormals (group4 1 (el_vertices out))
       = Ok (group4 1 (el_faces out), group4 1 (el_normals out)).
Proof.
  eexists; eexists. split; [vm_compute; reflexivity|].
  eapply (faces_and_normals_of_block mesh1 clock0 tents2 _ _ rows2);
    [vm_compute; reflexivity | reflexivity | vm_compute; reflexivity
    | cbn; lia].
Defined.

Lemma returns_only_on_triangles_witness :
  exists out printed,
    GetElements2D clock0 mesh1 tents2 = Ok (out, printed)
    /\ exists rows trows,
         reshape4 (tents_data tents2) = Ok rows
         /\ reshape4 (tents_times tents2) = Ok trows
         /\ length rows <= length trows
         /\ forall d, In d rows ->
              exists nr layer vnr elnr,
                d = [nr; layer; vnr; elnr] /\ triangle_around mesh1 vnr elnr.
Proof.
  eexists; eexists. split; [vm_compute; reflexivity|].
  eapply (returns_only_on_triangles mesh1 clock0 tents2).
  vm_compute; reflexivity.
Defined.

Lemma faces_are_counterclockwise_witness :
  volume6 regularR <> 0%R
  /\ exists fcs nrmls,
       GetFacesAndNormals regularR = Ok (fcs, nrmls)
       /\ Forall2 (perpendicular_to_face regularR) fcs nrmls
       /\ Forall2 (counterclockwise regularR) fcs nrmls.
Proof.
  split; [exact regularR_volume|].
  apply (faces_are_counterclockwise regularR).
  - reflexivity.
  - repeat constructor.
  - exact regularR_volume.
Defined.

Lemma kernel_ignores_translation_witness :
  GetFacesAndNormals (translate [1; 2; 3]%R regularR)
  = GetFacesAndNormals regularR.
Proof.
  apply (kernel_ignores_translation regularR [1; 2; 3]%R).
  - reflexivity.
  - repeat constructor.
  - reflexivity.
  - exact regularR_volume.
Defined.

Lemma sphere_holds_the_vertices_witness :
  exists d printed,
    GetData clockR meshR "6.2" castR tentsR = Ok (d, printed)
    /\ exists out,
         GetElements2D clockR meshR tentsR = Ok (out, printed)
         /\ forall v, In v (el_vertices out) ->
              (sqrt (dist2 v (d_slab_center d)) <= d_slab_radius d)%R.
Proof.
  eexists; eexists. split.
  { cbn -[Rplus Rminus Rmult Rdiv Ropp sqrt Rlt_dec Rmax Rmin]. reflexivity. }
  apply (sphere_holds_the_vertices clockR meshR "6.2"%string castR tentsR).
  cbn -[Rplus Rminus Rmult Rdiv Ropp sqrt Rlt_dec Rmax Rmin]. reflexivity.
Defined.

Lemma scene_faces_and_normals_witness :
  exists out printed,
    GetElements2D clockR meshR tentsR = Ok (out, printed)
    /\ volume6 (group4 0 (el_vertices out)) <> 0%R
    /\ Forall (fun n => np_norm n = 1%R) (group4 0 (el_normals out))
    /\ Forall2 (points_away_true (group4 0 (el_vertices out)))
               (group4 0 (el_faces out)) (group4 0 (el_normals out))
    /\ Forall2 (perpendicular_to_face (group4 0 (el_vertices out)))
               (group4 0 (el_faces out)) (group4 0 (el_normals out))
    /\ Forall2 (counterclockwise (group4 0 (el_vertices out)))
               (group4 0 (el_faces out)) (group4 0 (el_normals out)).
Proof.
  assert (V : volume6 [[0; 0; 0]; [0; 0; 2]; [2; 0; 0]; [0; 2; 0]]%R <> 0%R).
  { unfold volume6, dot, np_cross.
    cbn [zip_with fold_left nadd nsub nmul R_Number]. lra. }
  eexists; eexists. split.
  { cbn -[Rplus Rminus Rmult Rdiv Ropp sqrt Rlt_dec Rmax Rmin]. reflexivity. }
  split; [exact V|].
  eapply (scene_faces_and_normals clockR meshR tentsR _ _ [[0; 0; 0; 0]%Z] 0).
  - cbn -[Rplus Rminus Rmult Rdiv Ropp sqrt Rlt_dec Rmax Rmin]. reflexivity.
  - reflexivity.
  - reflexivity.
  - cbn; lia.
  - exact V.
Defined.

End FurtherConcrete.
